(** * The Galileo trace loggers of the Go demos

  Two Go programs of the repository define a [Logger] that collects
  traces and spans and submits them to the ingestion endpoint:

  - [src/golang/v2/main.go]: the buffered logger, module [Buffered];
  - [src/unnamed/part_001]: the single-trace logger with a dry-run
    mode, module [Single].

  Both are embedded below function by function.  Go references
  ([*GalileoTrace], [map[string]interface{}], the backing array of a
  [[]string]) are locations of an explicit heap, so that sharing
  between the caller and the logger is kept.  What comes from outside the program is an input of the model:
  the identifiers of [uuid.New], the readings of [time.Now], and the
  behaviour of [net/http] and [encoding/json], gathered in a record
  [Env]. *)

From Stdlib Require Import ZArith String.
From stdpp Require Import base option gmap strings list.

Local Open Scope Z_scope.

(** ** Go values shared by the two programs *)

Module Go.

(** Address of a heap object. *)
Definition loc := positive.

(** A dynamically typed value ([interface{}]).  A float is kept as its
    IEEE-754 bit pattern: no arithmetic is done on it here.  Any other
    value (a slice, a nested map) is kept as its printed form. *)
Inductive Value :=
| VNil
| VStr (s : string)
| VInt (n : Z)
| VBool (b : bool)
| VFloat (bits : Z)
| VOther (repr : string).

(** The store of [map[string]interface{}] objects.  A map variable
    holds [None] (the nil map) or the address of a map. *)
Abbreviation MapHeap := (gmap loc (gmap string Value)).

(** [strings.Join(elems, sep)]. *)
Definition Join (elems : list string) (sep : string) : string :=
  String.concat sep elems.

(** [make(map[string]interface{})] when the variable is nil. *)
Definition ensureMap (md : option loc) (maps : MapHeap) : loc * MapHeap :=
  match md with
  | Some r => (r, maps)
  | None => let r := fresh (dom maps) in (r, <[r := ∅]> maps)
  end.

(** The contents of the map a variable designates. *)
Definition mapContents (maps : MapHeap) (r : loc) : gmap string Value :=
  default ∅ (maps !! r).

(** The entries a map variable shows; the nil map shows none. *)
Definition entries (maps : MapHeap) (md : option loc) : gmap string Value :=
  match md with
  | Some r => mapContents maps r
  | None => ∅
  end.

(** [m[k] = v] on the map at address [r]. *)
Definition mapAssign (r : loc) (k : string) (v : Value) (maps : MapHeap)
  : MapHeap :=
  <[r := <[k := v]> (mapContents maps r)]> maps.

(** A [[]string] value: nil, or a window on a backing array, given by
    the address of the array, the index of its first element, its
    length and its capacity. *)
Inductive Slice :=
| NilSlice
| MkSlice (array : loc) (offset len cap : nat).

(** The store of backing arrays; an array has a fixed size. *)
Abbreviation ArrayHeap := (gmap loc (list string)).

Definition sliceLen (s : Slice) : nat :=
  match s with
  | NilSlice => 0
  | MkSlice _ _ n _ => n
  end.

Definition sliceCap (s : Slice) : nat :=
  match s with
  | NilSlice => 0
  | MkSlice _ _ _ c => c
  end.

(** The elements a slice shows. *)
Definition sliceElems (arrays : ArrayHeap) (s : Slice) : list string :=
  match s with
  | NilSlice => []
  | MkSlice a off n _ => take n (drop off (default [] (arrays !! a)))
  end.

(** What the run-time system keeps true of a slice: its window up to
    the capacity lies within its array. *)
Definition wfSlice (arrays : ArrayHeap) (s : Slice) : Prop :=
  match s with
  | NilSlice => True
  | MkSlice a off n c =>
      (n <= c)%nat /\
      exists arr, arrays !! a = Some arr /\ (off + c <= length arr)%nat
  end.

(** [append(s, xs...)].  When the capacity of [s] has room for the
    elements of [xs], they are copied into the array of [s] behind its
    window, whoever else refers to that array, and the result is [s]
    made longer.  Otherwise the elements of both go to a new array;
    [growslice], given the old capacity and the length needed, is the
    capacity that the run-time system chooses for it, the spare cells
    holding the zero value. *)
Definition appendSlice (growslice : nat -> nat -> nat) (s xs : Slice)
    (arrays : ArrayHeap) : Slice * ArrayHeap :=
  let added := sliceElems arrays xs in
  let newLen := (sliceLen s + sliceLen xs)%nat in
  if (newLen <=? sliceCap s)%nat
  then
    match s with
    | NilSlice => (NilSlice, arrays)
    | MkSlice a off n c =>
        (MkSlice a off newLen c, alter (list_inserts (off + n) added) a arrays)
    end
  else
    let newCap := Nat.max newLen (growslice (sliceCap s) newLen) in
    let a := fresh (dom arrays) in
    (MkSlice a 0 newLen newCap,
     <[a := sliceElems arrays s ++ added ++ replicate (newCap - newLen) ""]> arrays).

(** Whether [append(s, xs...)] leaves the window of [t] alone: it does
    unless it writes in place, into the array of [t], cells that [t]
    shows. *)
Definition appendSpares (s xs t : Slice) : bool :=
  match s, t with
  | MkSlice a off n c, MkSlice a' off' n' _ =>
      negb ((n + sliceLen xs <=? c)%nat && Pos.eqb a a'
            && (off + n <? off' + n')%nat && (off' <? off + n + sliceLen xs)%nat)
  | _, _ => true
  end.

(** Go's [error] values that the loggers build or pass on. *)
Inductive error :=
| errLib (msg : string)                       (* returned by a library call *)
| errNew (msg : string)                       (* fmt.Errorf without verbs *)
| errWrap (prefix : string) (inner : error)   (* fmt.Errorf("<prefix>: %w", err) *)
| errStatus (prefix : string) (code : Z) (body : string).
                                              (* fmt.Errorf with the status code and the body *)

(** An [*http.Request] as the loggers build it. *)
Inductive Payload :=
| JSONFields (fields : list (string * string)) (* json.Marshal of a map[string]string *)
| JSONBytes (data : string).                   (* bytes produced by an earlier Marshal *)

Record Request := mkRequest {
  Method : string;
  URL : string;
  Header : list (string * string);
  Body : option Payload
}.

(** [req.Header.Set(k, v)], with the key as the program writes it. *)
Definition HeaderSet (k v : string) (req : Request) : Request :=
  mkRequest (Method req) (URL req)
            (filter (fun kv => kv.1 ≠ k) (Header req) ++ [(k, v)]) (Body req).

Record Response := mkResponse {
  StatusCode : Z;
  RespBody : string
}.

Definition StatusOK : Z := 200.
Definition StatusCreated : Z := 201.

(** A Go result pair [(value, err)] of which one side is meaningful. *)
Inductive result (A : Type) :=
| Ok (a : A)
| Err (e : error).
Arguments Ok {A} a.
Arguments Err {A} e.

(** How a call ends: it returns, or the process stops. *)
Inductive Outcome (A : Type) :=
| Done (a : A)
| Fatal (msg : string) (cause : option error)  (* log.Fatal, log.Fatalf: exit status 1 *)
| Panic (msg : string).                        (* run-time panic *)
Arguments Done {A} a.
Arguments Fatal {A} msg cause.
Arguments Panic {A} msg.

Definition obind {A B} (m : Outcome A) (k : A -> Outcome B) : Outcome B :=
  match m with
  | Done a => k a
  | Fatal msg cause => Fatal msg cause
  | Panic msg => Panic msg
  end.

Definition nilDereference : string :=
  "invalid memory address or nil pointer dereference".

End Go.

Import Go.

#[global] Instance outcome_bind : MBind Outcome := fun A B f m => obind m f.
#[global] Instance outcome_ret : MRet Outcome := @Done.

(** ** The buffered logger: [src/golang/v2/main.go] *)

Module Buffered.

Definition galileoAPIBaseURL : string := "https://api.galileo.ai".

(** *** Public configuration structs *)

Module LoggerConfig.
Record t := mk {
  ProjectName : string;
  LogStreamName : string;
  APIKey : string;
  AuthMethod : string
}.
End LoggerConfig.

Module TraceConfig.
Record t := mk {
  Name : string;
  Input : string;
  Tags : list string;
  Metadata : option loc
}.
End TraceConfig.

Module SpanConfig.
Record t := mk {
  Name : string;
  Input : Value;
  Output : Value;
  DurationNs : Z;
  Metadata : option loc;
  Tags : list string;
  Error : string;
  Type_ : string
}.
End SpanConfig.

Module LlmSpanConfig.
Record t := mk {
  Input : string;
  Output : string;
  Model : string;
  NumInputTokens : Z;
  NumOutputTokens : Z;
  TotalTokens : Z;
  DurationNs : Z;
  Metadata : option loc;
  Tags : list string
}.
End LlmSpanConfig.

Module ConcludeConfig.
Record t := mk {
  Output : string;
  DurationNs : Z;
  Tags : list string
}.
End ConcludeConfig.

(** *** Native structs

    A [time.Time] is the number of nanoseconds since the zero time, so
    that the zero value of the type (an unset timestamp) is [0] and
    [t.Add(d)] is [t + d]. *)

Module GalileoSpan.
Record t := mk {
  ID : string;
  Name : string;
  Input : Value;
  Output : Value;
  StartTime : Z;
  EndTime : Z;
  Type_ : string;
  Status : string;
  Metadata : option loc
}.
End GalileoSpan.

Module GalileoTrace.
Record t := mk {
  ID : string;
  Name : string;
  Input : string;
  Output : string;
  Spans : list GalileoSpan.t;
  Metadata : option loc;
  StartTime : Z;
  EndTime : Z
}.

Definition set_Spans (spans : list GalileoSpan.t) (tr : t) : t :=
  mk (ID tr) (Name tr) (Input tr) (Output tr) spans (Metadata tr)
     (StartTime tr) (EndTime tr).

Definition set_Output (out : string) (tr : t) : t :=
  mk (ID tr) (Name tr) (Input tr) out (Spans tr) (Metadata tr)
     (StartTime tr) (EndTime tr).

Definition set_EndTime (e : Z) (tr : t) : t :=
  mk (ID tr) (Name tr) (Input tr) (Output tr) (Spans tr) (Metadata tr)
     (StartTime tr) e.

Definition set_Metadata (md : option loc) (tr : t) : t :=
  mk (ID tr) (Name tr) (Input tr) (Output tr) (Spans tr) md
     (StartTime tr) (EndTime tr).
End GalileoTrace.

(** *** The logger and the state of the program around it *)

Record Logger := mkLogger {
  config : LoggerConfig.t;
  projectID : string;
  logStreamID : string;
  accessToken : string;
  sessionID : string;
  traceBuffer : list loc;          (* []*GalileoTrace *)
  currentTrace : option loc        (* *GalileoTrace, None for nil *)
}.

Definition set_traceBuffer (buf : list loc) (l : Logger) : Logger :=
  mkLogger (config l) (projectID l) (logStreamID l) (accessToken l)
           (sessionID l) buf (currentTrace l).

Definition set_currentTrace (cur : option loc) (l : Logger) : Logger :=
  mkLogger (config l) (projectID l) (logStreamID l) (accessToken l)
           (sessionID l) (traceBuffer l) cur.

Definition set_accessToken (tok : string) (l : Logger) : Logger :=
  mkLogger (config l) (projectID l) (logStreamID l) tok
           (sessionID l) (traceBuffer l) (currentTrace l).

Definition set_projectID (pid : string) (l : Logger) : Logger :=
  mkLogger (config l) pid (logStreamID l) (accessToken l)
           (sessionID l) (traceBuffer l) (currentTrace l).

Definition set_logStreamID (lsid : string) (l : Logger) : Logger :=
  mkLogger (config l) (projectID l) lsid (accessToken l)
           (sessionID l) (traceBuffer l) (currentTrace l).

Definition set_sessionID (sid : string) (l : Logger) : Logger :=
  mkLogger (config l) (projectID l) (logStreamID l) (accessToken l)
           sid (traceBuffer l) (currentTrace l).

(** The heap and the output streams.  [R] is the state of the remote
    service; [sent] lists the requests handed to the HTTP client, oldest
    first. *)
Record World (R : Type) := mkWorld {
  traces : gmap loc GalileoTrace.t;
  maps : MapHeap;
  logged : list string;            (* lines written by package log *)
  printed : list string;           (* lines written to standard output *)
  net : R;
  sent : list Request
}.
Arguments mkWorld {R}.
Arguments traces {R}.
Arguments maps {R}.
Arguments logged {R}.
Arguments printed {R}.
Arguments net {R}.
Arguments sent {R}.

Section Local.
Context {R : Type}.

Definition set_traces (ts : gmap loc GalileoTrace.t) (w : World R) : World R :=
  mkWorld ts (maps w) (logged w) (printed w) (net w) (sent w).

Definition set_maps (ms : MapHeap) (w : World R) : World R :=
  mkWorld (traces w) ms (logged w) (printed w) (net w) (sent w).

(** [log.Println(msg)] *)
Definition logPrintln (msg : string) (w : World R) : World R :=
  mkWorld (traces w) (maps w) (logged w ++ [msg]) (printed w) (net w) (sent w).

(** [fmt.Printf] of one line *)
Definition fmtPrint (msg : string) (w : World R) : World R :=
  mkWorld (traces w) (maps w) (logged w) (printed w ++ [msg]) (net w) (sent w).

(** [metadata["tags"] = strings.Join(tags, ",")], allocating the map when
    it is nil: the common prefix of StartTraceWithContext and AddSpan. *)
Definition foldTags (tags : list string) (md : option loc) (ms : MapHeap)
  : option loc * MapHeap :=
  match tags with
  | [] => (md, ms)
  | _ :: _ =>
      let '(r, ms1) := ensureMap md ms in
      (Some r, mapAssign r "tags" (VStr (Join tags ",")) ms1)
  end.

(** [func (l *Logger) StartTraceWithContext(_ context.Context, config TraceConfig)] *)
Definition StartTraceWithContext (cfg : TraceConfig.t) (id : string) (now : Z)
    (l : Logger) (w : World R) : Logger * World R :=
  let '(metadata, ms) :=
    foldTags (TraceConfig.Tags cfg) (TraceConfig.Metadata cfg) (maps w) in
  let tr := GalileoTrace.mk id (TraceConfig.Name cfg) (TraceConfig.Input cfg)
                            "" [] metadata now 0 in
  let p := fresh (dom (traces w)) in
  (set_currentTrace (Some p) l,
   set_traces (<[p := tr]> (traces w)) (set_maps ms w)).

(** The span that AddSpan builds, with the map heap after its writes. *)
Definition newSpan (cfg : SpanConfig.t) (id : string) (now : Z) (ms : MapHeap)
  : GalileoSpan.t * MapHeap :=
  let startTime := now in
  let '(metadata, ms1) :=
    foldTags (SpanConfig.Tags cfg) (SpanConfig.Metadata cfg) ms in
  let '(status, metadata, ms2) :=
    if String.eqb (SpanConfig.Error cfg) "" then ("SUCCESS"%string, metadata, ms1)
    else
      let '(r, ms') := ensureMap metadata ms1 in
      ("ERROR"%string, Some r, mapAssign r "error" (VStr (SpanConfig.Error cfg)) ms') in
  let spanType :=
    if String.eqb (SpanConfig.Type_ cfg) "" then "tool"%string
    else SpanConfig.Type_ cfg in
  (GalileoSpan.mk id (SpanConfig.Name cfg) (SpanConfig.Input cfg)
                  (SpanConfig.Output cfg) startTime
                  (startTime + SpanConfig.DurationNs cfg)
                  spanType status metadata,
   ms2).

(** [l.currentTrace.Spans = append(l.currentTrace.Spans, span)] *)
Definition appendSpan (p : loc) (span : GalileoSpan.t) (w : World R) : World R :=
  set_traces
    (alter (fun tr => GalileoTrace.set_Spans (GalileoTrace.Spans tr ++ [span]) tr)
           p (traces w)) w.

(** [func (l *Logger) AddSpan(config SpanConfig)] *)
Definition AddSpan (cfg : SpanConfig.t) (id : string) (now : Z)
    (l : Logger) (w : World R) : Logger * World R :=
  match currentTrace l with
  | None => (l, logPrintln "Warning: AddSpan called without an active trace." w)
  | Some p =>
      let '(span, ms) := newSpan cfg id now (maps w) in
      (l, appendSpan p span (set_maps ms w))
  end.

(** The span that AddLlmSpan builds, with the map heap after its writes. *)
Definition newLlmSpan (cfg : LlmSpanConfig.t) (id : string) (now : Z) (ms : MapHeap)
  : GalileoSpan.t * MapHeap :=
  let startTime := now in
  let '(r, ms0) := ensureMap (LlmSpanConfig.Metadata cfg) ms in
  let ms1 :=
    match LlmSpanConfig.Tags cfg with
    | [] => ms0
    | _ :: _ => mapAssign r "tags" (VStr (Join (LlmSpanConfig.Tags cfg) ",")) ms0
    end in
  let ms2 := mapAssign r "model" (VStr (LlmSpanConfig.Model cfg)) ms1 in
  let ms3 := mapAssign r "llm.token_count.input"
                       (VInt (LlmSpanConfig.NumInputTokens cfg)) ms2 in
  let ms4 := mapAssign r "llm.token_count.output"
                       (VInt (LlmSpanConfig.NumOutputTokens cfg)) ms3 in
  let ms5 := mapAssign r "llm.token_count.total"
                       (VInt (LlmSpanConfig.TotalTokens cfg)) ms4 in
  (GalileoSpan.mk id "llm-span" (VStr (LlmSpanConfig.Input cfg))
                  (VStr (LlmSpanConfig.Output cfg)) startTime
                  (startTime + LlmSpanConfig.DurationNs cfg)
                  "llm" "SUCCESS" (Some r),
   ms5).

(** [func (l *Logger) AddLlmSpan(config LlmSpanConfig)] *)
Definition AddLlmSpan (cfg : LlmSpanConfig.t) (id : string) (now : Z)
    (l : Logger) (w : World R) : Logger * World R :=
  match currentTrace l with
  | None => (l, logPrintln "Warning: AddLlmSpan called without an active trace." w)
  | Some p =>
      let '(span, ms) := newLlmSpan cfg id now (maps w) in
      (l, appendSpan p span (set_maps ms w))
  end.

(** The writes of Conclude to the trace at [p]. *)
Definition concludeTrace (cfg : ConcludeConfig.t) (tr : GalileoTrace.t)
    (ms : MapHeap) : GalileoTrace.t * MapHeap :=
  let tr1 := GalileoTrace.set_Output (ConcludeConfig.Output cfg) tr in
  let tr2 := GalileoTrace.set_EndTime
               (GalileoTrace.StartTime tr1 + ConcludeConfig.DurationNs cfg) tr1 in
  match ConcludeConfig.Tags cfg with
  | [] => (tr2, ms)
  | _ :: _ =>
      let '(r, ms1) := ensureMap (GalileoTrace.Metadata tr2) ms in
      (GalileoTrace.set_Metadata (Some r) tr2,
       mapAssign r "completion_tags" (VStr (Join (ConcludeConfig.Tags cfg) ",")) ms1)
  end.

(** [func (l *Logger) Conclude(config ConcludeConfig)].  A dereference of
    an address that holds no trace cannot happen in a run of the program
    (see [wf]); the model leaves the heap as it is there. *)
Definition Conclude (cfg : ConcludeConfig.t) (l : Logger) (w : World R)
  : Logger * World R :=
  match currentTrace l with
  | None => (l, logPrintln "Warning: Conclude called without an active trace." w)
  | Some p =>
      let w1 :=
        match traces w !! p with
        | Some tr =>
            let '(tr', ms) := concludeTrace cfg tr (maps w) in
            set_traces (<[p := tr']> (traces w)) (set_maps ms w)
        | None => w
        end in
      (set_currentTrace None (set_traceBuffer (traceBuffer l ++ [p]) l), w1)
  end.

End Local.

(** *** The calls that leave the process *)

Record ProjectDBThin := mkProject { ProjectID_ : string; ProjectName_ : string }.
Record LogStreamResponse := mkLogStream { StreamID_ : string; StreamName_ : string }.

Record LogTracesIngestRequest := mkIngest {
  LogStreamID : string;
  SessionID : string;
  Traces : list loc
}.

(** The libraries and the remote service.  A decoder gives the value
    left in the target variable by [json.NewDecoder(body).Decode(&v)],
    whose error this program never reads. *)
Record Env (R : Type) := mkEnv {
  (* httpClient.Do(req): the reply or the transport error, and the
     service afterwards *)
  roundTrip : Request -> R -> result Response * R;
  (* the error of http.NewRequestWithContext for this URL, if any *)
  urlError : string -> option error;
  (* json.Marshal(ingestRequest), which follows the pointers *)
  marshalIngest : LogTracesIngestRequest -> gmap loc GalileoTrace.t -> MapHeap
                  -> result string;
  decodeSessionID : string -> string;
  decodeAccessToken : string -> string;
  decodeProjects : string -> list ProjectDBThin;
  decodeProject : string -> ProjectDBThin;
  decodeLogStreams : string -> list LogStreamResponse;
  decodeLogStream : string -> LogStreamResponse
}.
Arguments roundTrip {R}.
Arguments urlError {R}.
Arguments marshalIngest {R}.
Arguments decodeSessionID {R}.
Arguments decodeAccessToken {R}.
Arguments decodeProjects {R}.
Arguments decodeProject {R}.
Arguments decodeLogStreams {R}.
Arguments decodeLogStream {R}.

Section Remote.
Context {R : Type}.
Variable E : Env R.

(** [l.httpClient.Do(req)] *)
Definition Do (req : Request) (w : World R) : result Response * World R :=
  let '(res, n) := roundTrip E req (net w) in
  (res, mkWorld (traces w) (maps w) (logged w) (printed w) n (sent w ++ [req])).

(** [http.NewRequestWithContext(ctx, method, url, body)] *)
Definition NewRequestWithContext (method url : string) (body : option Payload)
  : result Request :=
  match urlError E url with
  | Some e => Err e
  | None => Ok (mkRequest method url [] body)
  end.

(** [func (l *Logger) setAuthHeader(req *http.Request)] *)
Definition setAuthHeader (l : Logger) (req : Request) : Request :=
  if String.eqb (LoggerConfig.AuthMethod (config l)) "bearer_token"
  then HeaderSet "Authorization" ("Bearer " +:+ accessToken l) req
  else HeaderSet "Galileo-API-Key" (LoggerConfig.APIKey (config l)) req.

Definition statusAccepted (resp : Response) : bool :=
  (StatusCode resp =? StatusOK) || (StatusCode resp =? StatusCreated).

(** [func (l *Logger) FlushWithContext(ctx context.Context) error].  A
    cancelled or expired [ctx] shows as an error of [Do]. *)
Definition FlushWithContext (l : Logger) (w : World R)
  : option error * Logger * World R :=
  match traceBuffer l with
  | [] => (None, l, w)
  | _ :: _ =>
      let ingestRequest := mkIngest (logStreamID l) (sessionID l) (traceBuffer l) in
      match marshalIngest E ingestRequest (traces w) (maps w) with
      | Err e => (Some (errWrap "failed to marshal traces" e), l, w)
      | Ok body =>
          let url := galileoAPIBaseURL +:+ "/projects/" +:+ projectID l +:+ "/traces" in
          match NewRequestWithContext "POST" url (Some (JSONBytes body)) with
          | Err e => (Some (errWrap "failed to create flush request" e), l, w)
          | Ok req =>
              let req := HeaderSet "Content-Type" "application/json"
                                   (setAuthHeader l req) in
              let '(res, w1) := Do req w in
              match res with
              | Err e => (Some (errWrap "failed to flush traces" e), l, w1)
              | Ok resp =>
                  if negb (statusAccepted resp)
                  then (Some (errStatus "flush failed with status"
                                        (StatusCode resp) (RespBody resp)), l, w1)
                  else (None, set_traceBuffer [] l, w1)
              end
          end
      end
  end.

(** [func (l *Logger) Close()] *)
Definition Close (l : Logger) (w : World R) : Logger * World R :=
  let '(_, l', w') := FlushWithContext l w in (l', w').

(** [func (l *Logger) StartSession(name string) (string, error)].  The
    error of the request constructor is dropped there, so a rejected URL
    leaves a nil request, which setAuthHeader dereferences. *)
Definition StartSession (name : string) (l : Logger) (w : World R)
  : Outcome (result string * Logger * World R) :=
  let url := galileoAPIBaseURL +:+ "/projects/" +:+ projectID l +:+ "/sessions" in
  let body := JSONFields [("log_stream_id", logStreamID l); ("name", name)] in
  match NewRequestWithContext "POST" url (Some body) with
  | Err _ => Panic nilDereference
  | Ok req =>
      let req := HeaderSet "Content-Type" "application/json" (setAuthHeader l req) in
      let '(res, w1) := Do req w in
      match res with
      | Err e => Done (Err e, l, w1)
      | Ok resp =>
          if negb (statusAccepted resp)
          then Done (Err (errStatus "session creation failed with status"
                                    (StatusCode resp) (RespBody resp)), l, w1)
          else
            let sid := decodeSessionID E (RespBody resp) in
            Done (Ok sid, set_sessionID sid l,
                  fmtPrint ("Started session '" +:+ name +:+ "' with ID: " +:+ sid) w1)
      end
  end.

(** [func (l *Logger) getAccessToken(ctx context.Context) (string, error)].
    The URL is a constant that the request constructor accepts. *)
Definition getAccessToken (l : Logger) (w : World R) : result string * World R :=
  let url := galileoAPIBaseURL +:+ "/login/api_key" in
  let body := JSONFields [("api_key", LoggerConfig.APIKey (config l))] in
  let req := HeaderSet "Content-Type" "application/json"
                       (mkRequest "POST" url [] (Some body)) in
  let '(res, w1) := Do req w in
  match res with
  | Err e => (Err e, w1)
  | Ok resp =>
      if negb (StatusCode resp =? StatusOK)
      then (Err (errStatus "status:" (StatusCode resp) (RespBody resp)), w1)
      else (Ok (decodeAccessToken E (RespBody resp)), w1)
  end.

(** [func (l *Logger) createProject(ctx context.Context) (string, error)] *)
Definition createProject (l : Logger) (w : World R) : result string * World R :=
  let url := galileoAPIBaseURL +:+ "/projects" in
  let body := JSONFields [("name", LoggerConfig.ProjectName (config l));
                          ("type", "gen_ai")] in
  let req := setAuthHeader l
               (HeaderSet "Content-Type" "application/json"
                          (mkRequest "POST" url [] (Some body))) in
  let '(res, w1) := Do req w in
  match res with
  | Err e => (Err e, w1)
  | Ok resp =>
      if negb (statusAccepted resp)
      then (Err (errStatus "status:" (StatusCode resp) (RespBody resp)), w1)
      else (Ok (ProjectID_ (decodeProject E (RespBody resp))), w1)
  end.

(** The loop [for _, p := range projects { if p.Name == projectName
    { return p.ID, nil } }]: the first entry of that name. *)
Fixpoint findProject (projectName : string) (projects : list ProjectDBThin)
  : option ProjectDBThin :=
  match projects with
  | [] => None
  | p :: rest =>
      if String.eqb (ProjectName_ p) projectName then Some p
      else findProject projectName rest
  end.

(** [func (l *Logger) getOrCreateProject(ctx, projectName) (string, error)] *)
Definition getOrCreateProject (l : Logger) (projectName : string) (w : World R)
  : result string * World R :=
  let url := galileoAPIBaseURL +:+ "/projects/all" in
  let req := setAuthHeader l (mkRequest "GET" url [] None) in
  let '(res, w1) := Do req w in
  match res with
  | Err e => (Err e, w1)
  | Ok resp =>
      let found :=
        if StatusCode resp =? StatusOK
        then findProject projectName (decodeProjects E (RespBody resp))
        else None in
      match found with
      | Some p =>
          (Ok (ProjectID_ p),
           fmtPrint ("Found existing project '" +:+ projectName +:+ "' with ID: "
                     +:+ ProjectID_ p) w1)
      | None =>
          createProject l
            (fmtPrint ("Project '" +:+ projectName +:+ "' not found, creating...") w1)
      end
  end.

(** [func (l *Logger) createLogStream(ctx context.Context) (string, error)] *)
Definition createLogStream (l : Logger) (w : World R)
  : Outcome (result string * World R) :=
  let url := galileoAPIBaseURL +:+ "/projects/" +:+ projectID l +:+ "/log_streams" in
  let body := JSONFields [("name", LoggerConfig.LogStreamName (config l))] in
  match NewRequestWithContext "POST" url (Some body) with
  | Err _ => Panic nilDereference
  | Ok req =>
      let req := setAuthHeader l (HeaderSet "Content-Type" "application/json" req) in
      let '(res, w1) := Do req w in
      match res with
      | Err e => Done (Err e, w1)
      | Ok resp =>
          if negb (statusAccepted resp)
          then Done (Err (errStatus "status:" (StatusCode resp) (RespBody resp)), w1)
          else Done (Ok (StreamID_ (decodeLogStream E (RespBody resp))), w1)
      end
  end.

Fixpoint findLogStream (logStreamName : string) (logStreams : list LogStreamResponse)
  : option LogStreamResponse :=
  match logStreams with
  | [] => None
  | ls :: rest =>
      if String.eqb (StreamName_ ls) logStreamName then Some ls
      else findLogStream logStreamName rest
  end.

(** [func (l *Logger) getOrCreateLogStream(ctx, logStreamName) (string, error)] *)
Definition getOrCreateLogStream (l : Logger) (logStreamName : string) (w : World R)
  : Outcome (result string * World R) :=
  let url := galileoAPIBaseURL +:+ "/projects/" +:+ projectID l +:+ "/log_streams" in
  match NewRequestWithContext "GET" url None with
  | Err _ => Panic nilDereference
  | Ok req =>
      let req := setAuthHeader l req in
      let '(res, w1) := Do req w in
      match res with
      | Err e => Done (Err e, w1)
      | Ok resp =>
          let found :=
            if StatusCode resp =? StatusOK
            then findLogStream logStreamName (decodeLogStreams E (RespBody resp))
            else None in
          match found with
          | Some ls =>
              Done (Ok (StreamID_ ls),
                    fmtPrint ("Found existing log stream '" +:+ logStreamName
                              +:+ "' with ID: " +:+ StreamID_ ls) w1)
          | None =>
              createLogStream l
                (fmtPrint ("Log stream '" +:+ logStreamName
                           +:+ "' not found, creating...") w1)
          end
      end
  end.

(** [func NewLoggerWithConfig(config LoggerConfig) *Logger] *)
Definition NewLoggerWithConfig (cfg : LoggerConfig.t) (w : World R)
  : Outcome (Logger * World R) :=
  if String.eqb (LoggerConfig.APIKey cfg) ""
  then Fatal "GALILEO_API_KEY must be provided" None
  else
    let logger := mkLogger cfg "" "" "" "" [] None in
    '(logger, w) ←
      (if String.eqb (LoggerConfig.AuthMethod cfg) "bearer_token"
       then
         match getAccessToken logger w with
         | (Err e, _) => Fatal "Failed to get access token" (Some e)
         | (Ok tok, w1) => Done (set_accessToken tok logger, w1)
         end
       else Done (logger, w));
    '(logger, w) ←
      match getOrCreateProject logger (LoggerConfig.ProjectName cfg) w with
      | (Err e, _) => Fatal "Failed to get or create project" (Some e)
      | (Ok pid, w1) => Done (set_projectID pid logger, w1)
      end;
    '(res, w) ← getOrCreateLogStream logger (LoggerConfig.LogStreamName cfg) w;
    match res with
    | Err e => Fatal "Failed to get or create log stream" (Some e)
    | Ok lsid => Done (set_logStreamID lsid logger, w)
    end.

(** *** Runs of a program that uses the logger

    A client of the logger calls its methods one after the other; in
    between it may create or rewrite maps of its own, which it passes in
    the [Metadata] fields.  The identifier and the clock reading a call
    consumes come with the call. *)

Inductive Call :=
| CallStartTrace (cfg : TraceConfig.t) (id : string) (now : Z)
| CallAddSpan (cfg : SpanConfig.t) (id : string) (now : Z)
| CallAddLlmSpan (cfg : LlmSpanConfig.t) (id : string) (now : Z)
| CallConclude (cfg : ConcludeConfig.t)
| CallFlush
| CallClose
| CallStartSession (name : string)
| CallerWritesMap (r : loc) (m : gmap string Value).

Definition exec (c : Call) (st : Logger * World R) : Outcome (Logger * World R) :=
  let '(l, w) := st in
  match c with
  | CallStartTrace cfg id now => Done (StartTraceWithContext cfg id now l w)
  | CallAddSpan cfg id now => Done (AddSpan cfg id now l w)
  | CallAddLlmSpan cfg id now => Done (AddLlmSpan cfg id now l w)
  | CallConclude cfg => Done (Conclude cfg l w)
  | CallFlush => let '(_, l', w') := FlushWithContext l w in Done (l', w')
  | CallClose => Done (Close l w)
  | CallStartSession name =>
      '(_, l', w') ← StartSession name l w; Done (l', w')
  | CallerWritesMap r m => Done (l, set_maps (<[r := m]> (maps w)) w)
  end.

Fixpoint run (calls : list Call) (st : Logger * World R)
  : Outcome (Logger * World R) :=
  match calls with
  | [] => Done st
  | c :: rest => st' ← exec c st; run rest st'
  end.

(** A logger as NewLoggerWithConfig returns it: nothing buffered, no
    active trace. *)
Definition initial (l : Logger) : Prop :=
  traceBuffer l = [] /\ currentTrace l = None.

(** The states a program can be in. *)
Definition reachable (st : Logger * World R) : Prop :=
  exists l0 w0 calls, initial l0 /\ run calls (l0, w0) = Done st.

End Remote.

(** The calls that add a span, for runs between StartTrace and Conclude. *)
Inductive AddCall :=
| AddGeneric (cfg : SpanConfig.t) (id : string) (now : Z)
| AddLlm (cfg : LlmSpanConfig.t) (id : string) (now : Z).

Definition applyAdd {R} (c : AddCall) (st : Logger * World R) : Logger * World R :=
  match c with
  | AddGeneric cfg id now => AddSpan cfg id now st.1 st.2
  | AddLlm cfg id now => AddLlmSpan cfg id now st.1 st.2
  end.

Definition applyAdds {R} (cs : list AddCall) (st : Logger * World R)
  : Logger * World R :=
  fold_left (fun st c => applyAdd c st) cs st.

(** The span is the one the call creates: it carries the identifier
    and the clock reading drawn by that call and the call's data. *)
Definition createdBy (c : AddCall) (s : GalileoSpan.t) : Prop :=
  match c with
  | AddGeneric cfg id now =>
      GalileoSpan.ID s = id /\
      GalileoSpan.Name s = SpanConfig.Name cfg /\
      GalileoSpan.Input s = SpanConfig.Input cfg /\
      GalileoSpan.Output s = SpanConfig.Output cfg /\
      GalileoSpan.StartTime s = now /\
      GalileoSpan.EndTime s = now + SpanConfig.DurationNs cfg /\
      GalileoSpan.Type_ s =
        (if String.eqb (SpanConfig.Type_ cfg) "" then "tool"
         else SpanConfig.Type_ cfg) /\
      GalileoSpan.Status s =
        (if String.eqb (SpanConfig.Error cfg) "" then "SUCCESS" else "ERROR")
  | AddLlm cfg id now =>
      GalileoSpan.ID s = id /\
      GalileoSpan.Name s = "llm-span" /\
      GalileoSpan.Input s = VStr (LlmSpanConfig.Input cfg) /\
      GalileoSpan.Output s = VStr (LlmSpanConfig.Output cfg) /\
      GalileoSpan.StartTime s = now /\
      GalileoSpan.EndTime s = now + LlmSpanConfig.DurationNs cfg /\
      GalileoSpan.Type_ s = "llm" /\
      GalileoSpan.Status s = "SUCCESS"
  end.

End Buffered.

(** ** The single-trace logger: [src/unnamed/part_001] *)

Module Single.

Module LoggerConfig.
(** The field [HTTPClient] is the client whose [Do] is [roundTrip] of
    the environment below. *)
Record t := mk {
  ProjectID : string;
  LogStreamID : string;
  APIKey : string;
  BaseURL : string;
  DryRun : bool
}.

Definition set_BaseURL (u : string) (c : t) : t :=
  mk (ProjectID c) (LogStreamID c) (APIKey c) u (DryRun c).

Definition set_DryRun (b : bool) (c : t) : t :=
  mk (ProjectID c) (LogStreamID c) (APIKey c) (BaseURL c) b.
End LoggerConfig.

Record ProjectV2 := mkProjectV2 { ProjectID_ : string; ProjectName_ : string }.
Record LogStreamDB := mkLogStreamDB { StreamID_ : string; StreamName_ : string }.

(** The [Tags] fields are slices: the logger stores the slice it is
    given, so it shares the backing array with the caller. *)
Module TraceConfig.
Record t := mk {
  Input : string;
  Tags : Slice
}.
End TraceConfig.

Module SpanConfig.
Record t := mk {
  Name : string;
  Input : Value;
  Output : Value;
  DurationNs : Z;
  Tags : Slice;
  Metadata : option loc
}.
End SpanConfig.

Module LlmSpanConfig.
Record t := mk {
  Input : string;
  Output : string;
  Model : string;
  NumInputTokens : Z;
  NumOutputTokens : Z;
  TotalTokens : Z;
  DurationNs : Z;
  Metadata : option loc;
  Tags : Slice
}.
End LlmSpanConfig.

Module ConcludeConfig.
Record t := mk {
  Output : string;
  DurationNs : Z;
  Tags : Slice
}.
End ConcludeConfig.

Module Span.
Record t := mk {
  Name : string;
  Input : Value;
  Output : Value;
  DurationNs : Z;
  Metadata : option loc;
  Tags : Slice
}.
End Span.

(** [Spans] is a slice that the logger makes and that nothing else
    refers to, so a list holds it; the logger writes to no span after
    it has made it. *)
Module Trace.
Record t := mk {
  Input : string;
  Output : string;
  DurationNs : Z;
  Spans : list Span.t;
  Tags : Slice;
  Metadata : option loc
}.

Definition set_Spans (spans : list Span.t) (tr : t) : t :=
  mk (Input tr) (Output tr) (DurationNs tr) spans (Tags tr) (Metadata tr).

Definition set_Output (out : string) (tr : t) : t :=
  mk (Input tr) out (DurationNs tr) (Spans tr) (Tags tr) (Metadata tr).

Definition set_DurationNs (d : Z) (tr : t) : t :=
  mk (Input tr) (Output tr) d (Spans tr) (Tags tr) (Metadata tr).

Definition set_Tags (tags : Slice) (tr : t) : t :=
  mk (Input tr) (Output tr) (DurationNs tr) (Spans tr) tags (Metadata tr).
End Trace.

(** The trace is reached through the logger only, so [currentTrace]
    holds its value; the maps of the spans and the arrays of the tags
    stay behind addresses. *)
Record Logger := mkLogger {
  config : LoggerConfig.t;
  currentTrace : option Trace.t
}.

Definition set_currentTrace (cur : option Trace.t) (l : Logger) : Logger :=
  mkLogger (config l) cur.

Record World (R : Type) := mkWorld {
  maps : MapHeap;
  arrays : ArrayHeap;              (* backing arrays of the tag slices *)
  logged : list string;            (* lines written by package log *)
  net : R;
  sent : list Request;
  (* the capacity the run-time system gives to a slice that append
     moves to a new array *)
  growslice : nat -> nat -> nat
}.
Arguments mkWorld {R}.
Arguments maps {R}.
Arguments arrays {R}.
Arguments logged {R}.
Arguments net {R}.
Arguments sent {R}.
Arguments growslice {R}.

(** The libraries and the remote service.  Here the decoders' errors
    are read by the program. *)
Record Env (R : Type) := mkEnv {
  roundTrip : Request -> R -> result Response * R;
  urlError : string -> option error;
  (* json.MarshalIndent of {"events": [trace]} *)
  marshalEvents : Trace.t -> MapHeap -> ArrayHeap -> result string;
  QueryEscape : string -> string;
  decodeSearchProjects : string -> result (list ProjectV2);
  decodeCreateProject : string -> result ProjectV2;
  decodeGetLogStreams : string -> result (list LogStreamDB);
  decodeLogStream : string -> result LogStreamDB
}.
Arguments roundTrip {R}.
Arguments urlError {R}.
Arguments marshalEvents {R}.
Arguments QueryEscape {R}.
Arguments decodeSearchProjects {R}.
Arguments decodeCreateProject {R}.
Arguments decodeGetLogStreams {R}.
Arguments decodeLogStream {R}.

Section Ops.
Context {R : Type}.
Variable E : Env R.

Definition set_maps (ms : MapHeap) (w : World R) : World R :=
  mkWorld ms (arrays w) (logged w) (net w) (sent w) (growslice w).

Definition set_arrays (arrs : ArrayHeap) (w : World R) : World R :=
  mkWorld (maps w) arrs (logged w) (net w) (sent w) (growslice w).

Definition logPrintln (msg : string) (w : World R) : World R :=
  mkWorld (maps w) (arrays w) (logged w ++ [msg]) (net w) (sent w) (growslice w).

Definition Do (req : Request) (w : World R) : result Response * World R :=
  let '(res, n) := roundTrip E req (net w) in
  (res, mkWorld (maps w) (arrays w) (logged w) n (sent w ++ [req]) (growslice w)).

Definition NewRequestWithContext (method url : string) (body : option Payload)
  : result Request :=
  match urlError E url with
  | Some e => Err e
  | None => Ok (mkRequest method url [] body)
  end.

(** [func NewLoggerWithConfig(config LoggerConfig) *Logger] *)
Definition NewLoggerWithConfig (cfg : LoggerConfig.t) (w : World R)
  : Logger * World R :=
  let cfg :=
    if String.eqb (LoggerConfig.BaseURL cfg) ""
    then LoggerConfig.set_BaseURL "https://api.galileo.ai/v2" cfg else cfg in
  let '(cfg, w) :=
    if String.eqb (LoggerConfig.APIKey cfg) ""
    then (LoggerConfig.set_DryRun true cfg,
          logPrintln "GALILEO_API_KEY not set. Running in dry run mode." w)
    else (cfg, w) in
  let '(cfg, w) :=
    if negb (LoggerConfig.DryRun cfg) && String.eqb (LoggerConfig.ProjectID cfg) ""
    then (LoggerConfig.set_DryRun true cfg,
          logPrintln "GALILEO_PROJECT_ID is not set, but API key is present. Running in dry run mode." w)
    else (cfg, w) in
  let '(cfg, w) :=
    if negb (LoggerConfig.DryRun cfg) && String.eqb (LoggerConfig.LogStreamID cfg) ""
    then (LoggerConfig.set_DryRun true cfg,
          logPrintln "GALILEO_LOG_STREAM_ID could not be resolved. Running in dry run mode." w)
    else (cfg, w) in
  (mkLogger cfg None, w).

(** [func (l *Logger) StartTraceWithContext(ctx context.Context, config TraceConfig)] *)
Definition StartTraceWithContext (cfg : TraceConfig.t) (l : Logger) (w : World R)
  : Logger * World R :=
  (set_currentTrace
     (Some (Trace.mk (TraceConfig.Input cfg) "" 0 [] (TraceConfig.Tags cfg) None)) l,
   w).

(** [func (l *Logger) AddSpan(config SpanConfig) *Span]: the first
    component is the returned span, [None] for nil. *)
Definition AddSpan (cfg : SpanConfig.t) (l : Logger) (w : World R)
  : option Span.t * Logger * World R :=
  match currentTrace l with
  | None => (None, l, w)
  | Some tr =>
      let span := Span.mk (SpanConfig.Name cfg) (SpanConfig.Input cfg)
                          (SpanConfig.Output cfg) (SpanConfig.DurationNs cfg)
                          (SpanConfig.Metadata cfg) (SpanConfig.Tags cfg) in
      (Some span,
       set_currentTrace (Some (Trace.set_Spans (Trace.Spans tr ++ [span]) tr)) l,
       w)
  end.

(** The span that AddLlmSpan builds, with the map heap after its writes. *)
Definition newLlmSpan (cfg : LlmSpanConfig.t) (ms : MapHeap) : Span.t * MapHeap :=
  let '(r, ms0) := ensureMap (LlmSpanConfig.Metadata cfg) ms in
  let ms1 := mapAssign r "model" (VStr (LlmSpanConfig.Model cfg)) ms0 in
  let ms2 := mapAssign r "num_input_tokens"
                       (VInt (LlmSpanConfig.NumInputTokens cfg)) ms1 in
  let ms3 := mapAssign r "num_output_tokens"
                       (VInt (LlmSpanConfig.NumOutputTokens cfg)) ms2 in
  let ms4 := mapAssign r "total_tokens"
                       (VInt (LlmSpanConfig.TotalTokens cfg)) ms3 in
  (Span.mk "llm" (VStr (LlmSpanConfig.Input cfg)) (VStr (LlmSpanConfig.Output cfg))
           (LlmSpanConfig.DurationNs cfg) (Some r) (LlmSpanConfig.Tags cfg),
   ms4).

(** [func (l *Logger) AddLlmSpan(config LlmSpanConfig)] *)
Definition AddLlmSpan (cfg : LlmSpanConfig.t) (l : Logger) (w : World R)
  : Logger * World R :=
  match currentTrace l with
  | None => (l, w)
  | Some tr =>
      let '(span, ms) := newLlmSpan cfg (maps w) in
      (set_currentTrace (Some (Trace.set_Spans (Trace.Spans tr ++ [span]) tr)) l,
       set_maps ms w)
  end.

(** [func (l *Logger) Conclude(config ConcludeConfig)].  The tags of
    the trace are the slice that StartTrace was given: the [append] may
    write into the caller's array. *)
Definition Conclude (cfg : ConcludeConfig.t) (l : Logger) (w : World R)
  : Logger * World R :=
  match currentTrace l with
  | None => (l, w)
  | Some tr =>
      let tr1 := Trace.set_Output (ConcludeConfig.Output cfg) tr in
      let tr2 := Trace.set_DurationNs (ConcludeConfig.DurationNs cfg) tr1 in
      let '(tags, arrs) :=
        appendSlice (growslice w) (Trace.Tags tr2) (ConcludeConfig.Tags cfg)
                    (arrays w) in
      let tr3 := Trace.set_Tags tags tr2 in
      (set_currentTrace (Some tr3) l, set_arrays arrs w)
  end.

Definition statusAccepted (resp : Response) : bool :=
  (StatusCode resp =? StatusOK) || (StatusCode resp =? StatusCreated).

(** [func (l *Logger) FlushWithContext(ctx context.Context) error] *)
Definition FlushWithContext (l : Logger) (w : World R)
  : option error * Logger * World R :=
  match currentTrace l with
  | None => (Some (errNew "no trace to flush"), l, w)
  | Some traceToFlush =>
      let l := set_currentTrace None l in
      match marshalEvents E traceToFlush (maps w) (arrays w) with
      | Err e =>
          (Some (errWrap "failed to serialize trace" e),
           set_currentTrace (Some traceToFlush) l, w)
      | Ok traceData =>
          if LoggerConfig.DryRun (config l)
          then (None, l, logPrintln traceData (logPrintln "Dry Run: Trace data:" w))
          else
            let url := LoggerConfig.BaseURL (config l) +:+ "/projects/"
                       +:+ LoggerConfig.ProjectID (config l) +:+ "/log_streams/"
                       +:+ LoggerConfig.LogStreamID (config l) +:+ "/events" in
            match NewRequestWithContext "POST" url (Some (JSONBytes traceData)) with
            | Err e =>
                (Some (errWrap "failed to create request" e),
                 set_currentTrace (Some traceToFlush) l, w)
            | Ok req =>
                let req := HeaderSet "Authorization"
                             ("Bearer " +:+ LoggerConfig.APIKey (config l))
                             (HeaderSet "Content-Type" "application/json" req) in
                let '(res, w1) := Do req w in
                match res with
                | Err e =>
                    (Some (errWrap "failed to send trace to Galileo" e),
                     set_currentTrace (Some traceToFlush) l, w1)
                | Ok resp =>
                    if negb (statusAccepted resp)
                    then (Some (errStatus "failed to log trace, status code:"
                                          (StatusCode resp) (RespBody resp)),
                          set_currentTrace (Some traceToFlush) l, w1)
                    else (None, l, w1)
                end
            end
      end
  end.

(** [func makeAPIRequest(ctx, method, url, apiKey string, body io.Reader)] *)
Definition makeAPIRequest (method url apiKey : string) (body : option Payload)
    (w : World R) : result Response * World R :=
  match NewRequestWithContext method url body with
  | Err e => (Err (errWrap "failed to create request" e), w)
  | Ok req =>
      Do (HeaderSet "Content-Type" "application/json"
                    (HeaderSet "Authorization" ("Bearer " +:+ apiKey) req)) w
  end.

(** The loop of getProjectIDByName: the first project of exactly that
    name, or the empty identifier. *)
Fixpoint findProjectID (projectName : string) (projects : list ProjectV2) : string :=
  match projects with
  | [] => ""
  | project :: rest =>
      if String.eqb (ProjectName_ project) projectName then ProjectID_ project
      else findProjectID projectName rest
  end.

(** [func getProjectIDByName(ctx, apiKey, projectName string) (string, error)] *)
Definition getProjectIDByName (apiKey projectName : string) (w : World R)
  : result string * World R :=
  let listURL := "https://api.galileo.ai/v2/projects?name="
                 +:+ QueryEscape E projectName in
  let '(res, w1) := makeAPIRequest "GET" listURL apiKey None w in
  match res with
  | Err e => (Err (errWrap "failed to list projects" e), w1)
  | Ok resp =>
      if negb (StatusCode resp =? StatusOK)
      then (Err (errStatus "failed to list projects, status code:"
                           (StatusCode resp) (RespBody resp)), w1)
      else
        match decodeSearchProjects E (RespBody resp) with
        | Err e => (Err (errWrap "failed to decode project list response" e), w1)
        | Ok data => (Ok (findProjectID projectName data), w1)
        end
  end.

(** [func createProject(ctx, apiKey, projectName string) (string, error)] *)
Definition createProject (apiKey projectName : string) (w : World R)
  : result string * World R :=
  let body := JSONFields [("name", projectName)] in
  let '(res, w1) :=
    makeAPIRequest "POST" "https://api.galileo.ai/v2/projects" apiKey (Some body) w in
  match res with
  | Err e => (Err (errWrap "failed to create project" e), w1)
  | Ok resp =>
      if negb (StatusCode resp =? StatusCreated)
      then (Err (errStatus "failed to create project, status code:"
                           (StatusCode resp) (RespBody resp)), w1)
      else
        match decodeCreateProject E (RespBody resp) with
        | Err e => (Err (errWrap "failed to decode create project response" e), w1)
        | Ok data => (Ok (ProjectID_ data), w1)
        end
  end.

(** [func getLogStreamIDByName(ctx, apiKey, projectID, logStreamName string)] *)
Definition getLogStreamIDByName (apiKey projectID logStreamName : string)
    (w : World R) : result string * World R :=
  let url := "https://api.galileo.ai/v2/projects/" +:+ projectID
             +:+ "/log_streams?name=" +:+ logStreamName in
  let '(res, w1) := makeAPIRequest "GET" url apiKey None w in
  match res with
  | Err e => (Err (errWrap "failed to get log streams" e), w1)
  | Ok resp =>
      if negb (StatusCode resp =? StatusOK)
      then (Err (errStatus "failed to get log streams, status code:"
                           (StatusCode resp) (RespBody resp)), w1)
      else
        match decodeGetLogStreams E (RespBody resp) with
        | Err e => (Err (errWrap "failed to decode get log streams response" e), w1)
        | Ok data =>
            match data with
            | first :: _ => (Ok (StreamID_ first), w1)
            | [] => (Ok "", w1)
            end
        end
  end.

(** [func createLogStream(ctx, apiKey, projectID, logStreamName string)] *)
Definition createLogStream (apiKey projectID logStreamName : string) (w : World R)
  : result string * World R :=
  let body := JSONFields [("name", logStreamName)] in
  let url := "https://api.galileo.ai/v2/projects/" +:+ projectID +:+ "/log_streams" in
  let '(res, w1) := makeAPIRequest "POST" url apiKey (Some body) w in
  match res with
  | Err e => (Err (errWrap "failed to create log stream" e), w1)
  | Ok resp =>
      if negb (StatusCode resp =? StatusCreated)
      then (Err (errStatus "failed to create log stream, status code:"
                           (StatusCode resp) (RespBody resp)), w1)
      else
        match decodeLogStream E (RespBody resp) with
        | Err e => (Err (errWrap "failed to decode create log stream response" e), w1)
        | Ok data => (Ok (StreamID_ data), w1)
        end
  end.

(** [func getOrCreateLogStreamID(ctx, apiKey, projectID, logStreamName string)] *)
Definition getOrCreateLogStreamID (apiKey projectID logStreamName : string)
    (w : World R) : result string * World R :=
  if String.eqb projectID ""
  then (Err (errNew "project ID is required to get or create a log stream"), w)
  else if String.eqb logStreamName ""
  then (Err (errNew "log stream name is required"), w)
  else
    let '(res, w1) := getLogStreamIDByName apiKey projectID logStreamName w in
    match res with
    | Err e => (Err (errWrap "error searching for log stream" e), w1)
    | Ok logStreamID =>
        if negb (String.eqb logStreamID "")
        then (Ok logStreamID,
              logPrintln ("Found existing log stream '" +:+ logStreamName
                          +:+ "' with ID: " +:+ logStreamID) w1)
        else
          let w2 := logPrintln ("Log stream '" +:+ logStreamName
                                +:+ "' not found, creating a new one...") w1 in
          let '(res', w3) := createLogStream apiKey projectID logStreamName w2 in
          match res' with
          | Err e => (Err (errWrap "error creating log stream" e), w3)
          | Ok newLogStreamID =>
              (Ok newLogStreamID,
               logPrintln ("Successfully created new log stream '" +:+ logStreamName
                           +:+ "' with ID: " +:+ newLogStreamID) w3)
          end
    end.

(** [func getOrCreateProjectID(ctx, apiKey, projectName string) (string, error)] *)
Definition getOrCreateProjectID (apiKey projectName : string) (w : World R)
  : result string * World R :=
  if String.eqb apiKey ""
  then (Err (errNew "API key is required to get or create a project"), w)
  else if String.eqb projectName ""
  then (Err (errNew "project name is required"), w)
  else
    let '(res, w1) := getProjectIDByName apiKey projectName w in
    match res with
    | Err e => (Err (errWrap "error searching for project" e), w1)
    | Ok projectID =>
        if negb (String.eqb projectID "")
        then (Ok projectID,
              logPrintln ("Found existing project '" +:+ projectName
                          +:+ "' with ID: " +:+ projectID) w1)
        else
          let w2 := logPrintln ("Project '" +:+ projectName
                                +:+ "' not found, creating a new one...") w1 in
          let '(res', w3) := createProject apiKey projectName w2 in
          match res' with
          | Err e => (Err (errWrap "error creating project" e), w3)
          | Ok newProjectID =>
              (Ok newProjectID,
               logPrintln ("Successfully created new project '" +:+ projectName
                           +:+ "' with ID: " +:+ newProjectID) w3)
          end
    end.

End Ops.

(** The calls that add a span, for runs between StartTrace and Conclude. *)
Inductive AddCall :=
| AddGeneric (cfg : SpanConfig.t)
| AddLlm (cfg : LlmSpanConfig.t).

Definition applyAdd {R} (c : AddCall) (st : Logger * World R) : Logger * World R :=
  match c with
  | AddGeneric cfg => let '(_, l, w) := AddSpan cfg st.1 st.2 in (l, w)
  | AddLlm cfg => AddLlmSpan cfg st.1 st.2
  end.

Definition applyAdds {R} (cs : list AddCall) (st : Logger * World R)
  : Logger * World R :=
  fold_left (fun st c => applyAdd c st) cs st.

Definition createdBy (c : AddCall) (s : Span.t) : Prop :=
  match c with
  | AddGeneric cfg =>
      s = Span.mk (SpanConfig.Name cfg) (SpanConfig.Input cfg)
                  (SpanConfig.Output cfg) (SpanConfig.DurationNs cfg)
                  (SpanConfig.Metadata cfg) (SpanConfig.Tags cfg)
  | AddLlm cfg =>
      Span.Name s = "llm" /\
      Span.Input s = VStr (LlmSpanConfig.Input cfg) /\
      Span.Output s = VStr (LlmSpanConfig.Output cfg) /\
      Span.DurationNs s = LlmSpanConfig.DurationNs cfg /\
      Span.Tags s = LlmSpanConfig.Tags cfg
  end.

(** The traces waiting to be sent: this logger holds at most one, the
    current trace. *)
Definition pending (l : Logger) : list Trace.t :=
  match currentTrace l with
  | Some tr => [tr]
  | None => []
  end.

End Single.

Module B := Buffered.
Module S := Single.

(** ** Concrete environments and inputs, for the examples *)

Module Demo.

(** A service that answers every request with the given status and
    body, and one that is unreachable.  Its state counts the requests
    it has seen. *)
Definition answering (code : Z) (body : string)
  : Request -> nat -> result Response * nat :=
  fun _ n => (Ok (mkResponse code body), S n).

Definition unreachable : Request -> nat -> result Response * nat :=
  fun _ n => (Err (errLib "dial tcp: connection refused"), n).

Definition bufferedEnv (rt : Request -> nat -> result Response * nat)
  : B.Env nat :=
  B.mkEnv nat rt (fun _ => None) (fun _ _ _ => Ok "{...}")
          (fun _ => "session-1") (fun _ => "token-1")
          (fun _ => [B.mkProject "p-1" "Default Go Project"])
          (fun _ => B.mkProject "p-2" "created")
          (fun _ => [B.mkLogStream "ls-1" "default-go-stream"])
          (fun _ => B.mkLogStream "ls-2" "created").

Definition bufferedWorld : B.World nat := B.mkWorld ∅ ∅ [] [] 0%nat [].

Definition bufferedConfig : B.LoggerConfig.t :=
  B.LoggerConfig.mk "Default Go Project" "default-go-stream" "key" "api_key".

Definition bufferedLogger : B.Logger :=
  B.mkLogger bufferedConfig "p-1" "ls-1" "" "" [] None.

Definition ping : B.TraceConfig.t := B.TraceConfig.mk "t" "ping" [] None.

Definition pong : B.ConcludeConfig.t := B.ConcludeConfig.mk "pong" 1000000 [].

Definition llmPing : B.LlmSpanConfig.t :=
  B.LlmSpanConfig.mk "ping" "pong" "m1" 1 1 2 1000000 None [].

(** The state after StartTrace alone: the trace at address 1 is active. *)
Definition started : B.Logger * B.World nat :=
  B.StartTraceWithContext ping "id-1" 100 bufferedLogger bufferedWorld.

Definition startedTrace : B.GalileoTrace.t :=
  B.GalileoTrace.mk "id-1" "t" "ping" "" [] None 100 0.

Definition tagged : B.ConcludeConfig.t :=
  B.ConcludeConfig.mk "pong" 1000000 ["completed"; "success"].

(** The state after the scenario StartTrace, AddLlmSpan, Conclude. *)
Definition concluded : B.Logger * B.World nat :=
  let '(l1, w1) := B.StartTraceWithContext ping "id-1" 100 bufferedLogger bufferedWorld in
  let '(l2, w2) := B.AddLlmSpan llmPing "id-2" 200 l1 w1 in
  B.Conclude pong l2 w2.

Definition toolSpan : B.SpanConfig.t :=
  B.SpanConfig.mk "weather_tool" (VStr "New York") (VStr "45F") 1200000000
                  None ["weather-api"] "" "".

(** The tags of [singleToolSpan] are the array at address 1 of
    [singleWorld] below. *)
Definition singleToolSpan : S.SpanConfig.t :=
  S.SpanConfig.mk "get_weather" (VStr "London") (VStr "15C") 500000000
                  (MkSlice 1%positive 0 1 1) None.

Definition singleLlmPing : S.LlmSpanConfig.t :=
  S.LlmSpanConfig.mk "ping" "pong" "m1" 1 1 2 1000000 None NilSlice.

(** A caller's map at address 1 that already has entries under tags and
    model, and a configuration that passes it. *)
Definition callerMap : gmap string Value :=
  <["tags" := VStr "mine"]> (<["model" := VStr "caller-model"]>
    (<["temperature" := VFloat 4604480259023595110]> ∅)).

Definition startedWithCallerMap : B.Logger * B.World nat :=
  (started.1, B.set_maps (<[1%positive := callerMap]> (B.maps started.2)) started.2).

Definition llmWithCallerMap : B.LlmSpanConfig.t :=
  B.LlmSpanConfig.mk "ping" "pong" "m1" 1 1 2 1000000 (Some 1%positive) ["llm"].

(** A world whose caller has made three arrays: the tags of a tool
    span, an array [arr] of two tags, and the tag of a Conclude.  A
    slice moved by [append] gets twice the old capacity when that is
    enough. *)
Definition singleWorld : S.World nat :=
  S.mkWorld ∅
    (<[1%positive := ["tool"]]>
       (<[2%positive := ["t"; "x"]]> (<[3%positive := ["done"]]> ∅)))
    [] 0%nat [] (fun oldCap newLen => Nat.max newLen (2 * oldCap)).

(** [arr[:1]], [arr[:2]] and the tag of the Conclude. *)
Definition arrOne : Slice := MkSlice 2%positive 0 1 2.
Definition arrTwo : Slice := MkSlice 2%positive 0 2 2.
Definition doneTag : Slice := MkSlice 3%positive 0 1 1.

Definition singleEnv (rt : Request -> nat -> result Response * nat)
    (streams : list S.LogStreamDB) : S.Env nat :=
  S.mkEnv nat rt (fun _ => None) (fun _ _ _ => Ok "{...}") (fun s => s)
          (fun _ => Ok [S.mkProjectV2 "p-1" "my-go-v2-project"])
          (fun _ => Ok (S.mkProjectV2 "p-2" "created"))
          (fun _ => Ok streams)
          (fun _ => Ok (S.mkLogStreamDB "ls-new" "created")).

Definition singleConfig : S.LoggerConfig.t :=
  S.LoggerConfig.mk "p-1" "ls-1" "key" "https://api.galileo.ai/v2" false.

(** A logger of the single-trace program with a trace under way. *)
Definition singleActive : S.Logger :=
  S.mkLogger singleConfig (Some (S.Trace.mk "ping" "" 0 [] NilSlice None)).

Definition singleIdle : S.Logger := S.mkLogger singleConfig None.

Definition singlePong : S.ConcludeConfig.t :=
  S.ConcludeConfig.mk "pong" 1000000 NilSlice.

(** A caller that hands the logger slices of one array: the trace gets
    [arr[:1]], a span gets [arr[:2]], and Conclude gets one more tag. *)
Definition sharedTrace : S.TraceConfig.t := S.TraceConfig.mk "ping" arrOne.

Definition sharedSpan : S.SpanConfig.t :=
  S.SpanConfig.mk "step" (VStr "in") (VStr "out") 5 arrTwo None.

Definition sharedDone : S.ConcludeConfig.t :=
  S.ConcludeConfig.mk "pong" 1000000 doneTag.

(** A later Conclude whose tag is [arr[1:2]]. *)
Definition sharedLate : S.ConcludeConfig.t :=
  S.ConcludeConfig.mk "late" 5 (MkSlice 2%positive 1 1 1).

(** The logger after StartTrace and AddSpan of that caller. *)
Definition singleShared : S.Logger :=
  S.mkLogger singleConfig
    (Some (S.Trace.mk "ping" "" 0
             [S.Span.mk "step" (VStr "in") (VStr "out") 5 None arrTwo]
             arrOne None)).

End Demo.

(** ** Invariants of the buffered logger *)

(** The active trace is allocated and has neither output nor end time;
    the buffered traces are allocated; the active trace is not among
    the buffered ones. *)
Definition wf {R} (st : B.Logger * B.World R) : Prop :=
  (forall p, B.currentTrace st.1 = Some p ->
     exists tr, B.traces st.2 !! p = Some tr /\
                B.GalileoTrace.Output tr = "" /\
                B.GalileoTrace.EndTime tr = 0) /\
  (forall p, p ∈ B.traceBuffer st.1 -> is_Some (B.traces st.2 !! p)) /\
  (forall p, B.currentTrace st.1 = Some p -> p ∉ B.traceBuffer st.1).

(** The trace at [p] exists and the logger no longer refers to it. *)
Definition dropped {R} (p : loc) (st : B.Logger * B.World R) : Prop :=
  is_Some (B.traces st.2 !! p) /\
  B.currentTrace st.1 <> Some p /\
  p ∉ B.traceBuffer st.1.

(** ** The programs around the loggers *)

(** The double quote and the line feed, for the string constants of the
    sources that contain them. *)
Definition dq : string := String (Ascii.ascii_of_nat 34) "".
Definition nl : string := String (Ascii.ascii_of_nat 10) "".

(** The identifiers and the clock readings that successive calls draw. *)
Record Supply := mkSupply {
  uuid : nat -> string;
  clock : nat -> Z
}.

Definition shift (n : nat) (s : Supply) : Supply :=
  mkSupply (fun i => uuid s (n + i)%nat) (fun i => clock s (n + i)%nat).

(** *** [main] and the examples of [src/golang/v2/main.go] *)

Module BufferedProgram.

(** [func getEnv(key, defaultValue string) string], over the process
    environment: [os.LookupEnv] tells a variable set to the empty string
    from an unset one. *)
Definition getEnv (environ : gmap string string) (key defaultValue : string)
  : string :=
  match environ !! key with
  | Some value => value
  | None => defaultValue
  end.

Section Examples.
Context {R : Type}.
Variable E : B.Env R.
(* the text that the verb %v prints for an error *)
Variable render : error -> string.

(** A map literal [map[string]interface{}{...}] of the caller. *)
Definition makeMap (m : gmap string Value) (w : B.World R) : loc * B.World R :=
  let r := fresh (dom (B.maps w)) in
  (r, B.set_maps (<[r := m]> (B.maps w)) w).

(** [func basicTraceExample(logger *Logger)] *)
Definition basicTraceExample (s : Supply) (l : B.Logger) (w : B.World R)
  : B.Logger * B.World R :=
  let '(l, w) :=
    B.StartTraceWithContext
      (B.TraceConfig.mk "Basic LLM Call" "What is the capital of France?"
                        ["basic"; "llm-only"] None)
      (uuid s 0) (clock s 0) l w in
  let '(md, w) := makeMap {["temperature" := VFloat 4604480259023595110]} w in
  let '(l, w) :=
    B.AddLlmSpan
      (B.LlmSpanConfig.mk "What is the capital of France?"
                          "The capital of France is Paris." "gpt-4o" 8 7 15
                          1500000000 (Some md) ["llm"; "geography"])
      (uuid s 1) (clock s 1) l w in
  let '(l, w) :=
    B.Conclude
      (B.ConcludeConfig.mk "The capital of France is Paris." 1500000000
                           ["completed"; "success"]) l w in
  let '(err, l, w) := B.FlushWithContext E l w in
  match err with
  | Some e => (l, B.logPrintln ("Error flushing basic trace: " +:+ render e) w)
  | None => (l, B.logPrintln "Basic trace flushed successfully" w)
  end.

(** [func advancedTraceExample(logger *Logger)] *)
Definition advancedTraceExample (s : Supply) (l : B.Logger) (w : B.World R)
  : B.Logger * B.World R :=
  let '(l, w) :=
    B.StartTraceWithContext
      (B.TraceConfig.mk "Sentiment Analysis Workflow" "Analyze user sentiment"
                        ["advanced"; "multi-span"] None)
      (uuid s 0) (clock s 0) l w in
  let '(l, w) :=
    B.AddSpan
      (B.SpanConfig.mk "data_preprocessing" (VStr "Raw user feedback")
                       (VStr "Cleaned feedback") 500000000 None
                       ["preprocessing"] "" "tool")
      (uuid s 1) (clock s 1) l w in
  let '(l, w) :=
    B.AddLlmSpan
      (B.LlmSpanConfig.mk "Analyze sentiment" "Positive" "gpt-4o" 0 0 0
                          2000000000 None ["sentiment-analysis"])
      (uuid s 2) (clock s 2) l w in
  let '(l, w) :=
    B.Conclude
      (B.ConcludeConfig.mk ("{" +:+ dq +:+ "sentiment" +:+ dq +:+ ": " +:+ dq
                            +:+ "positive" +:+ dq +:+ "}")
                           2500000000 ["completed"]) l w in
  let '(err, l, w) := B.FlushWithContext E l w in
  match err with
  | Some e => (l, B.logPrintln ("Error flushing advanced trace: " +:+ render e) w)
  | None => (l, B.logPrintln "Advanced trace flushed successfully" w)
  end.

(** [func ragWorkflowExample(logger *Logger)].  The output of the
    retriever span is a slice of two maps. *)
Definition ragWorkflowExample (s : Supply) (l : B.Logger) (w : B.World R)
  : B.Logger * B.World R :=
  let '(l, w) :=
    B.StartTraceWithContext
      (B.TraceConfig.mk "RAG for Quantum Computing" "Latest in quantum computing?"
                        ["rag"] None)
      (uuid s 0) (clock s 0) l w in
  let '(l, w) :=
    B.AddSpan
      (B.SpanConfig.mk "document_retrieval" (VStr "quantum computing")
         (VOther "[map[content:Document about qubit stability] map[content:Paper on error correction]]")
         800000000 None ["retrieval"] "" "retriever")
      (uuid s 1) (clock s 1) l w in
  let '(l, w) :=
    B.AddLlmSpan
      (B.LlmSpanConfig.mk "Summarize documents" "Quantum computing is advancing."
                          "gpt-4o" 0 0 0 3000000000 None [])
      (uuid s 2) (clock s 2) l w in
  let '(l, w) :=
    B.Conclude
      (B.ConcludeConfig.mk "Quantum computing is advancing." 3800000000 []) l w in
  let '(err, l, w) := B.FlushWithContext E l w in
  match err with
  | Some e => (l, B.logPrintln ("Error flushing RAG trace: " +:+ render e) w)
  | None => (l, B.logPrintln "RAG trace flushed successfully" w)
  end.

(** [func toolUsageExample(logger *Logger)] *)
Definition toolUsageExample (s : Supply) (l : B.Logger) (w : B.World R)
  : B.Logger * B.World R :=
  let '(l, w) :=
    B.StartTraceWithContext
      (B.TraceConfig.mk "Weather Tool Lookup" "Weather in New York?"
                        ["tool-usage"] None)
      (uuid s 0) (clock s 0) l w in
  let '(l, w) :=
    B.AddSpan
      (B.SpanConfig.mk "weather_tool"
         (VStr ("{" +:+ dq +:+ "location" +:+ dq +:+ ": " +:+ dq +:+ "New York"
                +:+ dq +:+ "}"))
         (VStr "45°F") 1200000000 None ["weather-api"] "" "tool")
      (uuid s 1) (clock s 1) l w in
  let '(l, w) :=
    B.AddLlmSpan
      (B.LlmSpanConfig.mk "Format weather: 45°F" "It's 45°F in New York."
                          "gpt-4o" 0 0 0 1000000000 None [])
      (uuid s 2) (clock s 2) l w in
  let '(l, w) :=
    B.Conclude (B.ConcludeConfig.mk "It's 45°F in New York." 2200000000 []) l w in
  let '(err, l, w) := B.FlushWithContext E l w in
  match err with
  | Some e => (l, B.logPrintln ("Error flushing tool usage trace: " +:+ render e) w)
  | None => (l, B.logPrintln "Tool usage trace flushed successfully" w)
  end.

(** [func errorHandlingExample(logger *Logger)] *)
Definition errorHandlingExample (s : Supply) (l : B.Logger) (w : B.World R)
  : B.Logger * B.World R :=
  let '(l, w) :=
    B.StartTraceWithContext
      (B.TraceConfig.mk "API Error and Recovery" "Process with potential errors"
                        ["error-handling"] None)
      (uuid s 0) (clock s 0) l w in
  let '(l, w) :=
    B.AddSpan
      (B.SpanConfig.mk "api_call"
         (VStr ("{" +:+ dq +:+ "request" +:+ dq +:+ ": " +:+ dq +:+ "fetch_data"
                +:+ dq +:+ "}"))
         VNil 5000000000 None ["timeout"] "Connection timeout" "tool")
      (uuid s 1) (clock s 1) l w in
  let '(l, w) :=
    B.AddSpan
      (B.SpanConfig.mk "fallback_processing"
         (VStr ("{" +:+ dq +:+ "source" +:+ dq +:+ ": " +:+ dq +:+ "cache"
                +:+ dq +:+ "}"))
         (VStr "Used cached data") 1000000000 None ["recovery"] "" "tool")
      (uuid s 2) (clock s 2) l w in
  let '(l, w) :=
    B.Conclude (B.ConcludeConfig.mk "Processed with fallback data." 6000000000 [])
               l w in
  let '(err, l, w) := B.FlushWithContext E l w in
  match err with
  | Some e =>
      (l, B.logPrintln ("Error flushing error handling trace: " +:+ render e) w)
  | None => (l, B.logPrintln "Error handling trace flushed successfully" w)
  end.

(** The loop [for _, item := range items { logger.AddSpan(...) }] of
    batchProcessingExample; [k] counts the calls made so far. *)
Fixpoint processItems (s : Supply) (k : nat) (items : list string)
    (l : B.Logger) (w : B.World R) : B.Logger * B.World R :=
  match items with
  | [] => (l, w)
  | item :: rest =>
      let '(l, w) :=
        B.AddSpan
          (B.SpanConfig.mk "process_item" (VStr item)
                           (VStr (item +:+ " processed")) 500000000 None [] "" "tool")
          (uuid s k) (clock s k) l w in
      processItems s (S k) rest l w
  end.

(** [func batchProcessingExample(logger *Logger)] *)
Definition batchProcessingExample (s : Supply) (l : B.Logger) (w : B.World R)
  : B.Logger * B.World R :=
  let items := ["item1"; "item2"; "item3"] in
  let '(l, w) :=
    B.StartTraceWithContext
      (B.TraceConfig.mk "Batch Item Processing" "Process batch of 3 items"
                        ["batch"] None)
      (uuid s 0) (clock s 0) l w in
  let '(l, w) := processItems s 1 items l w in
  let '(l, w) := B.Conclude (B.ConcludeConfig.mk "Batch processed." 1500000000 []) l w in
  let '(err, l, w) := B.FlushWithContext E l w in
  match err with
  | Some e => (l, B.logPrintln ("Error flushing batch trace: " +:+ render e) w)
  | None => (l, B.logPrintln "Batch trace flushed successfully" w)
  end.

(** [func main()].  [environ] is the process environment after
    [godotenv.Load], and [dotenv] tells whether that call found a file.
    The deferred Close runs when main returns, not when log.Fatalf ends
    the process. *)
Definition main (environ : gmap string string) (dotenv : bool) (s : Supply)
    (w : B.World R) : Outcome (B.Logger * B.World R) :=
  let w := if dotenv then w else B.logPrintln "Warning: .env file not found" w in
  let config :=
    B.LoggerConfig.mk
      (getEnv environ "GALILEO_PROJECT_NAME" "Default Go Project")
      (getEnv environ "GALILEO_LOG_STREAM_NAME" "default-go-stream")
      (getEnv environ "GALILEO_API_KEY" "")
      (getEnv environ "GALILEO_AUTH_METHOD" "api_key") in
  '(l, w) ← B.NewLoggerWithConfig E config w;
  '(res, l, w) ← B.StartSession E "Go Demo Session" l w;
  match res with
  | Err e => Fatal "Failed to start session" (Some e)
  | Ok _ =>
      let w := B.logPrintln "=== Example 1: Basic Trace with LLM Span ===" w in
      let '(l, w) := basicTraceExample s l w in
      let w := B.logPrintln (nl +:+ "=== Example 2: Advanced Trace with Multiple Spans ===") w in
      let '(l, w) := advancedTraceExample (shift 2 s) l w in
      let w := B.logPrintln (nl +:+ "=== Example 3: RAG Workflow ===") w in
      let '(l, w) := ragWorkflowExample (shift 5 s) l w in
      let w := B.logPrintln (nl +:+ "=== Example 4: Tool Usage ===") w in
      let '(l, w) := toolUsageExample (shift 8 s) l w in
      let w := B.logPrintln (nl +:+ "=== Example 5: Error Handling ===") w in
      let '(l, w) := errorHandlingExample (shift 11 s) l w in
      let w := B.logPrintln (nl +:+ "=== Example 6: Batch Processing ===") w in
      let '(l, w) := batchProcessingExample (shift 14 s) l w in
      let w := B.logPrintln (nl +:+ "=== All examples completed successfully ===") w in
      Done (B.Close E l w)
  end.

End Examples.

End BufferedProgram.

(** *** [main] and the example of [src/unnamed/part_001] *)

Module SingleProgram.

(** [func getEnv(key, defaultValue string) string], over the process
    environment: [os.Getenv] gives the empty string for an unset
    variable, and the empty string yields the default. *)
Definition getEnv (environ : gmap string string) (key defaultValue : string)
  : string :=
  let value := default "" (environ !! key) in
  if negb (String.eqb value "") then value else defaultValue.

(** The calls of a client of the logger, and the writes to its own maps. *)
Inductive Call :=
| CallStartTrace (cfg : S.TraceConfig.t)
| CallAddSpan (cfg : S.SpanConfig.t)
| CallAddLlmSpan (cfg : S.LlmSpanConfig.t)
| CallConclude (cfg : S.ConcludeConfig.t)
| CallFlush
| CallerWritesMap (r : loc) (m : gmap string Value).

Section Program.
Context {R : Type}.
Variable E : S.Env R.
(* the text that the verb %v prints for an error *)
Variable render : error -> string.

Definition exec (c : Call) (st : S.Logger * S.World R) : S.Logger * S.World R :=
  let '(l, w) := st in
  match c with
  | CallStartTrace cfg => S.StartTraceWithContext cfg l w
  | CallAddSpan cfg => let '(_, l', w') := S.AddSpan cfg l w in (l', w')
  | CallAddLlmSpan cfg => S.AddLlmSpan cfg l w
  | CallConclude cfg => S.Conclude cfg l w
  | CallFlush => let '(_, l', w') := S.FlushWithContext E l w in (l', w')
  | CallerWritesMap r m => (l, S.set_maps (<[r := m]> (S.maps w)) w)
  end.

Definition run (calls : list Call) (st : S.Logger * S.World R)
  : S.Logger * S.World R :=
  fold_left (fun st c => exec c st) calls st.

(** A map literal [map[string]interface{}{...}] of the caller. *)
Definition makeMap (m : gmap string Value) (w : S.World R) : loc * S.World R :=
  let r := fresh (dom (S.maps w)) in
  (r, S.set_maps (<[r := m]> (S.maps w)) w).

(** A slice literal [[]string{...}] of the caller: a new array that the
    slice covers. *)
Definition makeSlice (elems : list string) (w : S.World R) : Slice * S.World R :=
  let a := fresh (dom (S.arrays w)) in
  (MkSlice a 0 (length elems) (length elems),
   S.set_arrays (<[a := elems]> (S.arrays w)) w).

(** [func llmAndToolExample(logger *Logger)].  The deadline of ten
    seconds on the context of Flush shows as an error of [Do]. *)
Definition llmAndToolExample (l : S.Logger) (w : S.World R)
  : S.Logger * S.World R :=
  let w := S.logPrintln (nl +:+ "=== Example: LLM with Tool Usage ===") w in
  let '(tags, w) := makeSlice ["llm-with-tool"; "weather"] w in
  let '(l, w) :=
    S.StartTraceWithContext
      (S.TraceConfig.mk "What is the weather in London?" tags) l w in
  let '(md, w) :=
    makeMap (<["model" := VStr "gpt-4o-tool-calling"]>
               (<["temperature" := VFloat 4591870180066957722]> ∅)) w in
  let '(tags, w) := makeSlice ["llm"; "tool-call"] w in
  let '(l, w) :=
    S.AddLlmSpan
      (S.LlmSpanConfig.mk
         "What is the weather in London?"
         ("{" +:+ dq +:+ "tool_call" +:+ dq +:+ ": {" +:+ dq +:+ "name" +:+ dq
          +:+ ": " +:+ dq +:+ "get_weather" +:+ dq +:+ ", " +:+ dq +:+ "arguments"
          +:+ dq +:+ ": {" +:+ dq +:+ "location" +:+ dq +:+ ": " +:+ dq
          +:+ "London" +:+ dq +:+ "}}}")
         "gpt-4o-tool-calling" 10 20 30 800000000 (Some md) tags)
      l w in
  let weather :=
    "{" +:+ dq +:+ "temperature" +:+ dq +:+ ": " +:+ dq +:+ "15°C" +:+ dq
    +:+ ", " +:+ dq +:+ "conditions" +:+ dq +:+ ": " +:+ dq +:+ "Cloudy" +:+ dq
    +:+ "}" in
  let '(tags, w) := makeSlice ["tool"; "weather-api"] w in
  let '(_, l, w) :=
    S.AddSpan
      (S.SpanConfig.mk "get_weather"
         (VStr ("{" +:+ dq +:+ "location" +:+ dq +:+ ": " +:+ dq +:+ "London"
                +:+ dq +:+ "}"))
         (VStr weather) 500000000 tags None)
      l w in
  let '(tags, w) := makeSlice ["completed"; "tool-success"] w in
  let '(l, w) := S.Conclude (S.ConcludeConfig.mk weather 1300000000 tags) l w in
  let '(err, l, w) := S.FlushWithContext E l w in
  match err with
  | Some e =>
      (l, S.logPrintln ("Error flushing LLM with tool trace: " +:+ render e) w)
  | None => (l, S.logPrintln "LLM with tool trace flushed successfully" w)
  end.

(** [func main()].  [environ] is the process environment after
    [godotenv.Load], and [dotenv] tells whether that call found a file. *)
Definition main (environ : gmap string string) (dotenv : bool) (w : S.World R)
  : Outcome (S.Logger * S.World R) :=
  let w :=
    if dotenv then w
    else S.logPrintln
           "Warning: .env file not found, using system environment variables" w in
  let projectID := getEnv environ "GALILEO_PROJECT_ID" "" in
  let projectName := getEnv environ "GALILEO_PROJECT_NAME" "my-go-v2-project" in
  let apiKey := getEnv environ "GALILEO_API_KEY" "" in
  '(projectID, w) ←
    (if String.eqb projectID "" && negb (String.eqb apiKey "")
     then
       match S.getOrCreateProjectID E apiKey projectName w with
       | (Err e, _) => Fatal "Failed to get or create project" (Some e)
       | (Ok pid, w1) => Done (pid, w1)
       end
     else Done (projectID, w));
  let logStreamID := getEnv environ "GALILEO_LOG_STREAM_ID" "" in
  let logStreamName := getEnv environ "GALILEO_LOG_STREAM" "production" in
  '(logStreamID, w) ←
    (if String.eqb logStreamID "" && negb (String.eqb apiKey "")
        && negb (String.eqb projectID "")
     then
       match S.getOrCreateLogStreamID E apiKey projectID logStreamName w with
       | (Err e, _) => Fatal "Failed to get or create log stream" (Some e)
       | (Ok lsid, w1) => Done (lsid, w1)
       end
     else Done (logStreamID, w));
  let config := S.LoggerConfig.mk projectID logStreamID apiKey "" false in
  let '(galileoLogger, w) := S.NewLoggerWithConfig config w in
  let '(l, w) := llmAndToolExample galileoLogger w in
  Done (l, S.logPrintln (nl +:+ "=== Example completed successfully ===") w).

End Program.

End SingleProgram.

(** *** Sample states for the examples of the further properties *)

Module Samples.

(** The trace at address 1 of [Demo.concluded]. *)
Definition concludedTrace : B.GalileoTrace.t :=
  B.GalileoTrace.mk "id-1" "t" "ping" "pong"
    [B.GalileoSpan.mk "id-2" "llm-span" (VStr "ping") (VStr "pong") 200 1000200
                      "llm" "SUCCESS" (Some 1%positive)]
    None 100 1000100.

(** The calls that lead to [Demo.concluded]. *)
Definition scenario : list B.Call :=
  [B.CallStartTrace Demo.ping "id-1" 100;
   B.CallAddLlmSpan Demo.llmPing "id-2" 200;
   B.CallConclude Demo.pong].

(** A second trace started and concluded, then a flush. *)
Definition secondTrace : list B.Call :=
  [B.CallStartTrace Demo.ping "id-7" 700; B.CallConclude Demo.pong].

(** A span that failed, and a second LLM span on the caller's map of
    [Demo.llmWithCallerMap]. *)
Definition failedCall : B.SpanConfig.t :=
  B.SpanConfig.mk "api_call" (VStr "fetch_data") VNil 5000000000 None
                  ["timeout"] "Connection timeout" "".

Definition secondLlm : B.LlmSpanConfig.t :=
  B.LlmSpanConfig.mk "again" "pong" "m2" 3 4 7 1000000 (Some 1%positive) [].

Definition supply : Supply :=
  mkSupply (fun i => "id-" +:+ String (Ascii.ascii_of_nat (97 + i)) "")
           (fun i => 1000 * Z.of_nat i).

Definition render (e : error) : string :=
  match e with
  | errLib msg => msg
  | errNew msg => msg
  | errWrap prefix _ => prefix
  | errStatus prefix _ body => prefix +:+ " " +:+ body
  end.

(** A logger of the single-trace program in dry-run mode, and calls of
    a client that flushes twice and starts a second trace. *)
Definition dryLogger : S.Logger :=
  S.mkLogger (S.LoggerConfig.mk "p-1" "ls-1" "" "https://api.galileo.ai/v2" true) None.

Definition dryCalls : list SingleProgram.Call :=
  [SingleProgram.CallStartTrace Demo.sharedTrace;
   SingleProgram.CallAddLlmSpan Demo.singleLlmPing;
   SingleProgram.CallAddSpan Demo.singleToolSpan;
   SingleProgram.CallConclude Demo.sharedDone;
   SingleProgram.CallFlush;
   SingleProgram.CallFlush;
   SingleProgram.CallStartTrace (S.TraceConfig.mk "again" NilSlice);
   SingleProgram.CallFlush].

(** A service whose listing holds two projects named [demo]: the first
    without an identifier, the second with the identifier [p-7]. *)
Definition shadowedEnv : S.Env nat :=
  S.mkEnv nat (Demo.answering 200 "ok") (fun _ => None) (fun _ _ _ => Ok "{...}")
          (fun s => s)
          (fun _ => Ok [S.mkProjectV2 "" "demo"; S.mkProjectV2 "p-7" "demo"])
          (fun _ => Ok (S.mkProjectV2 "p-2" "created"))
          (fun _ => Ok [])
          (fun _ => Ok (S.mkLogStreamDB "ls-new" "created")).

(** Process environments: one with the key only, one that names project
    and log stream as well. *)
Definition keyOnly : gmap string string := {["GALILEO_API_KEY" := "key"]}.

Definition allSet : gmap string string :=
  <["GALILEO_PROJECT_ID" := "p-1"]>
    (<["GALILEO_LOG_STREAM_ID" := "ls-1"]> keyOnly).

End Samples.

(** The state in the middle of an example that started from [(l0, w0)]:
    the trace at [p], with identifier [tid], is active and has the
    spans named [names] with the identifiers [ids], in this order;
    buffer, log and network are those of the start. *)
Definition midExample {R} (l0 : B.Logger) (w0 : B.World R) (p : loc) (tid : string)
    (names ids : list string) (st : B.Logger * B.World R) : Prop :=
  B.currentTrace st.1 = Some p /\
  B.traceBuffer st.1 = B.traceBuffer l0 /\
  B.logged st.2 = B.logged w0 /\
  B.sent st.2 = B.sent w0 /\
  exists tr,
    B.traces st.2 !! p = Some tr /\
    B.GalileoTrace.ID tr = tid /\
    map B.GalileoSpan.Name (B.GalileoTrace.Spans tr) = names /\
    map B.GalileoSpan.ID (B.GalileoTrace.Spans tr) = ids.

(** ** Flush of the buffered logger *)

Section BufferedFlush.
Context {R : Type}.
Variable E : B.Env R.

Lemma buffered_Do_heap (req : Request) (w : B.World R) :
  B.traces (B.Do E req w).2 = B.traces w /\
  B.maps (B.Do E req w).2 = B.maps w /\
  B.logged (B.Do E req w).2 = B.logged w /\
  B.sent (B.Do E req w).2 = B.sent w ++ [req].
Proof.
  unfold B.Do. destruct (B.roundTrip E req (B.net w)) as [res n]. simpl. auto.
Qed.

(** C10.  With an empty buffer, Flush returns nil at once: the logger
    and the world, and with it the list of requests sent, are the same
    as before. *)
Theorem C10_flush_empty_buffer (l : B.Logger) (w : B.World R) :
  B.traceBuffer l = [] ->
  B.FlushWithContext E l w = (None, l, w).
Proof.
  intros Hbuf. unfold B.FlushWithContext. rewrite Hbuf. reflexivity.
Qed.

(** What a call of Flush leaves, by its result. *)
Lemma buffered_flush_cases (l : B.Logger) (w : B.World R) :
  match B.FlushWithContext E l w with
  | (None, l', w') =>
      B.traceBuffer l' = [] /\ B.currentTrace l' = B.currentTrace l
  | (Some _, l', w') => l' = l
  end /\
  B.traces (B.FlushWithContext E l w).2 = B.traces w /\
  B.maps (B.FlushWithContext E l w).2 = B.maps w.
Proof.
  unfold B.FlushWithContext.
  destruct (B.traceBuffer l) as [|p buf] eqn:Hbuf; [by rewrite Hbuf|].
  destruct (B.marshalIngest E _ _ _) as [body|e]; [|done].
  destruct (B.NewRequestWithContext E _ _ _) as [req|e]; [|done].
  match goal with
  | |- context [B.Do E ?r w] =>
      pose proof (buffered_Do_heap r w) as (Ht & Hm & _);
      destruct (B.Do E r w) as [res w1]
  end.
  simpl in Ht, Hm.
  destruct res as [resp|e]; [|done].
  destruct (negb (B.statusAccepted resp)); done.
Qed.

End BufferedFlush.

(** ** The local operations of the buffered logger *)

Section BufferedLocal.
Context {R : Type}.
Implicit Types (l : B.Logger) (w : B.World R) (p : loc).

Lemma buffered_start_spec (cfg : B.TraceConfig.t) id now l w :
  exists md ms,
    B.foldTags (B.TraceConfig.Tags cfg) (B.TraceConfig.Metadata cfg) (B.maps w)
      = (md, ms) /\
    B.StartTraceWithContext cfg id now l w =
      (B.set_currentTrace (Some (fresh (dom (B.traces w)))) l,
       B.set_traces
         (<[fresh (dom (B.traces w)) :=
              B.GalileoTrace.mk id (B.TraceConfig.Name cfg) (B.TraceConfig.Input cfg)
                                "" [] md now 0]> (B.traces w))
         (B.set_maps ms w)).
Proof.
  unfold B.StartTraceWithContext.
  destruct (B.foldTags _ _ _) as [md ms]. by exists md, ms.
Qed.

Lemma buffered_newSpan_createdBy (cfg : B.SpanConfig.t) id now (ms : MapHeap) :
  B.createdBy (B.AddGeneric cfg id now) (B.newSpan cfg id now ms).1.
Proof.
  unfold B.newSpan.
  destruct (B.foldTags _ _ _) as [md ms1].
  destruct (String.eqb (B.SpanConfig.Error cfg) "") eqn:Herr.
  - simpl. rewrite Herr. repeat split.
  - destruct (ensureMap md ms1) as [r ms']. simpl. rewrite Herr. repeat split.
Qed.

Lemma buffered_newLlmSpan_fields (cfg : B.LlmSpanConfig.t) id now (ms : MapHeap) :
  (B.newLlmSpan cfg id now ms).1 =
    B.GalileoSpan.mk id "llm-span" (VStr (B.LlmSpanConfig.Input cfg))
      (VStr (B.LlmSpanConfig.Output cfg)) now (now + B.LlmSpanConfig.DurationNs cfg)
      "llm" "SUCCESS" (Some (ensureMap (B.LlmSpanConfig.Metadata cfg) ms).1).
Proof.
  unfold B.newLlmSpan. by destruct (ensureMap _ ms) as [r ms0].
Qed.

Lemma buffered_newLlmSpan_createdBy (cfg : B.LlmSpanConfig.t) id now (ms : MapHeap) :
  B.createdBy (B.AddLlm cfg id now) (B.newLlmSpan cfg id now ms).1.
Proof. rewrite buffered_newLlmSpan_fields. simpl. repeat split. Qed.

(** One add call against the active trace at [p]: the logger is the
    same, and the trace at [p] gains one span, the call's, at the end. *)
Lemma buffered_applyAdd_active (c : B.AddCall) l w p :
  B.currentTrace l = Some p ->
  exists span w',
    B.applyAdd c (l, w) = (l, w') /\
    B.createdBy c span /\
    B.traces w' =
      alter (fun tr => B.GalileoTrace.set_Spans (B.GalileoTrace.Spans tr ++ [span]) tr)
            p (B.traces w).
Proof.
  intros Hcur. destruct c as [cfg id now|cfg id now]; simpl.
  - unfold B.AddSpan. rewrite Hcur.
    pose proof (buffered_newSpan_createdBy cfg id now (B.maps w)) as Hc.
    destruct (B.newSpan cfg id now (B.maps w)) as [span ms].
    exists span. eexists. split; [reflexivity|]. split; [exact Hc|reflexivity].
  - unfold B.AddLlmSpan. rewrite Hcur.
    pose proof (buffered_newLlmSpan_createdBy cfg id now (B.maps w)) as Hc.
    destruct (B.newLlmSpan cfg id now (B.maps w)) as [span ms].
    exists span. eexists. split; [reflexivity|]. split; [exact Hc|reflexivity].
Qed.

Lemma buffered_applyAdds_active (cs : list B.AddCall) l w p tr :
  B.currentTrace l = Some p ->
  B.traces w !! p = Some tr ->
  exists spans w',
    B.applyAdds cs (l, w) = (l, w') /\
    Forall2 B.createdBy cs spans /\
    B.traces w' !! p =
      Some (B.GalileoTrace.set_Spans (B.GalileoTrace.Spans tr ++ spans) tr).
Proof.
  intros Hcur. revert w tr.
  induction cs as [|c cs IH]; intros w tr Hp.
  - exists [], w. split; [done|]. split; [constructor|].
    rewrite Hp, app_nil_r. by destruct tr.
  - destruct (buffered_applyAdd_active c l w p Hcur) as (span & w1 & Hstep & Hc & Ht).
    destruct (IH w1 (B.GalileoTrace.set_Spans (B.GalileoTrace.Spans tr ++ [span]) tr))
      as (spans & w' & Hrun & Hall & Hp').
    { rewrite Ht, lookup_alter_eq, Hp. done. }
    exists (span :: spans), w'. split.
    { unfold B.applyAdds in *. simpl. simpl in Hstep. rewrite Hstep. exact Hrun. }
    split; [by constructor|].
    rewrite Hp'. simpl. by rewrite <- app_assoc.
Qed.

End BufferedLocal.

Section MapHeapFacts.
Implicit Types (ms : MapHeap) (r : loc).

Lemma mapContents_mapAssign ms r k v :
  mapContents (mapAssign r k v ms) r = <[k := v]> (mapContents ms r).
Proof. unfold mapAssign, mapContents at 1. by rewrite lookup_insert_eq. Qed.

Lemma mapContents_mapAssign_ne ms r r' k v :
  r <> r' -> mapContents (mapAssign r k v ms) r' = mapContents ms r'.
Proof. intros Hne. unfold mapAssign, mapContents at 1. by rewrite lookup_insert_ne. Qed.

Lemma ensureMap_entries ms md :
  entries (ensureMap md ms).2 (Some (ensureMap md ms).1) = entries ms md.
Proof.
  destruct md as [r|]; simpl; [done|].
  unfold mapContents. by rewrite lookup_insert_eq.
Qed.

Lemma ensureMap_given ms r : (ensureMap (Some r) ms).1 = r.
Proof. done. Qed.

End MapHeapFacts.

(** ** Slices and [append] *)

Section SliceFacts.
Implicit Types (arrays : ArrayHeap) (s xs t : Slice) (g : nat -> nat -> nat).

Lemma sliceElems_length arrays s :
  wfSlice arrays s -> length (sliceElems arrays s) = sliceLen s.
Proof.
  destruct s as [|a off n c]; [done|].
  intros (Hn & arr & Ha & Hc). simpl. rewrite Ha. simpl.
  rewrite length_take, length_drop. lia.
Qed.

Lemma sliceElems_length_le arrays s :
  (length (sliceElems arrays s) <= sliceLen s)%nat.
Proof.
  destruct s as [|a off n c]; [done|]. simpl. rewrite length_take. lia.
Qed.

(** The window of a slice is not changed by a copy into cells outside
    of it. *)
Lemma window_inserts (arr added : list string) (i off n : nat) :
  (off + n <= i \/ i + length added <= off)%nat ->
  take n (drop off (list_inserts i added arr)) = take n (drop off arr).
Proof.
  intros Hout. apply list_eq. intros j.
  rewrite !lookup_take. case_decide; [|done].
  rewrite !lookup_drop.
  destruct Hout as [Hbefore|Hafter].
  - apply list_lookup_inserts_lt. lia.
  - apply list_lookup_inserts_ge. lia.
Qed.

(** The elements of [append(s, xs...)] are those of [s] followed by
    those of [xs], as they were before the call. *)
Lemma appendSlice_elems g s xs arrays :
  wfSlice arrays s -> wfSlice arrays xs ->
  sliceElems (appendSlice g s xs arrays).2 (appendSlice g s xs arrays).1
  = sliceElems arrays s ++ sliceElems arrays xs.
Proof.
  intros Hs Hxs. pose proof (sliceElems_length arrays xs Hxs) as Hlen.
  pose proof (sliceElems_length arrays s Hs) as Hlens.
  unfold appendSlice.
  destruct (sliceLen s + sliceLen xs <=? sliceCap s)%nat eqn:Hroom.
  - apply Nat.leb_le in Hroom.
    destruct s as [|a off n c]; simpl in *.
    + destruct (sliceElems arrays xs); [done|simpl in *; lia].
    + destruct Hs as (Hn & arr & Ha & Hc).
      rewrite lookup_alter_eq, Ha. simpl.
      rewrite Ha in Hlens. simpl in Hlens.
      apply list_eq. intros j.
      rewrite lookup_take, lookup_drop.
      case_decide as Hj.
      * destruct (decide (j < n)%nat) as [Hjn|Hjn].
        -- rewrite list_lookup_inserts_lt by lia.
           rewrite lookup_app_l by (rewrite length_take, length_drop; lia).
           by rewrite lookup_take_lt, lookup_drop by lia.
        -- rewrite list_lookup_inserts by lia.
           rewrite lookup_app_r by (rewrite length_take, length_drop; lia).
           rewrite length_take, length_drop. f_equal. lia.
      * symmetry. apply lookup_ge_None_2.
        rewrite length_app, length_take, length_drop. lia.
  - simpl. rewrite lookup_insert_eq. simpl.
    rewrite app_assoc. apply take_app_length'.
    rewrite length_app. lia.
Qed.

(** A slice of an allocated array that [append] spares shows the same
    elements after the call. *)
Lemma appendSlice_spares g s xs t arrays :
  wfSlice arrays t ->
  appendSpares s xs t = true ->
  sliceElems (appendSlice g s xs arrays).2 t = sliceElems arrays t.
Proof.
  intros Ht Hspare. destruct t as [|a' off' n' c']; [done|].
  destruct Ht as (_ & arr' & Ha' & _).
  unfold appendSlice.
  destruct (sliceLen s + sliceLen xs <=? sliceCap s)%nat eqn:Hroom.
  - destruct s as [|a off n c]; [done|]. simpl in *.
    rewrite Hroom in Hspare. simpl in Hspare.
    destruct (decide (a = a')) as [->|Hne].
    + rewrite lookup_alter_eq, Ha'. simpl.
      rewrite Pos.eqb_refl in Hspare. simpl in Hspare.
      pose proof (sliceElems_length_le arrays xs) as Hle.
      apply window_inserts.
      apply negb_true_iff, andb_false_iff in Hspare.
      destruct Hspare as [H|H]; apply Nat.ltb_ge in H; lia.
    + by rewrite lookup_alter_ne.
  - simpl. rewrite lookup_insert_ne; [done|].
    intros <-. assert (fresh (dom arrays) ∈ dom arrays) as Hin
      by (apply elem_of_dom; by eexists).
    by apply is_fresh in Hin.
Qed.

(** [append] keeps the size of every array, so the slices of the heap
    stay within their arrays; so does its result. *)
Lemma appendSlice_wf g s xs t arrays :
  wfSlice arrays t -> wfSlice (appendSlice g s xs arrays).2 t.
Proof.
  destruct t as [|a' off' n' c']; [done|].
  intros (Hn & arr' & Ha' & Hc). split; [done|].
  unfold appendSlice.
  destruct (sliceLen s + sliceLen xs <=? sliceCap s)%nat.
  - destruct s as [|a off n c]; [by eauto|]. simpl.
    destruct (decide (a = a')) as [->|Hne].
    + rewrite lookup_alter_eq, Ha'. simpl. eexists. split; [done|].
      by rewrite length_inserts.
    + rewrite lookup_alter_ne by done. eauto.
  - simpl. rewrite lookup_insert_ne; [by eauto|].
    intros <-. assert (fresh (dom arrays) ∈ dom arrays) as Hin
      by (apply elem_of_dom; by eexists).
    by apply is_fresh in Hin.
Qed.

Lemma appendSlice_result_wf g s xs arrays :
  wfSlice arrays s -> wfSlice arrays xs ->
  wfSlice (appendSlice g s xs arrays).2 (appendSlice g s xs arrays).1.
Proof.
  intros Hs Hxs.
  pose proof (sliceElems_length arrays xs Hxs) as Hlen.
  pose proof (sliceElems_length arrays s Hs) as Hlens.
  unfold appendSlice.
  destruct (sliceLen s + sliceLen xs <=? sliceCap s)%nat eqn:Hroom.
  - apply Nat.leb_le in Hroom.
    destruct s as [|a off n c]; [done|]. simpl in *.
    destruct Hs as (Hn & arr & Ha & Hc). split; [done|].
    rewrite lookup_alter_eq, Ha. simpl. eexists. split; [done|].
    by rewrite length_inserts.
  - simpl. split; [lia|]. rewrite lookup_insert_eq. eexists. split; [done|].
    rewrite !length_app, length_replicate. lia.
Qed.

(** [append] changes no array but the one it writes to, and frees
    none. *)
Lemma appendSlice_frame g s xs arrays (a : loc) :
  is_Some (arrays !! a) ->
  (forall off n c, s <> MkSlice a off n c) ->
  (appendSlice g s xs arrays).2 !! a = arrays !! a.
Proof.
  intros Ha Hs. unfold appendSlice.
  destruct (sliceLen s + sliceLen xs <=? sliceCap s)%nat.
  - destruct s as [|a0 off n c]; [done|]. simpl.
    apply lookup_alter_ne. intros ->. by eapply Hs.
  - simpl. apply lookup_insert_ne.
    intros <-. assert (fresh (dom arrays) ∈ dom arrays) as Hin
      by (by apply elem_of_dom).
    by apply is_fresh in Hin.
Qed.

(** Appending no element gives the slice back and writes nothing. *)
Lemma appendSlice_none g s xs arrays :
  (sliceLen s <= sliceCap s)%nat -> sliceLen xs = 0%nat ->
  appendSlice g s xs arrays = (s, arrays).
Proof.
  intros Hs Hxs. unfold appendSlice. rewrite Hxs, Nat.add_0_r.
  assert (sliceElems arrays xs = []) as ->.
  { pose proof (sliceElems_length_le arrays xs) as Hle. rewrite Hxs in Hle.
    destruct (sliceElems arrays xs); [done|simpl in Hle; lia]. }
  apply Nat.leb_le in Hs. rewrite Hs.
  destruct s as [|a off n c]; [done|]. simpl.
  f_equal. apply map_eq. intros a'.
  destruct (decide (a = a')) as [->|Hne].
  - rewrite lookup_alter_eq. by destruct (arrays !! a').
  - by rewrite lookup_alter_ne.
Qed.

End SliceFacts.

(** ** Conclude and the order of the spans *)

Section BufferedConclude.
Context {R : Type}.
Implicit Types (l : B.Logger) (w : B.World R) (p : loc).

Lemma buffered_concludeTrace_fields (cc : B.ConcludeConfig.t)
    (tr : B.GalileoTrace.t) (ms : MapHeap) :
  let tr' := (B.concludeTrace cc tr ms).1 in
  B.GalileoTrace.Output tr' = B.ConcludeConfig.Output cc /\
  B.GalileoTrace.EndTime tr' =
    B.GalileoTrace.StartTime tr + B.ConcludeConfig.DurationNs cc /\
  B.GalileoTrace.StartTime tr' = B.GalileoTrace.StartTime tr /\
  B.GalileoTrace.Spans tr' = B.GalileoTrace.Spans tr /\
  B.GalileoTrace.ID tr' = B.GalileoTrace.ID tr /\
  B.GalileoTrace.Name tr' = B.GalileoTrace.Name tr /\
  B.GalileoTrace.Input tr' = B.GalileoTrace.Input tr.
Proof.
  unfold B.concludeTrace.
  destruct (B.ConcludeConfig.Tags cc); [done|].
  by destruct (ensureMap _ ms).
Qed.

(** The tags of Conclude go to the trace's metadata map, joined, under
    the key completion_tags; without tags the map is not touched. *)
Lemma buffered_concludeTrace_tags (cc : B.ConcludeConfig.t)
    (tr : B.GalileoTrace.t) (ms : MapHeap) :
  let '(tr', ms') := B.concludeTrace cc tr ms in
  entries ms' (B.GalileoTrace.Metadata tr') =
    match B.ConcludeConfig.Tags cc with
    | [] => entries ms (B.GalileoTrace.Metadata tr)
    | _ :: _ =>
        <["completion_tags" := VStr (Join (B.ConcludeConfig.Tags cc) ",")]>
          (entries ms (B.GalileoTrace.Metadata tr))
    end.
Proof.
  unfold B.concludeTrace.
  destruct (B.ConcludeConfig.Tags cc) as [|t ts]; [done|].
  pose proof (ensureMap_entries ms (B.GalileoTrace.Metadata tr)) as He.
  simpl B.GalileoTrace.Metadata.
  destruct (ensureMap (B.GalileoTrace.Metadata tr) ms) as [r ms1].
  simpl in *. by rewrite mapContents_mapAssign, He.
Qed.

Lemma buffered_conclude_active (cc : B.ConcludeConfig.t) l w p tr :
  B.currentTrace l = Some p ->
  B.traces w !! p = Some tr ->
  B.Conclude cc l w =
    (B.set_currentTrace None (B.set_traceBuffer (B.traceBuffer l ++ [p]) l),
     B.set_traces (<[p := (B.concludeTrace cc tr (B.maps w)).1]> (B.traces w))
                  (B.set_maps (B.concludeTrace cc tr (B.maps w)).2 w)).
Proof.
  intros Hcur Hp. unfold B.Conclude. rewrite Hcur, Hp.
  by destruct (B.concludeTrace cc tr (B.maps w)).
Qed.

End BufferedConclude.

Section SingleLocal.
Context {R : Type}.
Implicit Types (l : S.Logger) (w : S.World R).

Lemma single_applyAdd_active (c : S.AddCall) l w tr :
  S.currentTrace l = Some tr ->
  exists span w',
    S.applyAdd c (l, w) =
      (S.set_currentTrace (Some (S.Trace.set_Spans (S.Trace.Spans tr ++ [span]) tr)) l,
       w') /\
    S.createdBy c span /\
    S.arrays w' = S.arrays w /\ S.growslice w' = S.growslice w.
Proof.
  intros Hcur. destruct c as [cfg|cfg]; simpl.
  - unfold S.AddSpan. rewrite Hcur. eexists _, _. split; [reflexivity|]. done.
  - unfold S.AddLlmSpan, S.newLlmSpan. rewrite Hcur.
    destruct (ensureMap _ _) as [r ms0].
    eexists _, _. split; [reflexivity|]. simpl. repeat split.
Qed.

Lemma single_applyAdds_active (cs : list S.AddCall) l w tr :
  S.currentTrace l = Some tr ->
  exists spans w',
    S.applyAdds cs (l, w) =
      (S.set_currentTrace (Some (S.Trace.set_Spans (S.Trace.Spans tr ++ spans) tr)) l,
       w') /\
    Forall2 S.createdBy cs spans /\
    S.arrays w' = S.arrays w /\ S.growslice w' = S.growslice w.
Proof.
  revert l w tr.
  induction cs as [|c cs IH]; intros l w tr Hcur.
  - exists [], w. split; [|by split; [constructor|]].
    simpl. rewrite app_nil_r. destruct l as [c0 cur]. simpl in *. subst cur.
    by destruct tr.
  - destruct (single_applyAdd_active c l w tr Hcur)
      as (span & w1 & Hstep & Hc & Ha1 & Hg1).
    destruct (IH (S.set_currentTrace
                    (Some (S.Trace.set_Spans (S.Trace.Spans tr ++ [span]) tr)) l)
                 w1 (S.Trace.set_Spans (S.Trace.Spans tr ++ [span]) tr) eq_refl)
      as (spans & w' & Hrun & Hall & Ha & Hg).
    exists (span :: spans), w'.
    split; [|split; [by constructor|split; congruence]].
    unfold S.applyAdds in *. simpl fold_left. rewrite Hstep, Hrun.
    simpl. by rewrite <- app_assoc.
Qed.

Lemma single_conclude_active (cc : S.ConcludeConfig.t) l w tr :
  S.currentTrace l = Some tr ->
  let app := appendSlice (S.growslice w) (S.Trace.Tags tr)
                         (S.ConcludeConfig.Tags cc) (S.arrays w) in
  S.Conclude cc l w =
    (S.set_currentTrace
       (Some (S.Trace.mk (S.Trace.Input tr) (S.ConcludeConfig.Output cc)
                         (S.ConcludeConfig.DurationNs cc) (S.Trace.Spans tr)
                         app.1 (S.Trace.Metadata tr))) l,
     S.set_arrays app.2 w).
Proof.
  intros Hcur. cbv zeta. unfold S.Conclude. rewrite Hcur.
  cbn [S.Trace.Tags S.Trace.set_DurationNs S.Trace.set_Output].
  by destruct (appendSlice _ _ _ _).
Qed.

End SingleLocal.

(** C2.  Between StartTrace and Conclude, every add call puts its span
    at the end of the active trace.  In the buffered logger the trace
    that Conclude appends to the buffer, and in the single-trace logger
    the trace that Conclude leaves for Flush, has one span per add call,
    and its n-th span is the one the n-th call created.  A span of the
    single-trace logger holds the tag slice of its call: the add calls
    write to no array, and after Conclude the span still shows the tags
    of its call unless the [append] of Conclude wrote into its window
    (see [single_conclude_rewrites_shared_tags]). *)
Theorem C2_spans_follow_call_order {R : Type}
    (l : B.Logger) (w : B.World R) (cfg : B.TraceConfig.t) (id : string) (now : Z)
    (adds : list B.AddCall) (cc : B.ConcludeConfig.t)
    (sl : S.Logger) (sw : S.World R) (scfg : S.TraceConfig.t)
    (sadds : list S.AddCall) (scc : S.ConcludeConfig.t) :
  (let st1 := B.StartTraceWithContext cfg id now l w in
   let st2 := B.applyAdds adds st1 in
   let st3 := B.Conclude cc st2.1 st2.2 in
   exists p tr,
     B.traceBuffer st3.1 = B.traceBuffer l ++ [p] /\
     B.traces st3.2 !! p = Some tr /\
     Forall2 B.createdBy adds (B.GalileoTrace.Spans tr) /\
     forall n c, adds !! n = Some c ->
       exists s, B.GalileoTrace.Spans tr !! n = Some s /\ B.createdBy c s) /\
  (let st1 := S.StartTraceWithContext scfg sl sw in
   let st2 := S.applyAdds sadds st1 in
   let st3 := S.Conclude scc st2.1 st2.2 in
   exists tr,
     S.currentTrace st3.1 = Some tr /\
     Forall2 S.createdBy sadds (S.Trace.Spans tr) /\
     (forall n c, sadds !! n = Some c ->
        exists s, S.Trace.Spans tr !! n = Some s /\ S.createdBy c s) /\
     S.arrays st2.2 = S.arrays sw /\
     forall s, s ∈ S.Trace.Spans tr ->
       wfSlice (S.arrays sw) (S.Span.Tags s) ->
       appendSpares (S.TraceConfig.Tags scfg) (S.ConcludeConfig.Tags scc)
                    (S.Span.Tags s) = true ->
       sliceElems (S.arrays st3.2) (S.Span.Tags s)
       = sliceElems (S.arrays sw) (S.Span.Tags s)).
Proof.
  split; cbv zeta.
  - destruct (buffered_start_spec cfg id now l w) as (md & ms & _ & ->).
    set (p := fresh (dom (B.traces w))).
    set (tr0 := B.GalileoTrace.mk _ _ _ _ _ _ _ _).
    edestruct (buffered_applyAdds_active adds
                 (B.set_currentTrace (Some p) l)
                 (B.set_traces (<[p := tr0]> (B.traces w)) (B.set_maps ms w))
                 p tr0 eq_refl) as (spans & w' & -> & Hall & Hp).
    { simpl. apply lookup_insert_eq. }
    cbn [fst snd].
    rewrite (buffered_conclude_active cc (B.set_currentTrace (Some p) l) w' p _
               eq_refl Hp).
    pose proof (buffered_concludeTrace_fields cc
                  (B.GalileoTrace.set_Spans (B.GalileoTrace.Spans tr0 ++ spans) tr0)
                  (B.maps w')) as (_ & _ & _ & Hs & _).
    cbv zeta in Hs.
    exists p, (B.concludeTrace cc
                 (B.GalileoTrace.set_Spans (B.GalileoTrace.Spans tr0 ++ spans) tr0)
                 (B.maps w')).1.
    rewrite Hs.
    split; [reflexivity|]. split; [apply lookup_insert_eq|].
    split; [exact Hall|].
    intros n c Hn. exact (Forall2_lookup_l _ _ _ _ _ Hall Hn).
  - unfold S.StartTraceWithContext.
    set (tr0 := S.Trace.mk _ _ _ _ _ _).
    edestruct (single_applyAdds_active sadds
                 (S.set_currentTrace (Some tr0) sl) sw tr0 eq_refl)
      as (spans & w' & -> & Hall & Harr & Hgrow).
    cbn [fst snd]. unfold S.Conclude. cbn [S.currentTrace S.set_currentTrace].
    pose proof (appendSlice_spares (S.growslice w') (S.TraceConfig.Tags scfg)
                  (S.ConcludeConfig.Tags scc)) as Hspares.
    cbn [S.Trace.Tags S.Trace.set_DurationNs S.Trace.set_Output S.Trace.set_Spans tr0].
    destruct (appendSlice (S.growslice w') (S.TraceConfig.Tags scfg)
                (S.ConcludeConfig.Tags scc) (S.arrays w')) as [tags arrs] eqn:Happ.
    eexists. split; [reflexivity|]. cbn.
    split; [exact Hall|].
    split; [intros n c Hn; exact (Forall2_lookup_l _ _ _ _ _ Hall Hn)|].
    split; [exact Harr|].
    intros s _ Hwf Hspare. rewrite <- Harr in Hwf |- *.
    specialize (Hspares (S.Span.Tags s) (S.arrays w') Hwf Hspare).
    by rewrite Happ in Hspares.
Qed.

(** What C2 leaves open.  A caller hands [arr[:1]] to StartTrace and
    [arr[:2]], of the same array, to AddSpan.  The span is the one of
    the call and shows the tags [t] and [x]; Conclude with the tag
    [done] finds room behind the trace's tags and writes there, and the
    span then shows [t] and [done]. *)
Example single_conclude_rewrites_shared_tags :
  let st1 := S.StartTraceWithContext Demo.sharedTrace Demo.singleIdle Demo.singleWorld in
  let st2 := S.applyAdds [S.AddGeneric Demo.sharedSpan] st1 in
  let st3 := S.Conclude Demo.sharedDone st2.1 st2.2 in
  st2.1 = Demo.singleShared /\
  sliceElems (S.arrays st2.2) Demo.arrTwo = ["t"; "x"] /\
  appendSpares Demo.arrOne Demo.doneTag Demo.arrTwo = false /\
  (exists tr,
     S.currentTrace st3.1 = Some tr /\
     S.Span.Tags <$> S.Trace.Spans tr = [Demo.arrTwo] /\
     S.Trace.Tags tr = Demo.arrTwo) /\
  sliceElems (S.arrays st3.2) Demo.arrTwo = ["t"; "done"].
Proof.
  cbv zeta. split; [reflexivity|]. split; [reflexivity|]. split; [reflexivity|].
  split; [|reflexivity]. eexists. split; [reflexivity|]. split; reflexivity.
Qed.

Lemma C2_spans_follow_call_order_witness :
  let st1 := S.StartTraceWithContext Demo.sharedTrace Demo.singleIdle Demo.singleWorld in
  let st2 := S.applyAdds [S.AddGeneric Demo.singleToolSpan; S.AddGeneric Demo.sharedSpan]
                         st1 in
  let st3 := S.Conclude Demo.sharedDone st2.1 st2.2 in
  exists tr,
    S.currentTrace st3.1 = Some tr /\
    Forall2 S.createdBy
            [S.AddGeneric Demo.singleToolSpan; S.AddGeneric Demo.sharedSpan]
            (S.Trace.Spans tr) /\
    sliceElems (S.arrays st3.2) (MkSlice 1%positive 0 1 1) = ["tool"].
Proof.
  destruct (C2_spans_follow_call_order
              Demo.started.1 Demo.started.2 Demo.ping "id-9" 900 [] Demo.pong
              Demo.singleIdle Demo.singleWorld Demo.sharedTrace
              [S.AddGeneric Demo.singleToolSpan; S.AddGeneric Demo.sharedSpan]
              Demo.sharedDone) as (_ & tr & Hcur & Hall & _ & _ & Htags).
  exists tr. split; [exact Hcur|]. split; [exact Hall|].
  apply (Htags (S.Span.mk "get_weather" (VStr "London") (VStr "15C") 500000000
                          None (MkSlice 1%positive 0 1 1))).
  - inversion Hall as [|c s cs ss Hc Hrest]. subst. simpl in Hc. subst s. constructor.
  - split; [lia|]. eexists. split; [reflexivity|]. simpl. lia.
  - reflexivity.
Defined.


(** ** Flush of the single-trace logger *)

Section SingleFlush.
Context {R : Type}.
Variable E : S.Env R.

Lemma single_Do_frame (req : Request) (w : S.World R) :
  S.maps (S.Do E req w).2 = S.maps w /\
  S.logged (S.Do E req w).2 = S.logged w /\
  S.sent (S.Do E req w).2 = S.sent w ++ [req].
Proof.
  unfold S.Do. destruct (S.roundTrip E req (S.net w)) as [res n]. simpl. auto.
Qed.

(** Putting back the trace that Flush took out gives the logger before
    the call. *)
Lemma single_restore (l : S.Logger) (tr : S.Trace.t) :
  S.currentTrace l = Some tr ->
  S.set_currentTrace (Some tr) (S.set_currentTrace None l) = l.
Proof. destruct l as [c cur]. simpl. by intros ->. Qed.

Lemma single_Do_arrays (req : Request) (w : S.World R) :
  S.arrays (S.Do E req w).2 = S.arrays w.
Proof.
  unfold S.Do. by destruct (S.roundTrip E req (S.net w)) as [res n].
Qed.

Lemma single_flush_arrays (l : S.Logger) (w : S.World R) :
  S.arrays (S.FlushWithContext E l w).2 = S.arrays w.
Proof.
  unfold S.FlushWithContext.
  destruct (S.currentTrace l) as [tr|]; [|done].
  destruct (S.marshalEvents E tr (S.maps w) (S.arrays w)) as [data|e]; [|done].
  destruct (S.LoggerConfig.DryRun _); [done|].
  destruct (S.NewRequestWithContext E _ _ _) as [req|e]; [|done].
  match goal with
  | |- context [S.Do E ?r w] =>
      pose proof (single_Do_arrays r w) as Ha;
      destruct (S.Do E r w) as [res w1]
  end.
  simpl in Ha.
  destruct res as [resp|e]; [|done].
  destruct (negb (S.statusAccepted resp)); done.
Qed.

Lemma single_flush_cases (l : S.Logger) (w : S.World R) :
  match S.FlushWithContext E l w with
  | (None, l', w') => S.currentTrace l' = None /\ S.config l' = S.config l
  | (Some _, l', w') => l' = l
  end /\
  S.maps (S.FlushWithContext E l w).2 = S.maps w.
Proof.
  unfold S.FlushWithContext.
  destruct (S.currentTrace l) as [tr|] eqn:Hcur; [|done].
  pose proof (single_restore l tr Hcur) as Hback.
  destruct (S.marshalEvents E tr (S.maps w) (S.arrays w)) as [data|e]; [|done].
  destruct (S.LoggerConfig.DryRun _); [done|].
  destruct (S.NewRequestWithContext E _ _ _) as [req|e]; [|done].
  match goal with
  | |- context [S.Do E ?r w] =>
      pose proof (single_Do_frame r w) as (Hm & _);
      destruct (S.Do E r w) as [res w1]
  end.
  simpl in Hm.
  destruct res as [resp|e]; [|done].
  destruct (negb (S.statusAccepted resp)); done.
Qed.

End SingleFlush.

(** C1.  A Flush that returns nil leaves no trace to send; a Flush that
    returns an error, whether the transport failed, the service refused
    or the request could not be built, leaves the traces to send and
    the heap they live in as they were, so the call can be repeated. *)
Theorem C1_flush_clears_on_success_keeps_on_failure {R : Type}
    (EB : B.Env R) (l : B.Logger) (w : B.World R)
    (ES : S.Env R) (sl : S.Logger) (sw : S.World R) :
  match B.FlushWithContext EB l w with
  | (None, l', w') => B.traceBuffer l' = []
  | (Some _, l', w') =>
      B.traceBuffer l' = B.traceBuffer l /\
      B.traces w' = B.traces w /\ B.maps w' = B.maps w
  end /\
  match S.FlushWithContext ES sl sw with
  | (None, l', w') => S.pending l' = []
  | (Some _, l', w') =>
      S.pending l' = S.pending sl /\ S.maps w' = S.maps sw /\
      S.arrays w' = S.arrays sw
  end.
Proof.
  split.
  - pose proof (buffered_flush_cases EB l w) as (Hl & Ht & Hm).
    destruct (B.FlushWithContext EB l w) as [[[e|] l'] w']; simpl in *.
    + by subst l'.
    + tauto.
  - pose proof (single_flush_cases ES sl sw) as (Hl & Hm).
    pose proof (single_flush_arrays ES sl sw) as Ha.
    destruct (S.FlushWithContext ES sl sw) as [[[e|] l'] w']; simpl in *.
    + by subst l'.
    + unfold S.pending. by destruct Hl as [-> _].
Qed.

(** The two outcomes of C1 on the scenario of the specification: the
    service unreachable, then answering 200. *)
Example buffered_flush_unreachable :
  let '(l, w) := Demo.concluded in
  let '(err, l', w') := B.FlushWithContext (Demo.bufferedEnv Demo.unreachable) l w in
  err = Some (errWrap "failed to flush traces" (errLib "dial tcp: connection refused")) /\
  B.traceBuffer l = [1%positive] /\ B.traceBuffer l' = [1%positive].
Proof. vm_compute. auto. Qed.

Example buffered_flush_refused :
  let '(l, w) := Demo.concluded in
  let '(err, l', w') :=
    B.FlushWithContext (Demo.bufferedEnv (Demo.answering 500 "down")) l w in
  err = Some (errStatus "flush failed with status" 500 "down") /\
  B.traceBuffer l' = [1%positive].
Proof. vm_compute. auto. Qed.

Example buffered_flush_accepted :
  let '(l, w) := Demo.concluded in
  let '(err, l', w') :=
    B.FlushWithContext (Demo.bufferedEnv (Demo.answering 200 "ok")) l w in
  err = None /\ B.traceBuffer l' = [] /\ length (B.sent w') = 1%nat.
Proof. vm_compute. auto. Qed.

Lemma C10_flush_empty_buffer_witness :
  B.traceBuffer Demo.bufferedLogger = [] /\
  B.FlushWithContext (Demo.bufferedEnv (Demo.answering 200 "ok"))
                     Demo.bufferedLogger Demo.bufferedWorld
  = (None, Demo.bufferedLogger, Demo.bufferedWorld).
Proof.
  split; [reflexivity|].
  apply (C10_flush_empty_buffer (Demo.bufferedEnv (Demo.answering 200 "ok"))
           Demo.bufferedLogger Demo.bufferedWorld).
  reflexivity.
Defined.

(** ** Conclude *)

(** C3, as the two programs have it.  In the buffered logger, Conclude
    on an active trace sets its output, sets its end time to its start
    time plus the duration, writes the tags, joined by commas, under
    [completion_tags] in the trace's metadata map (no write when there
    are no tags), appends the trace to the end of the buffer and clears
    the active trace.  In the single-trace logger, Conclude sets the
    output and the duration and appends the tags to the trace's tags
    with Go's [append]: the trace then shows its earlier tags followed
    by the given ones, and every slice that the append spares shows
    what it showed before.  The spans are not touched, and the trace
    stays the current one, which is what Flush sends. *)
Theorem C3_conclude_in_each_logger {R : Type}
    (l : B.Logger) (w : B.World R) (p : loc) (tr : B.GalileoTrace.t)
    (cc : B.ConcludeConfig.t)
    (sl : S.Logger) (sw : S.World R) (str : S.Trace.t) (scc : S.ConcludeConfig.t) :
  B.currentTrace l = Some p ->
  B.traces w !! p = Some tr ->
  S.currentTrace sl = Some str ->
  (let '(l', w') := B.Conclude cc l w in
   B.currentTrace l' = None /\
   B.traceBuffer l' = B.traceBuffer l ++ [p] /\
   exists tr',
     B.traces w' !! p = Some tr' /\
     B.GalileoTrace.Output tr' = B.ConcludeConfig.Output cc /\
     B.GalileoTrace.EndTime tr' =
       B.GalileoTrace.StartTime tr + B.ConcludeConfig.DurationNs cc /\
     B.GalileoTrace.StartTime tr' = B.GalileoTrace.StartTime tr /\
     B.GalileoTrace.Spans tr' = B.GalileoTrace.Spans tr /\
     entries (B.maps w') (B.GalileoTrace.Metadata tr') =
       match B.ConcludeConfig.Tags cc with
       | [] => entries (B.maps w) (B.GalileoTrace.Metadata tr)
       | _ :: _ =>
           <["completion_tags" := VStr (Join (B.ConcludeConfig.Tags cc) ",")]>
             (entries (B.maps w) (B.GalileoTrace.Metadata tr))
       end) /\
  (let '(tags, arrs) :=
     appendSlice (S.growslice sw) (S.Trace.Tags str) (S.ConcludeConfig.Tags scc)
                 (S.arrays sw) in
   S.Conclude scc sl sw =
     (S.set_currentTrace
        (Some (S.Trace.mk (S.Trace.Input str) (S.ConcludeConfig.Output scc)
                          (S.ConcludeConfig.DurationNs scc) (S.Trace.Spans str)
                          tags (S.Trace.Metadata str))) sl,
      S.set_arrays arrs sw) /\
   (wfSlice (S.arrays sw) (S.Trace.Tags str) ->
    wfSlice (S.arrays sw) (S.ConcludeConfig.Tags scc) ->
    sliceElems arrs tags =
      sliceElems (S.arrays sw) (S.Trace.Tags str)
      ++ sliceElems (S.arrays sw) (S.ConcludeConfig.Tags scc)) /\
   (forall t, wfSlice (S.arrays sw) t ->
      appendSpares (S.Trace.Tags str) (S.ConcludeConfig.Tags scc) t = true ->
      sliceElems arrs t = sliceElems (S.arrays sw) t)).
Proof.
  intros Hcur Hp Hscur. split.
  - rewrite (buffered_conclude_active cc l w p tr Hcur Hp).
    split; [reflexivity|]. split; [reflexivity|].
    exists (B.concludeTrace cc tr (B.maps w)).1.
    split; [apply lookup_insert_eq|].
    pose proof (buffered_concludeTrace_fields cc tr (B.maps w))
      as (Ho & He & Hs & Hsp & _).
    pose proof (buffered_concludeTrace_tags cc tr (B.maps w)) as Htags.
    cbv zeta in *.
    destruct (B.concludeTrace cc tr (B.maps w)) as [tr' ms'].
    simpl in *. auto 10.
  - pose proof (appendSlice_elems (S.growslice sw) (S.Trace.Tags str)
                  (S.ConcludeConfig.Tags scc) (S.arrays sw)) as Helems.
    pose proof (appendSlice_spares (S.growslice sw) (S.Trace.Tags str)
                  (S.ConcludeConfig.Tags scc)) as Hspares.
    unfold S.Conclude. rewrite Hscur.
    cbn [S.Trace.Tags S.Trace.set_DurationNs S.Trace.set_Output].
    destruct (appendSlice (S.growslice sw) (S.Trace.Tags str)
                (S.ConcludeConfig.Tags scc) (S.arrays sw)) as [tags arrs] eqn:Happ.
    split; [reflexivity|]. split; [exact Helems|].
    intros t Hwf Hspare. specialize (Hspares t (S.arrays sw) Hwf Hspare).
    by rewrite Happ in Hspares.
Qed.

Lemma C3_conclude_in_each_logger_witness :
  B.currentTrace Demo.started.1 = Some 1%positive /\
  B.traces Demo.started.2 !! 1%positive = Some Demo.startedTrace /\
  S.currentTrace Demo.singleShared =
    Some (S.Trace.mk "ping" "" 0
            [S.Span.mk "step" (VStr "in") (VStr "out") 5 None Demo.arrTwo]
            Demo.arrOne None) /\
  (let '(l', w') := B.Conclude Demo.tagged Demo.started.1 Demo.started.2 in
   B.currentTrace l' = None /\
   B.traceBuffer l' = B.traceBuffer Demo.started.1 ++ [1%positive] /\
   exists tr',
     B.traces w' !! 1%positive = Some tr' /\
     B.GalileoTrace.Output tr' = "pong" /\
     B.GalileoTrace.EndTime tr' = 100 + 1000000 /\
     B.GalileoTrace.StartTime tr' = 100 /\
     B.GalileoTrace.Spans tr' = [] /\
     entries (B.maps w') (B.GalileoTrace.Metadata tr') =
       <["completion_tags" := VStr "completed,success"]>
         (entries (B.maps Demo.started.2) None)) /\
  (let arrs := <[2%positive := ["t"; "done"]]> (S.arrays Demo.singleWorld) in
   S.Conclude Demo.sharedDone Demo.singleShared Demo.singleWorld =
     (S.set_currentTrace
        (Some (S.Trace.mk "ping" "pong" 1000000
                 [S.Span.mk "step" (VStr "in") (VStr "out") 5 None Demo.arrTwo]
                 Demo.arrTwo None))
        Demo.singleShared,
      S.set_arrays arrs Demo.singleWorld) /\
   sliceElems arrs Demo.arrTwo = ["t"; "done"] /\
   sliceElems arrs (MkSlice 1%positive 0 1 1) = ["tool"]).
Proof.
  split; [reflexivity|]. split; [reflexivity|]. split; [reflexivity|].
  destruct (C3_conclude_in_each_logger Demo.started.1 Demo.started.2 1%positive
              Demo.startedTrace Demo.tagged
              Demo.singleShared Demo.singleWorld
              (S.Trace.mk "ping" "" 0
                 [S.Span.mk "step" (VStr "in") (VStr "out") 5 None Demo.arrTwo]
                 Demo.arrOne None)
              Demo.sharedDone eq_refl eq_refl eq_refl)
    as (Hbuffered & Hsingle).
  split; [exact Hbuffered|].
  destruct (appendSlice (S.growslice Demo.singleWorld) Demo.arrOne Demo.doneTag
              (S.arrays Demo.singleWorld)) as [tags arrs] eqn:Happ.
  vm_compute in Happ. injection Happ as <- <-.
  destruct Hsingle as (Hconclude & Helems & Hspares).
  cbv zeta. split; [exact Hconclude|]. split.
  - apply Helems; (split; [lia|]); eexists; (split; [reflexivity|]); simpl; lia.
  - apply Hspares; [|reflexivity].
    split; [lia|]. eexists. split; [reflexivity|]. simpl. lia.
Defined.

(** The single-trace logger after Conclude: the trace is still the
    current one, and nothing was appended or cleared. *)
Lemma C3_single_conclude_keeps_trace_active :
  is_Some (S.currentTrace Demo.singleActive) /\
  S.currentTrace
    (S.Conclude Demo.singlePong Demo.singleActive Demo.singleWorld).1 <> None.
Proof. split; [by eexists|]. vm_compute. discriminate. Qed.

(** ** The calls made without an active trace *)

(** C4, as the two programs have it.  Without an active trace, AddSpan,
    AddLlmSpan and Conclude of the buffered logger return without
    touching the logger, the heap or the network, and write one warning
    line to the log; those of the single-trace logger return without
    any effect at all, AddSpan with a nil span. *)
Theorem C4_calls_without_active_trace {R : Type}
    (l : B.Logger) (w : B.World R)
    (sc : B.SpanConfig.t) (lc : B.LlmSpanConfig.t) (cc : B.ConcludeConfig.t)
    (id : string) (now : Z)
    (sl : S.Logger) (sw : S.World R)
    (ssc : S.SpanConfig.t) (slc : S.LlmSpanConfig.t) (scc : S.ConcludeConfig.t) :
  B.currentTrace l = None ->
  S.currentTrace sl = None ->
  (B.AddSpan sc id now l w =
     (l, B.logPrintln "Warning: AddSpan called without an active trace." w) /\
   B.AddLlmSpan lc id now l w =
     (l, B.logPrintln "Warning: AddLlmSpan called without an active trace." w) /\
   B.Conclude cc l w =
     (l, B.logPrintln "Warning: Conclude called without an active trace." w)) /\
  (forall msg,
     B.logged (B.logPrintln msg w) = B.logged w ++ [msg] /\
     B.traces (B.logPrintln msg w) = B.traces w /\
     B.maps (B.logPrintln msg w) = B.maps w /\
     B.printed (B.logPrintln msg w) = B.printed w /\
     B.net (B.logPrintln msg w) = B.net w /\
     B.sent (B.logPrintln msg w) = B.sent w) /\
  (S.AddSpan ssc sl sw = (None, sl, sw) /\
   S.AddLlmSpan slc sl sw = (sl, sw) /\
   S.Conclude scc sl sw = (sl, sw)).
Proof.
  intros Hcur Hscur.
  unfold B.AddSpan, B.AddLlmSpan, B.Conclude, S.AddSpan, S.AddLlmSpan, S.Conclude.
  rewrite Hcur, Hscur. by repeat split.
Qed.

Lemma C4_calls_without_active_trace_witness :
  B.currentTrace Demo.bufferedLogger = None /\
  S.currentTrace Demo.singleIdle = None /\
  B.Conclude Demo.pong Demo.bufferedLogger Demo.bufferedWorld =
    (Demo.bufferedLogger,
     B.logPrintln "Warning: Conclude called without an active trace."
                  Demo.bufferedWorld) /\
  S.Conclude Demo.singlePong Demo.singleIdle Demo.singleWorld =
    (Demo.singleIdle, Demo.singleWorld).
Proof.
  split; [reflexivity|]. split; [reflexivity|].
  destruct (C4_calls_without_active_trace
              Demo.bufferedLogger Demo.bufferedWorld
              Demo.toolSpan Demo.llmPing Demo.pong "id-9" 900
              Demo.singleIdle Demo.singleWorld
              Demo.singleToolSpan Demo.singleLlmPing Demo.singlePong
              eq_refl eq_refl) as ((_ & _ & HB) & _ & (_ & _ & HS)).
  split; assumption.
Defined.

(** The single-trace logger without an active trace: the three calls
    give back the state they were given, and the log stays empty. *)
Lemma C4_single_calls_are_silent :
  S.currentTrace Demo.singleIdle = None /\
  S.AddSpan Demo.singleToolSpan Demo.singleIdle Demo.singleWorld =
    (None, Demo.singleIdle, Demo.singleWorld) /\
  S.AddLlmSpan Demo.singleLlmPing Demo.singleIdle Demo.singleWorld =
    (Demo.singleIdle, Demo.singleWorld) /\
  S.Conclude Demo.singlePong Demo.singleIdle Demo.singleWorld =
    (Demo.singleIdle, Demo.singleWorld) /\
  S.logged (S.Conclude Demo.singlePong Demo.singleIdle Demo.singleWorld).2 = [] /\
  ~ (exists line,
       S.logged (S.AddLlmSpan Demo.singleLlmPing Demo.singleIdle Demo.singleWorld).2
       = S.logged Demo.singleWorld ++ [line]).
Proof.
  repeat (split; [reflexivity|]).
  intros [line Hline]. vm_compute in Hline. discriminate.
Qed.

(** ** Runs of the buffered logger *)

Section BufferedRuns.
Context {R : Type}.
Variable E : B.Env R.
Implicit Types (l : B.Logger) (w : B.World R) (p q : loc).

Lemma buffered_start_session_frame name l w res l' w' :
  B.StartSession E name l w = Done (res, l', w') ->
  B.currentTrace l' = B.currentTrace l /\
  B.traceBuffer l' = B.traceBuffer l /\
  B.traces w' = B.traces w.
Proof.
  unfold B.StartSession.
  destruct (B.NewRequestWithContext E _ _ _) as [req|e]; [|done].
  match goal with
  | |- context [B.Do E ?r w] =>
      pose proof (buffered_Do_heap E r w) as (Ht & _);
      destruct (B.Do E r w) as [res0 w1]
  end.
  simpl in Ht.
  destruct res0 as [resp|e].
  - destruct (negb (B.statusAccepted resp)); intros [= <- <- <-]; done.
  - intros [= <- <- <-]. done.
Qed.

(** What one call does to the two references of the logger and to the
    heap of traces: it starts a trace at a fresh address, or extends the
    spans of one trace, or moves the active trace to the buffer, or
    leaves the traces alone and at most empties the buffer. *)
Lemma buffered_exec_shape (c : B.Call) l w l' w' :
  B.exec E c (l, w) = Done (l', w') ->
  (exists tr,
     B.GalileoTrace.Output tr = "" /\ B.GalileoTrace.EndTime tr = 0 /\
     B.currentTrace l' = Some (fresh (dom (B.traces w))) /\
     B.traceBuffer l' = B.traceBuffer l /\
     B.traces w' = <[fresh (dom (B.traces w)) := tr]> (B.traces w)) \/
  (exists p span,
     B.currentTrace l' = B.currentTrace l /\
     B.traceBuffer l' = B.traceBuffer l /\
     B.traces w' =
       alter (fun tr => B.GalileoTrace.set_Spans (B.GalileoTrace.Spans tr ++ [span]) tr)
             p (B.traces w)) \/
  (exists p,
     B.currentTrace l = Some p /\ B.currentTrace l' = None /\
     B.traceBuffer l' = B.traceBuffer l ++ [p] /\
     (B.traces w' = B.traces w \/
      exists tr', B.traces w' = <[p := tr']> (B.traces w))) \/
  (B.currentTrace l' = B.currentTrace l /\
   (B.traceBuffer l' = B.traceBuffer l \/ B.traceBuffer l' = []) /\
   B.traces w' = B.traces w).
Proof.
  destruct c as [cfg id now|cfg id now|cfg id now|cfg| | |name|r m]; simpl.
  - destruct (buffered_start_spec cfg id now l w) as (md & ms & _ & ->).
    intros [= <- <-]. left. eexists. repeat split; reflexivity.
  - unfold B.AddSpan.
    destruct (B.currentTrace l) as [p|] eqn:Hcur.
    + destruct (B.newSpan _ _ _ _) as [span ms]. intros [= <- <-].
      right; left. exists p, span. done.
    + intros [= <- <-]. do 3 right. auto.
  - unfold B.AddLlmSpan.
    destruct (B.currentTrace l) as [p|] eqn:Hcur.
    + destruct (B.newLlmSpan _ _ _ _) as [span ms]. intros [= <- <-].
      right; left. exists p, span. done.
    + intros [= <- <-]. do 3 right. auto.
  - unfold B.Conclude.
    destruct (B.currentTrace l) as [p|] eqn:Hcur.
    + intros [= <- <-]. right; right; left. exists p.
      split; [done|]. split; [done|]. split; [done|].
      destruct (B.traces w !! p) as [tr|]; [|by left].
      destruct (B.concludeTrace _ _ _) as [tr' ms]. right. by exists tr'.
    + intros [= <- <-]. do 3 right. auto.
  - pose proof (buffered_flush_cases E l w) as (Hl & Ht & _).
    destruct (B.FlushWithContext E l w) as [[[e|] l1] w1]; simpl in *;
      intros [= <- <-]; do 3 right.
    + subst l1. auto.
    + destruct Hl as [Hb Hc]. auto.
  - unfold B.Close.
    pose proof (buffered_flush_cases E l w) as (Hl & Ht & _).
    destruct (B.FlushWithContext E l w) as [[[e|] l1] w1]; simpl in *;
      intros [= <- <-]; do 3 right.
    + subst l1. auto.
    + destruct Hl as [Hb Hc]. auto.
  - destruct (B.StartSession E name l w) as [[[res l1] w1]| |] eqn:Hs; simpl;
      [|done|done].
    intros [= <- <-]. do 3 right.
    destruct (buffered_start_session_frame _ _ _ _ _ _ Hs) as (? & ? & ?). auto.
  - intros [= <- <-]. do 3 right. auto.
Qed.

End BufferedRuns.

Section BufferedInvariants.
Context {R : Type}.
Variable E : B.Env R.
Implicit Types (l : B.Logger) (w : B.World R) (p q : loc) (st : B.Logger * B.World R).

Lemma fresh_trace_unallocated w : B.traces w !! fresh (dom (B.traces w)) = None.
Proof. apply not_elem_of_dom, is_fresh. Qed.

Lemma wf_initial l w : B.initial l -> wf (l, w).
Proof.
  intros [Hbuf Hcur]. unfold wf. simpl. rewrite Hbuf, Hcur.
  split; [done|]. split; [|done]. intros p Hp. by apply elem_of_nil in Hp.
Qed.

Lemma wf_exec (c : B.Call) st st' :
  wf st -> B.exec E c st = Done st' -> wf st'.
Proof.
  destruct st as [l w], st' as [l' w'].
  intros (Hact & Hbuf & Hsep) Hexec. simpl in *.
  destruct (buffered_exec_shape E c l w l' w' Hexec)
    as [(tr & Ho & He & Hc & Hb & Ht)
       |[(p & span & Hc & Hb & Ht)
        |[(p & Hc & Hc' & Hb & Ht)
         |(Hc & Hb & Ht)]]]; unfold wf; simpl.
  - rewrite Hc, Hb, Ht. repeat split.
    + intros q [= <-]. exists tr. by rewrite lookup_insert_eq.
    + intros q Hq. apply lookup_insert_is_Some'. right. by apply Hbuf.
    + intros q [= <-] Hq. apply Hbuf in Hq.
      rewrite fresh_trace_unallocated in Hq. by destruct Hq.
  - rewrite Hc, Hb, Ht. repeat split.
    + intros q Hq. destruct (Hact q Hq) as (tr & Hl & Ho & He).
      rewrite lookup_alter. case_decide as Hpq.
      * subst q. rewrite Hl. eexists. split; [reflexivity|]. by destruct tr.
      * exists tr. done.
    + intros q Hq. rewrite lookup_alter_is_Some. by apply Hbuf.
    + exact Hsep.
  - rewrite Hc', Hb. repeat split; [done| |done].
    intros q Hq.
    assert (is_Some (B.traces w !! q)) as Hsome.
    { apply elem_of_app in Hq as [Hq|Hq]; [by apply Hbuf|].
      apply list_elem_of_singleton in Hq as ->.
      destruct (Hact p Hc) as (tr & Hl & _). by exists tr. }
    destruct Ht as [->|[tr' ->]]; [done|].
    apply lookup_insert_is_Some'. by right.
  - rewrite Hc, Ht. repeat split; [exact Hact| |].
    + intros q Hq. apply Hbuf. destruct Hb as [ <- | Hnil ]; [done|].
      rewrite Hnil in Hq. by apply elem_of_nil in Hq.
    + intros q Hq. destruct Hb as [ -> | -> ]; [by apply Hsep|]. apply not_elem_of_nil.
Qed.

Lemma dropped_exec (c : B.Call) q st st' :
  dropped q st -> B.exec E c st = Done st' -> dropped q st'.
Proof.
  destruct st as [l w], st' as [l' w'].
  intros (Hq & Hcur & Hbuf) Hexec. simpl in *.
  destruct (buffered_exec_shape E c l w l' w' Hexec)
    as [(tr & Ho & He & Hc & Hb & Ht)
       |[(p & span & Hc & Hb & Ht)
        |[(p & Hc & Hc' & Hb & Ht)
         |(Hc & Hb & Ht)]]]; unfold dropped; simpl.
  - rewrite Hc, Hb, Ht. repeat split; [|  |done].
    + apply lookup_insert_is_Some'. by right.
    + intros [= Heq]. rewrite <- Heq, fresh_trace_unallocated in Hq. by destruct Hq.
  - rewrite Hc, Hb, Ht. repeat split; [|done|done].
    by rewrite lookup_alter_is_Some.
  - rewrite Hc', Hb. repeat split; [|done|].
    + destruct Ht as [->|[tr' ->]]; [done|]. apply lookup_insert_is_Some'. by right.
    + intros Hin. apply elem_of_app in Hin as [Hin|Hin]; [done|].
      apply list_elem_of_singleton in Hin as ->. by rewrite Hc in Hcur.
  - rewrite Hc, Ht. repeat split; [done|done|].
    destruct Hb as [ -> | -> ]; [done|]. apply not_elem_of_nil.
Qed.

Lemma wf_run (calls : list B.Call) st st' :
  wf st -> B.run E calls st = Done st' -> wf st'.
Proof.
  revert st. induction calls as [|c calls IH]; intros st Hwf; simpl.
  - by intros [= <-].
  - destruct (B.exec E c st) as [st1| |] eqn:Hexec; simpl; [|done|done].
    apply IH. exact (wf_exec c st st1 Hwf Hexec).
Qed.

Lemma dropped_run (calls : list B.Call) q st st' :
  dropped q st -> B.run E calls st = Done st' -> dropped q st'.
Proof.
  revert st. induction calls as [|c calls IH]; intros st Hd; simpl.
  - by intros [= <-].
  - destruct (B.exec E c st) as [st1| |] eqn:Hexec; simpl; [|done|done].
    apply IH. exact (dropped_exec c q st st1 Hd Hexec).
Qed.

Lemma wf_reachable st : B.reachable E st -> wf st.
Proof.
  intros (l0 & w0 & calls & Hinit & Hrun).
  exact (wf_run calls (l0, w0) st (wf_initial l0 w0 Hinit) Hrun).
Qed.

End BufferedInvariants.

Section BufferedReachable.
Context {R : Type}.
Variable E : B.Env R.
Implicit Types (l : B.Logger) (w : B.World R) (p q : loc) (st : B.Logger * B.World R).

Lemma run_snoc (calls : list B.Call) (c : B.Call) st :
  B.run E (calls ++ [c]) st = obind (B.run E calls st) (B.exec E c).
Proof.
  revert st. induction calls as [|c0 calls IH]; intros st; simpl.
  - by destruct (B.exec E c st).
  - destruct (B.exec E c0 st) as [st1| |]; simpl; [apply IH|done|done].
Qed.

Lemma reachable_exec (c : B.Call) st st' :
  B.reachable E st -> B.exec E c st = Done st' -> B.reachable E st'.
Proof.
  intros (l0 & w0 & calls & Hinit & Hrun) Hexec.
  exists l0, w0, (calls ++ [c]). split; [done|].
  rewrite run_snoc, Hrun. exact Hexec.
Qed.

(** C5.  StartTrace on a logger whose active trace [p] was not
    concluded makes a fresh trace the active one and leaves the buffer
    as it is: [p] is not in the buffer, and whatever calls follow, [p]
    is never again the active trace nor in the buffer.  The logger has a
    single reference for the trace under way.  The single-trace logger
    likewise overwrites its current trace with the fresh one. *)
Theorem C5_start_trace_discards_active_trace
    (l : B.Logger) (w : B.World R) (p : loc)
    (cfg : B.TraceConfig.t) (id : string) (now : Z)
    (sl : S.Logger) (sw : S.World R) (scfg : S.TraceConfig.t) :
  B.reachable E (l, w) ->
  B.currentTrace l = Some p ->
  (let '(l', w') := B.StartTraceWithContext cfg id now l w in
   (exists p' tr',
      B.currentTrace l' = Some p' /\ p' <> p /\
      B.traces w' !! p' = Some tr' /\
      B.GalileoTrace.ID tr' = id /\
      B.GalileoTrace.Input tr' = B.TraceConfig.Input cfg /\
      B.GalileoTrace.StartTime tr' = now /\
      B.GalileoTrace.Spans tr' = []) /\
   B.traceBuffer l' = B.traceBuffer l /\
   (p ∉ B.traceBuffer l') /\
   forall calls l'' w'',
     B.run E calls (l', w') = Done (l'', w'') ->
     B.currentTrace l'' <> Some p /\ p ∉ B.traceBuffer l'') /\
  (let '(sl', sw') := S.StartTraceWithContext scfg sl sw in
   S.pending sl' =
     [S.Trace.mk (S.TraceConfig.Input scfg) "" 0 [] (S.TraceConfig.Tags scfg) None] /\
   sw' = sw).
Proof.
  intros Hreach Hcur. split; [|done].
  destruct (wf_reachable E _ Hreach) as (Hact & Hbuf & Hsep). simpl in *.
  destruct (Hact p Hcur) as (tr & Hp & _).
  destruct (buffered_start_spec cfg id now l w) as (md & ms & _ & ->).
  assert (fresh (dom (B.traces w)) <> p) as Hne.
  { intros Heq. pose proof (fresh_trace_unallocated w) as Hf.
    rewrite Heq, Hp in Hf. discriminate. }
  split.
  { eexists _, _. split; [reflexivity|]. split; [exact Hne|].
    split; [apply lookup_insert_eq|]. done. }
  split; [reflexivity|]. split; [exact (Hsep p Hcur)|].
  intros calls l'' w'' Hrun.
  assert (dropped p
            (B.set_currentTrace (Some (fresh (dom (B.traces w)))) l,
             B.set_traces
               (<[fresh (dom (B.traces w)) :=
                    B.GalileoTrace.mk id (B.TraceConfig.Name cfg)
                      (B.TraceConfig.Input cfg) "" [] md now 0]> (B.traces w))
               (B.set_maps ms w))) as Hd.
  { unfold dropped. simpl. split.
    - apply lookup_insert_is_Some'. right. by exists tr.
    - split; [congruence|exact (Hsep p Hcur)]. }
  destruct (dropped_run E calls p _ _ Hd Hrun) as (_ & Hc'' & Hb''). done.
Qed.

(** C9.  In every state a program can reach, the active trace has an
    empty output and a zero end time (the buffered trace has no duration
    field: its duration is the distance from start to end).  The state
    after StartTrace, AddSpan or AddLlmSpan is such a state again, while
    Conclude writes both fields.  In the single-trace logger, whose
    trace has a duration field, a trace started and then extended by add
    calls has an empty output and a zero duration. *)
Theorem C9_unconcluded_trace_is_unset
    (l : B.Logger) (w : B.World R) (p : loc)
    (sl : S.Logger) (sw : S.World R) (scfg : S.TraceConfig.t) :
  B.reachable E (l, w) ->
  B.currentTrace l = Some p ->
  (exists tr,
     B.traces w !! p = Some tr /\
     B.GalileoTrace.Output tr = "" /\ B.GalileoTrace.EndTime tr = 0 /\
     forall cc,
       exists tr',
         B.traces (B.Conclude cc l w).2 !! p = Some tr' /\
         B.GalileoTrace.Output tr' = B.ConcludeConfig.Output cc /\
         B.GalileoTrace.EndTime tr' =
           B.GalileoTrace.StartTime tr + B.ConcludeConfig.DurationNs cc) /\
  (forall c,
     B.currentTrace (B.applyAdd c (l, w)).1 = Some p /\
     exists tr',
       B.traces (B.applyAdd c (l, w)).2 !! p = Some tr' /\
       B.GalileoTrace.Output tr' = "" /\ B.GalileoTrace.EndTime tr' = 0) /\
  (forall cfg id now,
     exists p' tr',
       B.currentTrace (B.StartTraceWithContext cfg id now l w).1 = Some p' /\
       B.traces (B.StartTraceWithContext cfg id now l w).2 !! p' = Some tr' /\
       B.GalileoTrace.Output tr' = "" /\ B.GalileoTrace.EndTime tr' = 0) /\
  (forall sadds,
     exists str,
       S.currentTrace (S.applyAdds sadds (S.StartTraceWithContext scfg sl sw)).1
         = Some str /\
       S.Trace.Output str = "" /\ S.Trace.DurationNs str = 0).
Proof.
  intros Hreach Hcur.
  destruct (wf_reachable E _ Hreach) as (Hact & _). simpl in Hact.
  destruct (Hact p Hcur) as (tr & Hp & Ho & He).
  split; [|split; [|split]].
  - exists tr. repeat (split; [assumption|]).
    intros cc. rewrite (buffered_conclude_active cc l w p tr Hcur Hp).
    exists (B.concludeTrace cc tr (B.maps w)).1.
    split; [apply lookup_insert_eq|].
    pose proof (buffered_concludeTrace_fields cc tr (B.maps w)) as (Ho' & He' & _).
    done.
  - intros c.
    destruct (buffered_applyAdd_active c l w p Hcur) as (span & w1 & Hstep & _ & Ht).
    rewrite Hstep. simpl. split; [done|].
    rewrite Ht, lookup_alter_eq, Hp. simpl. eexists. split; [reflexivity|]. done.
  - intros cfg id now.
    destruct (buffered_start_spec cfg id now l w) as (md & ms & _ & ->).
    eexists _, _. split; [reflexivity|]. split; [apply lookup_insert_eq|]. done.
  - intros sadds. unfold S.StartTraceWithContext.
    edestruct (single_applyAdds_active sadds
                 (S.set_currentTrace
                    (Some (S.Trace.mk (S.TraceConfig.Input scfg) "" 0 []
                                      (S.TraceConfig.Tags scfg) None)) sl)
                 sw _ eq_refl) as (spans & w' & -> & _).
    eexists. split; [reflexivity|]. done.
Qed.

End BufferedReachable.

Lemma demo_started_reachable :
  B.reachable (Demo.bufferedEnv (Demo.answering 200 "ok"))
              (Demo.started.1, Demo.started.2).
Proof.
  exists Demo.bufferedLogger, Demo.bufferedWorld,
         [B.CallStartTrace Demo.ping "id-1" 100].
  split; [split; reflexivity|]. reflexivity.
Defined.

Lemma C5_start_trace_discards_active_trace_witness :
  B.reachable (Demo.bufferedEnv (Demo.answering 200 "ok"))
              (Demo.started.1, Demo.started.2) /\
  B.currentTrace Demo.started.1 = Some 1%positive /\
  (let '(l', w') :=
     B.StartTraceWithContext Demo.ping "id-5" 500 Demo.started.1 Demo.started.2 in
   B.traceBuffer l' = B.traceBuffer Demo.started.1 /\
   1%positive ∉ B.traceBuffer l').
Proof.
  split; [exact demo_started_reachable|]. split; [reflexivity|].
  pose proof (C5_start_trace_discards_active_trace
                (Demo.bufferedEnv (Demo.answering 200 "ok"))
                Demo.started.1 Demo.started.2 1%positive Demo.ping "id-5" 500
                Demo.singleActive Demo.singleWorld (S.TraceConfig.mk "ping" NilSlice)
                demo_started_reachable eq_refl) as [H _].
  destruct (B.StartTraceWithContext Demo.ping "id-5" 500
              Demo.started.1 Demo.started.2) as [l' w'].
  destruct H as (_ & Hb & Hn & _). split; assumption.
Defined.

Lemma C9_unconcluded_trace_is_unset_witness :
  B.reachable (Demo.bufferedEnv (Demo.answering 200 "ok"))
              (Demo.started.1, Demo.started.2) /\
  B.currentTrace Demo.started.1 = Some 1%positive /\
  exists tr,
    B.traces Demo.started.2 !! 1%positive = Some tr /\
    B.GalileoTrace.Output tr = "" /\ B.GalileoTrace.EndTime tr = 0.
Proof.
  split; [exact demo_started_reachable|]. split; [reflexivity|].
  destruct (C9_unconcluded_trace_is_unset
              (Demo.bufferedEnv (Demo.answering 200 "ok"))
              Demo.started.1 Demo.started.2 1%positive
              Demo.singleActive Demo.singleWorld (S.TraceConfig.mk "ping" NilSlice)
              demo_started_reachable eq_refl) as ((tr & Hp & Ho & He & _) & _).
  exists tr. split; [exact Hp|]. split; assumption.
Defined.

(** ** The metadata of an LLM span *)

Section LlmSpans.
Context {R : Type}.

Lemma buffered_newLlmSpan_metadata (cfg : B.LlmSpanConfig.t) id now (ms : MapHeap) :
  let '(span, ms') := B.newLlmSpan cfg id now ms in
  exists r,
    B.GalileoSpan.Metadata span = Some r /\
    B.GalileoSpan.Type_ span = "llm" /\
    (forall r0, B.LlmSpanConfig.Metadata cfg = Some r0 -> r = r0) /\
    mapContents ms' r =
      <["llm.token_count.total" := VInt (B.LlmSpanConfig.TotalTokens cfg)]>
        (<["llm.token_count.output" := VInt (B.LlmSpanConfig.NumOutputTokens cfg)]>
           (<["llm.token_count.input" := VInt (B.LlmSpanConfig.NumInputTokens cfg)]>
              (<["model" := VStr (B.LlmSpanConfig.Model cfg)]>
                 match B.LlmSpanConfig.Tags cfg with
                 | [] => entries ms (B.LlmSpanConfig.Metadata cfg)
                 | _ :: _ =>
                     <["tags" := VStr (Join (B.LlmSpanConfig.Tags cfg) ",")]>
                       (entries ms (B.LlmSpanConfig.Metadata cfg))
                 end))).
Proof.
  unfold B.newLlmSpan.
  pose proof (ensureMap_entries ms (B.LlmSpanConfig.Metadata cfg)) as He.
  assert (forall r0, B.LlmSpanConfig.Metadata cfg = Some r0 ->
                     (ensureMap (B.LlmSpanConfig.Metadata cfg) ms).1 = r0) as Hr.
  { intros r0 ->. done. }
  destruct (ensureMap (B.LlmSpanConfig.Metadata cfg) ms) as [r ms0].
  simpl in He, Hr. exists r. split; [done|]. split; [done|]. split; [exact Hr|].
  rewrite !mapContents_mapAssign.
  destruct (B.LlmSpanConfig.Tags cfg) as [|t ts].
  - by rewrite He.
  - by rewrite mapContents_mapAssign, He.
Qed.

Lemma single_newLlmSpan_metadata (cfg : S.LlmSpanConfig.t) (ms : MapHeap) :
  let '(span, ms') := S.newLlmSpan cfg ms in
  exists r,
    S.Span.Metadata span = Some r /\
    S.Span.Name span = "llm" /\
    (forall r0, S.LlmSpanConfig.Metadata cfg = Some r0 -> r = r0) /\
    mapContents ms' r =
      <["total_tokens" := VInt (S.LlmSpanConfig.TotalTokens cfg)]>
        (<["num_output_tokens" := VInt (S.LlmSpanConfig.NumOutputTokens cfg)]>
           (<["num_input_tokens" := VInt (S.LlmSpanConfig.NumInputTokens cfg)]>
              (<["model" := VStr (S.LlmSpanConfig.Model cfg)]>
                 (entries ms (S.LlmSpanConfig.Metadata cfg))))).
Proof.
  unfold S.newLlmSpan.
  pose proof (ensureMap_entries ms (S.LlmSpanConfig.Metadata cfg)) as He.
  assert (forall r0, S.LlmSpanConfig.Metadata cfg = Some r0 ->
                     (ensureMap (S.LlmSpanConfig.Metadata cfg) ms).1 = r0) as Hr.
  { intros r0 ->. done. }
  destruct (ensureMap (S.LlmSpanConfig.Metadata cfg) ms) as [r ms0].
  simpl in He, Hr. exists r. split; [done|]. split; [done|]. split; [exact Hr|].
  by rewrite !mapContents_mapAssign, He.
Qed.

(** C7, as the two programs have it.  AddLlmSpan against an active
    trace appends one span.  The buffered logger gives it the type
    [llm]; the spans of the single-trace logger have no type field, and
    the span is named [llm].  Its metadata map is the caller's map when
    one is passed and a new map otherwise; after the call the map holds
    the model name and the three token counts of the configuration, and
    in the buffered logger the joined tags when tags are given.  An
    entry of the caller under any other key is still there; an entry
    under one of the written keys has been replaced. *)
Theorem C7_llm_span_kind_and_metadata
    (l : B.Logger) (w : B.World R) (p : loc) (tr : B.GalileoTrace.t)
    (cfg : B.LlmSpanConfig.t) (id : string) (now : Z)
    (sl : S.Logger) (sw : S.World R) (str : S.Trace.t) (scfg : S.LlmSpanConfig.t) :
  B.currentTrace l = Some p ->
  B.traces w !! p = Some tr ->
  S.currentTrace sl = Some str ->
  (let '(l', w') := B.AddLlmSpan cfg id now l w in
   exists span r,
     l' = l /\
     B.traces w' !! p =
       Some (B.GalileoTrace.set_Spans (B.GalileoTrace.Spans tr ++ [span]) tr) /\
     B.GalileoSpan.Type_ span = "llm" /\
     B.GalileoSpan.Metadata span = Some r /\
     (forall r0, B.LlmSpanConfig.Metadata cfg = Some r0 -> r = r0) /\
     let m := mapContents (B.maps w') r in
     m !! "model" = Some (VStr (B.LlmSpanConfig.Model cfg)) /\
     m !! "llm.token_count.input" = Some (VInt (B.LlmSpanConfig.NumInputTokens cfg)) /\
     m !! "llm.token_count.output" = Some (VInt (B.LlmSpanConfig.NumOutputTokens cfg)) /\
     m !! "llm.token_count.total" = Some (VInt (B.LlmSpanConfig.TotalTokens cfg)) /\
     m !! "tags" =
       match B.LlmSpanConfig.Tags cfg with
       | [] => entries (B.maps w) (B.LlmSpanConfig.Metadata cfg) !! "tags"
       | _ :: _ => Some (VStr (Join (B.LlmSpanConfig.Tags cfg) ","))
       end /\
     forall k : string,
       k <> "model" -> k <> "llm.token_count.input" ->
       k <> "llm.token_count.output" -> k <> "llm.token_count.total" ->
       k <> "tags" ->
       m !! k = entries (B.maps w) (B.LlmSpanConfig.Metadata cfg) !! k) /\
  (let '(sl', sw') := S.AddLlmSpan scfg sl sw in
   exists span r,
     S.currentTrace sl' =
       Some (S.Trace.set_Spans (S.Trace.Spans str ++ [span]) str) /\
     S.Span.Name span = "llm" /\
     S.Span.Metadata span = Some r /\
     (forall r0, S.LlmSpanConfig.Metadata scfg = Some r0 -> r = r0) /\
     let m := mapContents (S.maps sw') r in
     m !! "model" = Some (VStr (S.LlmSpanConfig.Model scfg)) /\
     m !! "num_input_tokens" = Some (VInt (S.LlmSpanConfig.NumInputTokens scfg)) /\
     m !! "num_output_tokens" = Some (VInt (S.LlmSpanConfig.NumOutputTokens scfg)) /\
     m !! "total_tokens" = Some (VInt (S.LlmSpanConfig.TotalTokens scfg)) /\
     forall k : string,
       k <> "model" -> k <> "num_input_tokens" ->
       k <> "num_output_tokens" -> k <> "total_tokens" ->
       m !! k = entries (S.maps sw) (S.LlmSpanConfig.Metadata scfg) !! k).
Proof.
  intros Hcur Hp Hscur. split.
  - unfold B.AddLlmSpan. rewrite Hcur.
    pose proof (buffered_newLlmSpan_metadata cfg id now (B.maps w)) as Hmd.
    destruct (B.newLlmSpan cfg id now (B.maps w)) as [span ms'].
    destruct Hmd as (r & Hr & Hty & Hgiven & Hm).
    exists span, r. split; [done|]. split.
    { simpl. by rewrite lookup_alter_eq, Hp. }
    split; [done|]. split; [done|]. split; [done|].
    cbv zeta. simpl B.maps. rewrite Hm.
    repeat split.
    + by simplify_map_eq.
    + by simplify_map_eq.
    + by simplify_map_eq.
    + by simplify_map_eq.
    + destruct (B.LlmSpanConfig.Tags cfg); by simplify_map_eq.
    + intros k H1 H2 H3 H4 H5.
      rewrite !lookup_insert_ne by done.
      destruct (B.LlmSpanConfig.Tags cfg); [done|].
      by rewrite lookup_insert_ne.
  - unfold S.AddLlmSpan. rewrite Hscur.
    pose proof (single_newLlmSpan_metadata scfg (S.maps sw)) as Hmd.
    destruct (S.newLlmSpan scfg (S.maps sw)) as [span ms'].
    destruct Hmd as (r & Hr & Hname & Hgiven & Hm).
    exists span, r. split; [done|]. split; [done|]. split; [done|]. split; [done|].
    cbv zeta. simpl S.maps. rewrite Hm.
    repeat split.
    + by simplify_map_eq.
    + by simplify_map_eq.
    + by simplify_map_eq.
    + by simplify_map_eq.
    + intros k H1 H2 H3 H4. by rewrite !lookup_insert_ne.
Qed.

End LlmSpans.

Lemma C7_llm_span_kind_and_metadata_witness :
  B.currentTrace Demo.startedWithCallerMap.1 = Some 1%positive /\
  B.traces Demo.startedWithCallerMap.2 !! 1%positive = Some Demo.startedTrace /\
  S.currentTrace Demo.singleActive = Some (S.Trace.mk "ping" "" 0 [] NilSlice None) /\
  (let '(l', w') :=
     B.AddLlmSpan Demo.llmWithCallerMap "id-2" 200
                  Demo.startedWithCallerMap.1 Demo.startedWithCallerMap.2 in
   exists span r,
     B.traces w' !! 1%positive =
       Some (B.GalileoTrace.set_Spans [span] Demo.startedTrace) /\
     B.GalileoSpan.Type_ span = "llm" /\
     mapContents (B.maps w') r !! "model" = Some (VStr "m1") /\
     mapContents (B.maps w') r !! "temperature" = Some (VFloat 4604480259023595110)).
Proof.
  split; [reflexivity|]. split; [reflexivity|]. split; [reflexivity|].
  pose proof (C7_llm_span_kind_and_metadata
                Demo.startedWithCallerMap.1 Demo.startedWithCallerMap.2 1%positive
                Demo.startedTrace Demo.llmWithCallerMap "id-2" 200
                Demo.singleActive Demo.singleWorld
                (S.Trace.mk "ping" "" 0 [] NilSlice None) Demo.singleLlmPing
                eq_refl eq_refl eq_refl) as [H _].
  destruct (B.AddLlmSpan Demo.llmWithCallerMap "id-2" 200
              Demo.startedWithCallerMap.1 Demo.startedWithCallerMap.2) as [l' w'].
  destruct H as (span & r & _ & Ht & Hty & _ & _ & Hmodel & _ & _ & _ & _ & Hother).
  exists span, r. split; [exact Ht|]. split; [exact Hty|]. split; [exact Hmodel|].
  rewrite (Hother "temperature"); [reflexivity|discriminate..].
Defined.

(** A caller's map with entries under [tags] and [model]: after
    AddLlmSpan the span's map, which is that map, holds the joined tags
    and the model of the configuration there, so it does not contain
    the entries the caller supplied. *)
Lemma C7_caller_entries_under_written_keys_replaced :
  let w := Demo.startedWithCallerMap.2 in
  let w' := (B.AddLlmSpan Demo.llmWithCallerMap "id-2" 200
               Demo.startedWithCallerMap.1 w).2 in
  B.LlmSpanConfig.Metadata Demo.llmWithCallerMap = Some 1%positive /\
  mapContents (B.maps w) 1%positive = Demo.callerMap /\
  Demo.callerMap !! "tags" = Some (VStr "mine") /\
  Demo.callerMap !! "model" = Some (VStr "caller-model") /\
  mapContents (B.maps w') 1%positive !! "tags" = Some (VStr "llm") /\
  mapContents (B.maps w') 1%positive !! "model" = Some (VStr "m1") /\
  ~ (Demo.callerMap ⊆ mapContents (B.maps w') 1%positive).
Proof.
  cbv zeta. repeat (split; [reflexivity|]).
  intros Hsub.
  assert (Demo.callerMap !! "tags" = Some (VStr "mine")) as Hmine by reflexivity.
  pose proof (lookup_weaken _ _ _ _ Hmine Hsub) as Hl.
  vm_compute in Hl. discriminate.
Qed.

(** ** Dry-run mode *)

Section DryRun.
Context {R : Type}.
Variable E : S.Env R.

Lemma single_new_logger (cfg : S.LoggerConfig.t) (w : S.World R) :
  let '(l, w') := S.NewLoggerWithConfig cfg w in
  S.currentTrace l = None /\
  S.LoggerConfig.DryRun (S.config l) =
    (S.LoggerConfig.DryRun cfg
     || String.eqb (S.LoggerConfig.APIKey cfg) ""
     || String.eqb (S.LoggerConfig.ProjectID cfg) ""
     || String.eqb (S.LoggerConfig.LogStreamID cfg) "") /\
  S.maps w' = S.maps w /\ S.net w' = S.net w /\ S.sent w' = S.sent w.
Proof.
  unfold S.NewLoggerWithConfig.
  destruct cfg as [pid lsid key base dry]. simpl.
  destruct (String.eqb base ""); simpl;
    destruct (String.eqb key ""); simpl;
    destruct dry; simpl;
    destruct (String.eqb pid ""); simpl;
    destruct (String.eqb lsid ""); simpl; done.
Qed.

(** C6, as the two programs have it.  The single-trace logger created
    with an empty API key, project identifier or log-stream identifier
    is in dry-run mode, and creating it sends nothing.  In that mode
    StartTrace, AddSpan, AddLlmSpan and Conclude keep the mode and leave
    the network and the log alone (Conclude changes the trace and, by
    its [append], the arrays of the tags, and nothing else); Flush of a
    current trace that serializes writes the serialized trace to the
    log, clears the trace and returns nil without sending a request;
    Flush of a trace that does not serialize, or without a current
    trace, returns an error and changes nothing.  (The buffered logger has no such mode: see
    [C6_no_dry_run_in_buffered_and_dry_flush_may_fail].) *)
Theorem C6_dry_run_mode (cfg : S.LoggerConfig.t) (w0 : S.World R) :
  S.LoggerConfig.APIKey cfg = "" \/
  S.LoggerConfig.ProjectID cfg = "" \/
  S.LoggerConfig.LogStreamID cfg = "" ->
  let '(l0, w1) := S.NewLoggerWithConfig cfg w0 in
  S.LoggerConfig.DryRun (S.config l0) = true /\
  S.currentTrace l0 = None /\
  S.sent w1 = S.sent w0 /\ S.net w1 = S.net w0 /\
  forall (l : S.Logger) (w : S.World R),
    S.LoggerConfig.DryRun (S.config l) = true ->
    (forall tc, exists cur,
        S.StartTraceWithContext tc l w = (S.set_currentTrace cur l, w)) /\
    (forall sc, exists cur,
        (S.AddSpan sc l w).1.2 = S.set_currentTrace cur l /\ (S.AddSpan sc l w).2 = w) /\
    (forall lc, exists cur,
        (S.AddLlmSpan lc l w).1 = S.set_currentTrace cur l /\
        S.sent (S.AddLlmSpan lc l w).2 = S.sent w /\
        S.net (S.AddLlmSpan lc l w).2 = S.net w /\
        S.logged (S.AddLlmSpan lc l w).2 = S.logged w) /\
    (forall cc, exists cur arrs,
        S.Conclude cc l w = (S.set_currentTrace cur l, S.set_arrays arrs w)) /\
    (forall tr data,
        S.currentTrace l = Some tr ->
        S.marshalEvents E tr (S.maps w) (S.arrays w) = Ok data ->
        S.FlushWithContext E l w =
          (None, S.set_currentTrace None l,
           S.logPrintln data (S.logPrintln "Dry Run: Trace data:" w))) /\
    (forall tr e,
        S.currentTrace l = Some tr ->
        S.marshalEvents E tr (S.maps w) (S.arrays w) = Err e ->
        S.FlushWithContext E l w =
          (Some (errWrap "failed to serialize trace" e), l, w)) /\
    (S.currentTrace l = None ->
     S.FlushWithContext E l w = (Some (errNew "no trace to flush"), l, w)).
Proof.
  intros Hmissing.
  pose proof (single_new_logger cfg w0) as Hnew.
  destruct (S.NewLoggerWithConfig cfg w0) as [l0 w1].
  destruct Hnew as (Hcur & Hdry & _ & Hnet & Hsent).
  split.
  { rewrite Hdry.
    destruct Hmissing as [->|[->| ->]]; simpl;
      repeat (rewrite ?orb_true_r, ?orb_true_l; simpl); done. }
  split; [done|]. split; [done|]. split; [done|].
  intros l w Hmode.
  split; [|split; [|split; [|split; [|split; [|split]]]]].
  - intros tc. eexists. reflexivity.
  - intros sc. unfold S.AddSpan. destruct (S.currentTrace l) as [tr|] eqn:Hc.
    + eexists. split; reflexivity.
    + exists None. split; [|done]. simpl. destruct l. simpl in *. by subst.
  - intros lc. unfold S.AddLlmSpan. destruct (S.currentTrace l) as [tr|] eqn:Hc.
    + destruct (S.newLlmSpan lc (S.maps w)) as [span ms]. eexists. by repeat split.
    + exists None. split; [|done]. simpl. destruct l. simpl in *. by subst.
  - intros cc. unfold S.Conclude. destruct (S.currentTrace l) as [tr|] eqn:Hc.
    + destruct (appendSlice _ _ _ _) as [tags arrs]. eexists _, _. reflexivity.
    + exists None, (S.arrays w). destruct l, w. simpl in *. by subst.
  - intros tr data Hc Hdata. unfold S.FlushWithContext.
    rewrite Hc, Hdata. simpl. by rewrite Hmode.
  - intros tr e Hc Hdata. unfold S.FlushWithContext.
    rewrite Hc, Hdata. by rewrite (single_restore l tr Hc).
  - intros Hc. unfold S.FlushWithContext. by rewrite Hc.
Qed.

End DryRun.

Lemma C6_dry_run_mode_witness :
  (S.LoggerConfig.APIKey (S.LoggerConfig.mk "p-1" "ls-1" "" "" false) = "" \/
   S.LoggerConfig.ProjectID (S.LoggerConfig.mk "p-1" "ls-1" "" "" false) = "" \/
   S.LoggerConfig.LogStreamID (S.LoggerConfig.mk "p-1" "ls-1" "" "" false) = "") /\
  (let '(l0, w1) :=
     S.NewLoggerWithConfig (S.LoggerConfig.mk "p-1" "ls-1" "" "" false)
                           Demo.singleWorld in
   S.LoggerConfig.DryRun (S.config l0) = true /\
   S.currentTrace l0 = None /\
   S.sent w1 = []).
Proof.
  split; [left; reflexivity|].
  pose proof (C6_dry_run_mode (Demo.singleEnv Demo.unreachable [])
                (S.LoggerConfig.mk "p-1" "ls-1" "" "" false) Demo.singleWorld
                (or_introl eq_refl)) as H.
  destruct (S.NewLoggerWithConfig (S.LoggerConfig.mk "p-1" "ls-1" "" "" false)
                                  Demo.singleWorld) as [l0 w1].
  destruct H as (Hdry & Hcur & Hsent & _).
  split; [exact Hdry|]. split; [exact Hcur|exact Hsent].
Defined.

(** A dry-run Flush on the scenario of the specification: the trace
    goes to the log and no request is sent. *)
Example single_dry_run_flush :
  let '(l0, w0) :=
    S.NewLoggerWithConfig (S.LoggerConfig.mk "" "" "" "" false) Demo.singleWorld in
  let '(l1, w1) := S.StartTraceWithContext (S.TraceConfig.mk "ping" NilSlice) l0 w0 in
  let '(l2, w2) := S.AddLlmSpan Demo.singleLlmPing l1 w1 in
  let '(l3, w3) := S.Conclude Demo.singlePong l2 w2 in
  let '(err, l4, w4) := S.FlushWithContext (Demo.singleEnv Demo.unreachable []) l3 w3 in
  err = None /\ S.currentTrace l4 = None /\ S.sent w4 = [] /\
  S.logged w4 = ["GALILEO_API_KEY not set. Running in dry run mode.";
                 "Dry Run: Trace data:"; "{...}"].
Proof. vm_compute. auto. Qed.

(** The buffered logger created with an empty API key stops the
    process; and a dry-run logger of the single-trace program with no
    current trace fails to flush. *)
Lemma C6_no_dry_run_in_buffered_and_dry_flush_may_fail :
  B.NewLoggerWithConfig (Demo.bufferedEnv (Demo.answering 200 "ok"))
    (B.LoggerConfig.mk "Default Go Project" "default-go-stream" "" "api_key")
    Demo.bufferedWorld
  = Fatal "GALILEO_API_KEY must be provided" None /\
  (let '(l0, w0) :=
     S.NewLoggerWithConfig (S.LoggerConfig.mk "" "" "" "" false) Demo.singleWorld in
   S.LoggerConfig.DryRun (S.config l0) = true /\
   S.FlushWithContext (Demo.singleEnv (Demo.answering 200 "ok") []) l0 w0
   = (Some (errNew "no trace to flush"), l0, w0)).
Proof. split; [reflexivity|]. vm_compute. auto. Qed.

(** ** Resolving a project or a log stream by name *)

Section ResolveBuffered.
Context {R : Type}.
Variable E : B.Env R.


Lemma buffered_findProject_none name (ps : list B.ProjectDBThin) :
  B.findProject name ps = None ->
  forall q, q ∈ ps -> B.ProjectName_ q <> name.
Proof.
  induction ps as [|p0 ps IH]; simpl.
  - intros _ q Hq. by apply elem_of_nil in Hq.
  - destruct (String.eqb (B.ProjectName_ p0) name) eqn:Heq; [done|].
    apply String.eqb_neq in Heq.
    intros Hfind q Hq. apply elem_of_cons in Hq as [->|Hq]; [done|by apply IH].
Qed.


(** getOrCreateProject of the buffered logger on a listing answered with
    200: an entry of exactly that name gives its identifier, with the
    listing as the only request; only without such an entry does the
    call go on to createProject. *)
Lemma buffered_getOrCreateProject_listing (l : B.Logger) name (w : B.World R)
    (resp : Response) :
  let req := B.setAuthHeader l
               (mkRequest "GET" (B.galileoAPIBaseURL +:+ "/projects/all") [] None) in
  (B.Do E req w).1 = Ok resp ->
  StatusCode resp = StatusOK ->
  match B.findProject name (B.decodeProjects E (RespBody resp)) with
  | Some p =>
      (B.getOrCreateProject E l name w).1 = Ok (B.ProjectID_ p) /\
      B.sent (B.getOrCreateProject E l name w).2 = B.sent w ++ [req]
  | None =>
      B.getOrCreateProject E l name w =
        B.createProject E l
          (B.fmtPrint ("Project '" +:+ name +:+ "' not found, creating...")
                      (B.Do E req w).2)
  end.
Proof.
  intros req Hdo Hstatus. unfold B.getOrCreateProject. fold req.
  pose proof (buffered_Do_heap E req w) as (_ & _ & _ & Hsent).
  destruct (B.Do E req w) as [res w1]. simpl in *. subst res.
  rewrite Hstatus. simpl.
  destruct (B.findProject name _) as [p|]; [|done].
  simpl. by rewrite Hsent.
Qed.

End ResolveBuffered.

Section ResolveSingle.
Context {R : Type}.
Variable E : S.Env R.

(** getProjectIDByName compares the names. *)
Lemma single_findProjectID_first name (ps : list S.ProjectV2) :
  (exists before p after,
     ps = before ++ p :: after /\
     S.ProjectName_ p = name /\
     (forall q, q ∈ before -> S.ProjectName_ q <> name) /\
     S.findProjectID name ps = S.ProjectID_ p) \/
  ((forall q, q ∈ ps -> S.ProjectName_ q <> name) /\ S.findProjectID name ps = "").
Proof.
  induction ps as [|p0 ps IH]; simpl.
  - right. split; [|done]. intros q Hq. by apply elem_of_nil in Hq.
  - destruct (String.eqb (S.ProjectName_ p0) name) eqn:Heq.
    + apply String.eqb_eq in Heq. left. exists [], p0, ps.
      split; [done|]. split; [done|]. split; [|done].
      intros q Hq. by apply elem_of_nil in Hq.
    + apply String.eqb_neq in Heq.
      destruct IH as [(before & p & after & -> & Hname & Hno & Hid)|[Hno Hid]].
      * left. exists (p0 :: before), p, after.
        split; [done|]. split; [done|]. split; [|done].
        intros q Hq. apply elem_of_cons in Hq as [->|Hq]; [done|by apply Hno].
      * right. split; [|done].
        intros q Hq. apply elem_of_cons in Hq as [->|Hq]; [done|by apply Hno].
Qed.

(** getLogStreamIDByName does not: on a listing answered with 200 it
    returns the identifier of the first entry, whatever its name. *)
Lemma single_getLogStreamIDByName_first apiKey projectID name (w : S.World R)
    (resp : Response) (first : S.LogStreamDB) (rest : list S.LogStreamDB) :
  let url := "https://api.galileo.ai/v2/projects/" +:+ projectID
             +:+ "/log_streams?name=" +:+ name in
  (S.makeAPIRequest E "GET" url apiKey None w).1 = Ok resp ->
  StatusCode resp = StatusOK ->
  S.decodeGetLogStreams E (RespBody resp) = Ok (first :: rest) ->
  (S.getLogStreamIDByName E apiKey projectID name w).1 = Ok (S.StreamID_ first).
Proof.
  intros url Hreq Hstatus Hdecode. unfold S.getLogStreamIDByName. fold url.
  destruct (S.makeAPIRequest E "GET" url apiKey None w) as [res w1].
  simpl in Hreq. subst res. by rewrite Hstatus, Hdecode.
Qed.

End ResolveSingle.

(** C8 at the input where the code leaves it.  The listing of log
    streams holds an entry of another name before the entry named
    [production]: getOrCreateLogStreamID of the single-trace program
    returns the identifier of the first entry, not that of the entry of
    the requested name.  With a listing that holds only the entry of
    another name it returns that identifier as well, and the listing is
    the only request sent: no log stream is created. *)
Theorem C8_log_stream_lookup_returns_first_entry :
  let answered := Demo.answering 200 "{...}" in
  let both := [S.mkLogStreamDB "ls-eu" "production-eu";
               S.mkLogStreamDB "ls-1" "production"] in
  let other := [S.mkLogStreamDB "ls-eu" "production-eu"] in
  (S.getOrCreateLogStreamID (Demo.singleEnv answered both)
     "key" "p-1" "production" Demo.singleWorld).1 = Ok "ls-eu" /\
  (S.getOrCreateLogStreamID (Demo.singleEnv answered other)
     "key" "p-1" "production" Demo.singleWorld).1 = Ok "ls-eu" /\
  length (S.sent (S.getOrCreateLogStreamID (Demo.singleEnv answered other)
                    "key" "p-1" "production" Demo.singleWorld).2) = 1%nat.
Proof. vm_compute. auto. Qed.

(** The same listings given to the lookups that compare names: the
    buffered logger's loop finds the entry of the requested name, and
    finds none when only the other entry is listed. *)
Example buffered_log_stream_lookup_compares_names :
  B.findLogStream "production"
    [B.mkLogStream "ls-eu" "production-eu"; B.mkLogStream "ls-1" "production"]
  = Some (B.mkLogStream "ls-1" "production") /\
  B.findLogStream "production" [B.mkLogStream "ls-eu" "production-eu"] = None /\
  S.findProjectID "production"
    [S.mkProjectV2 "p-eu" "production-eu"; S.mkProjectV2 "p-1" "production"] = "p-1".
Proof. vm_compute. auto. Qed.

(** ** The scenario of the specification, run on the buffered logger

    StartTrace(ping), AddLlmSpan(ping, pong, m1, tokens 1 1 2),
    Conclude(pong), Flush: one trace with one span of type [llm] is
    buffered, its map holds the model and the token counts, and the
    flush sends one request and empties the buffer. *)
Example buffered_ping_pong_scenario :
  let '(l, w) := Demo.concluded in
  let '(err, l', w') :=
    B.FlushWithContext (Demo.bufferedEnv (Demo.answering 201 "ok")) l w in
  B.traceBuffer l = [1%positive] /\
  (exists tr span,
     B.traces w !! 1%positive = Some tr /\
     B.GalileoTrace.Output tr = "pong" /\
     B.GalileoTrace.EndTime tr = 1000100 /\
     B.GalileoTrace.Spans tr = [span] /\
     B.GalileoSpan.Type_ span = "llm" /\
     B.GalileoSpan.ID span = "id-2" /\
     entries (B.maps w) (B.GalileoSpan.Metadata span) !! "model" = Some (VStr "m1") /\
     entries (B.maps w) (B.GalileoSpan.Metadata span) !! "llm.token_count.input"
       = Some (VInt 1) /\
     entries (B.maps w) (B.GalileoSpan.Metadata span) !! "llm.token_count.output"
       = Some (VInt 1) /\
     entries (B.maps w) (B.GalileoSpan.Metadata span) !! "llm.token_count.total"
       = Some (VInt 2)) /\
  err = None /\ B.traceBuffer l' = [] /\ B.currentTrace l' = None /\
  length (B.sent w') = 1%nat.
Proof.
  vm_compute. split; [reflexivity|]. split; [|auto].
  eexists _, _. repeat split; reflexivity.
Qed.

(** Two add calls in a row: the tool span comes first, the LLM span
    second, as called. *)
Example buffered_two_spans_in_order :
  let '(l1, w1) := Demo.started in
  let '(l2, w2) :=
    B.applyAdds [B.AddGeneric Demo.toolSpan "id-2" 200; B.AddLlm Demo.llmPing "id-3" 300]
                (l1, w1) in
  let '(l3, w3) := B.Conclude Demo.pong l2 w2 in
  exists tr,
    B.traces w3 !! 1%positive = Some tr /\
    map B.GalileoSpan.ID (B.GalileoTrace.Spans tr) = ["id-2"; "id-3"] /\
    map B.GalileoSpan.Type_ (B.GalileoTrace.Spans tr) = ["tool"; "llm"].
Proof. vm_compute. eexists. repeat split; reflexivity. Qed.

(** ** The logger that NewLoggerWithConfig returns *)

Lemma buffered_new_logger_initial {R : Type} (E : B.Env R)
    (cfg : B.LoggerConfig.t) (w : B.World R) (l : B.Logger) (w' : B.World R) :
  B.NewLoggerWithConfig E cfg w = Done (l, w') ->
  B.initial l /\ B.LoggerConfig.APIKey cfg <> "" /\ B.config l = cfg.
Proof.
  unfold B.NewLoggerWithConfig, mbind, outcome_bind.
  destruct (String.eqb (B.LoggerConfig.APIKey cfg) "") eqn:Hkey; [done|].
  apply String.eqb_neq in Hkey.
  destruct (String.eqb (B.LoggerConfig.AuthMethod cfg) "bearer_token");
    [destruct (B.getAccessToken E _ w) as [[tok|e] w1]; [|done]|]; simpl;
    (destruct (B.getOrCreateProject E _ _ _) as [[pid|e] w2]; [|done]); simpl;
    (destruct (B.getOrCreateLogStream E _ _ _) as [[[lsid|e] w3]| |]; simpl;
       [|done..]);
    intros [= <- <-]; unfold B.initial; simpl; auto.
Qed.

(** * Further properties of the two programs *)

(** ** The request of Flush (buffered logger) *)

Section BufferedFlushRequest.
Context {R : Type}.
Variable E : B.Env R.
Implicit Types (l : B.Logger) (w : B.World R).

(** The header that setAuthHeader puts on a request. *)
Lemma buffered_auth_on_fresh_request l (method url : string) (body : option Payload) :
  B.setAuthHeader l (mkRequest method url [] body) =
    mkRequest method url
      [if String.eqb (B.LoggerConfig.AuthMethod (B.config l)) "bearer_token"
       then ("Authorization", "Bearer " +:+ B.accessToken l)
       else ("Galileo-API-Key", B.LoggerConfig.APIKey (B.config l))]
      body.
Proof.
  unfold B.setAuthHeader.
  by destruct (String.eqb (B.LoggerConfig.AuthMethod (B.config l)) "bearer_token").
Qed.

Lemma buffered_flush_request_shape l (url body : string) :
  HeaderSet "Content-Type" "application/json"
    (B.setAuthHeader l (mkRequest "POST" url [] (Some (JSONBytes body)))) =
  mkRequest "POST" url
    [if String.eqb (B.LoggerConfig.AuthMethod (B.config l)) "bearer_token"
     then ("Authorization", "Bearer " +:+ B.accessToken l)
     else ("Galileo-API-Key", B.LoggerConfig.APIKey (B.config l));
     ("Content-Type", "application/json")]
    (Some (JSONBytes body)).
Proof.
  rewrite buffered_auth_on_fresh_request. unfold HeaderSet. simpl.
  by destruct (String.eqb (B.LoggerConfig.AuthMethod (B.config l)) "bearer_token").
Qed.

Lemma buffered_Do_sent (req : Request) w :
  B.sent (B.Do E req w).2 = B.sent w ++ [req] /\
  B.printed (B.Do E req w).2 = B.printed w.
Proof.
  unfold B.Do. by destruct (B.roundTrip E req (B.net w)).
Qed.

(** X1.  Flush of the buffered logger writes nothing to the log or to
    standard output and sends at most one request.  It sends none, and
    leaves logger and service alone, when the buffer is empty, when the
    payload cannot be marshalled or when the request cannot be built;
    otherwise it sends one POST to [/projects/<project id>/traces] whose
    body is the marshalled buffer, with the header of the configured
    authentication method followed by the JSON content type. *)
Theorem X1_buffered_flush_sends_at_most_one_request l w :
  let url := B.galileoAPIBaseURL +:+ "/projects/" +:+ B.projectID l +:+ "/traces" in
  let payload :=
    B.marshalIngest E (B.mkIngest (B.logStreamID l) (B.sessionID l) (B.traceBuffer l))
                    (B.traces w) (B.maps w) in
  let '(err, l', w') := B.FlushWithContext E l w in
  B.logged w' = B.logged w /\ B.printed w' = B.printed w /\
  (((B.traceBuffer l = [] \/ (exists e, payload = Err e) \/
     (exists e, B.urlError E url = Some e)) /\
    B.sent w' = B.sent w /\ B.net w' = B.net w /\ l' = l) \/
   (exists body,
      B.traceBuffer l <> [] /\ payload = Ok body /\ B.urlError E url = None /\
      B.sent w' = B.sent w ++
        [mkRequest "POST" url
           [if String.eqb (B.LoggerConfig.AuthMethod (B.config l)) "bearer_token"
            then ("Authorization", "Bearer " +:+ B.accessToken l)
            else ("Galileo-API-Key", B.LoggerConfig.APIKey (B.config l));
            ("Content-Type", "application/json")]
           (Some (JSONBytes body))])).
Proof.
  cbv zeta. unfold B.FlushWithContext.
  destruct (B.traceBuffer l) as [|p buf] eqn:Hbuf.
  { split; [done|]. split; [done|]. left. auto. }
  rewrite <- Hbuf.
  destruct (B.marshalIngest E _ _ _) as [body|e] eqn:Hbody.
  2:{ split; [done|]. split; [done|]. left. split; [|done]. right; left. by exists e. }
  unfold B.NewRequestWithContext.
  destruct (B.urlError E _) as [e|] eqn:Hurl.
  { split; [done|]. split; [done|]. left. split; [|done]. right; right. by exists e. }
  rewrite buffered_flush_request_shape.
  match goal with
  | |- context [B.Do E ?r w] =>
      pose proof (buffered_Do_heap E r w) as (_ & _ & Hlog & Hsent);
      pose proof (buffered_Do_sent r w) as (_ & Hprint);
      destruct (B.Do E r w) as [res w1]
  end.
  simpl in Hlog, Hsent, Hprint.
  assert (B.traceBuffer l <> []) as Hne by (by rewrite Hbuf).
  destruct res as [resp|e]; [destruct (negb (B.statusAccepted resp))|];
    (split; [done|]; split; [done|]; right; exists body; done).
Qed.

(** X2.  After a Flush that returned nil, a second Flush, whatever the
    service would answer, returns nil at once and changes nothing. *)
Theorem X2_buffered_flush_after_success_is_noop (E' : B.Env R) l w l' w' :
  B.FlushWithContext E l w = (None, l', w') ->
  B.FlushWithContext E' l' w' = (None, l', w').
Proof.
  intros Hflush.
  pose proof (buffered_flush_cases E l w) as (Hl & _).
  rewrite Hflush in Hl. destruct Hl as [Hbuf _].
  unfold B.FlushWithContext. by rewrite Hbuf.
Qed.

(** X3.  A Flush that sent a request and returned an error can be
    repeated: the second call sends the very same request again. *)
Theorem X3_buffered_flush_retry_resends_request l w e l' w' (req : Request) :
  B.FlushWithContext E l w = (Some e, l', w') ->
  B.sent w' = B.sent w ++ [req] ->
  l' = l /\
  B.sent (B.FlushWithContext E l' w').2 = B.sent w ++ [req; req].
Proof.
  intros Hflush Hsent.
  pose proof (buffered_flush_cases E l w) as (Hl & Ht & Hm).
  rewrite Hflush in Hl, Ht, Hm. simpl in Hl, Ht, Hm. subst l'.
  split; [done|].
  revert Hflush. unfold B.FlushWithContext.
  rewrite Ht, Hm.
  destruct (B.traceBuffer l) as [|p buf] eqn:Hbuf; [done|].
  destruct (B.marshalIngest E _ _ _) as [body|e0].
  2:{ intros [= _ <-]. apply (f_equal length) in Hsent.
      rewrite length_app in Hsent. simpl in Hsent. lia. }
  destruct (B.NewRequestWithContext E _ _ _) as [req0|e0].
  2:{ intros [= _ <-]. apply (f_equal length) in Hsent.
      rewrite length_app in Hsent. simpl in Hsent. lia. }
  pose proof (buffered_Do_sent
                (HeaderSet "Content-Type" "application/json" (B.setAuthHeader l req0))
                w) as (Hs1 & _).
  pose proof (buffered_Do_sent
                (HeaderSet "Content-Type" "application/json" (B.setAuthHeader l req0))
                w') as (Hs2 & _).
  destruct (B.Do E _ w) as [res w1]. simpl in Hs1.
  assert (w1 = w' -> B.sent
            (let '(res0, w2) :=
               B.Do E (HeaderSet "Content-Type" "application/json"
                                 (B.setAuthHeader l req0)) w' in
             match res0 with
             | Ok resp =>
                 if negb (B.statusAccepted resp)
                 then (Some (errStatus "flush failed with status"
                                       (StatusCode resp) (RespBody resp)), l, w2)
                 else (None, B.set_traceBuffer [] l, w2)
             | Err e1 => (Some (errWrap "failed to flush traces" e1), l, w2)
             end).2 = B.sent w ++ [req; req]) as Hgoal.
  { intros ->. rewrite Hsent in Hs1. apply app_inv_head in Hs1 as [= ->].
    destruct (B.Do E _ w') as [res0 w2]. simpl in Hs2.
    assert (B.sent w2 = B.sent w ++
              [HeaderSet "Content-Type" "application/json" (B.setAuthHeader l req0);
               HeaderSet "Content-Type" "application/json" (B.setAuthHeader l req0)])
      as Hw2 by (by rewrite Hs2, Hsent, <- app_assoc).
    destruct res0 as [resp|e1]; [destruct (negb (B.statusAccepted resp))|]; done. }
  destruct res as [resp|e1]; [destruct (negb (B.statusAccepted resp))|];
    intros [= ? ?]; subst; by apply Hgoal.
Qed.

End BufferedFlushRequest.

Lemma X2_buffered_flush_after_success_is_noop_witness :
  let E := Demo.bufferedEnv (Demo.answering 200 "ok") in
  let st := B.FlushWithContext E Demo.concluded.1 Demo.concluded.2 in
  B.FlushWithContext E Demo.concluded.1 Demo.concluded.2 = (None, st.1.2, st.2) /\
  B.FlushWithContext (Demo.bufferedEnv Demo.unreachable) st.1.2 st.2
  = (None, st.1.2, st.2).
Proof.
  cbv zeta. split; [reflexivity|].
  apply (X2_buffered_flush_after_success_is_noop
           (Demo.bufferedEnv (Demo.answering 200 "ok"))
           (Demo.bufferedEnv Demo.unreachable)
           Demo.concluded.1 Demo.concluded.2).
  reflexivity.
Defined.

Lemma X3_buffered_flush_retry_resends_request_witness :
  let E := Demo.bufferedEnv Demo.unreachable in
  let st := B.FlushWithContext E Demo.concluded.1 Demo.concluded.2 in
  let req :=
    mkRequest "POST" "https://api.galileo.ai/projects/p-1/traces"
              [("Galileo-API-Key", "key"); ("Content-Type", "application/json")]
              (Some (JSONBytes "{...}")) in
  st = (Some (errWrap "failed to flush traces" (errLib "dial tcp: connection refused")),
        st.1.2, st.2) /\
  B.sent st.2 = B.sent Demo.concluded.2 ++ [req] /\
  B.sent (B.FlushWithContext E st.1.2 st.2).2 = B.sent Demo.concluded.2 ++ [req; req].
Proof.
  cbv zeta. split; [reflexivity|]. split; [reflexivity|].
  apply (X3_buffered_flush_retry_resends_request
           (Demo.bufferedEnv Demo.unreachable)
           Demo.concluded.1 Demo.concluded.2
           (errWrap "failed to flush traces" (errLib "dial tcp: connection refused")));
    reflexivity.
Defined.

(** ** What a run never does to the traces (buffered logger) *)

Section BufferedTraces.
Context {R : Type}.
Variable E : B.Env R.
Implicit Types (l : B.Logger) (w : B.World R) (p q : loc) (st : B.Logger * B.World R).

(** A call writes to no allocated trace other than the active one. *)
Lemma buffered_exec_other_traces (c : B.Call) l w l' w' q :
  B.exec E c (l, w) = Done (l', w') ->
  B.currentTrace l <> Some q ->
  is_Some (B.traces w !! q) ->
  B.traces w' !! q = B.traces w !! q.
Proof.
  intros Hexec Hcur Hq.
  destruct c as [cfg id now|cfg id now|cfg id now|cfg| | |name|r m]; simpl in Hexec.
  - destruct (buffered_start_spec cfg id now l w) as (md & ms & _ & Hs).
    rewrite Hs in Hexec. injection Hexec as <- <-. simpl.
    apply lookup_insert_ne. intros Heq.
    rewrite <- Heq, fresh_trace_unallocated in Hq. by destruct Hq.
  - unfold B.AddSpan in Hexec. destruct (B.currentTrace l) as [p|] eqn:Hc.
    + destruct (B.newSpan _ _ _ _) as [span ms]. injection Hexec as <- <-.
      simpl. apply lookup_alter_ne. congruence.
    + by injection Hexec as <- <-.
  - unfold B.AddLlmSpan in Hexec. destruct (B.currentTrace l) as [p|] eqn:Hc.
    + destruct (B.newLlmSpan _ _ _ _) as [span ms]. injection Hexec as <- <-.
      simpl. apply lookup_alter_ne. congruence.
    + by injection Hexec as <- <-.
  - unfold B.Conclude in Hexec. destruct (B.currentTrace l) as [p|] eqn:Hc.
    + injection Hexec as <- <-.
      destruct (B.traces w !! p) as [tr|]; [|done].
      destruct (B.concludeTrace _ _ _) as [tr' ms]. simpl.
      apply lookup_insert_ne. congruence.
    + by injection Hexec as <- <-.
  - pose proof (buffered_flush_cases E l w) as (_ & Ht & _).
    destruct (B.FlushWithContext E l w) as [[err l1] w1].
    injection Hexec as <- <-. simpl in Ht. by rewrite Ht.
  - unfold B.Close in Hexec.
    pose proof (buffered_flush_cases E l w) as (_ & Ht & _).
    destruct (B.FlushWithContext E l w) as [[err l1] w1].
    injection Hexec as <- <-. simpl in Ht. by rewrite Ht.
  - destruct (B.StartSession E name l w) as [[[res l1] w1]| |] eqn:Hs;
      simpl in Hexec; [|done..].
    injection Hexec as <- <-.
    destruct (buffered_start_session_frame E _ _ _ _ _ _ Hs) as (_ & _ & Ht).
    by rewrite Ht.
  - by injection Hexec as <- <-.
Qed.

(** After a call the active trace is the one before, or none, or a
    trace at an address that was free. *)
Lemma buffered_exec_active (c : B.Call) l w l' w' :
  B.exec E c (l, w) = Done (l', w') ->
  B.currentTrace l' = B.currentTrace l \/
  B.currentTrace l' = None \/
  B.currentTrace l' = Some (fresh (dom (B.traces w))).
Proof.
  intros Hexec.
  destruct (buffered_exec_shape E c l w l' w' Hexec)
    as [(tr & _ & _ & Hc & _)|[(p & span & Hc & _)|[(p & _ & Hc & _)|(Hc & _)]]];
    auto.
Qed.

(** X5.  A trace that is allocated and is not the active one, be it
    concluded and buffered, already sent, or discarded by a later
    StartTrace, is never written again and never becomes active again:
    after any run its record is the same.  (The map behind its metadata
    field may still be written through another reference.) *)
Theorem X5_buffered_inactive_trace_is_frozen
    (calls : list B.Call) st st' q (tr : B.GalileoTrace.t) :
  B.traces st.2 !! q = Some tr ->
  B.currentTrace st.1 <> Some q ->
  B.run E calls st = Done st' ->
  B.traces st'.2 !! q = Some tr /\ B.currentTrace st'.1 <> Some q.
Proof.
  revert st. induction calls as [|c calls IH]; intros st Hq Hcur; simpl.
  - by intros [= <-].
  - destruct (B.exec E c st) as [st1| |] eqn:Hexec; simpl; [|done..].
    destruct st as [l w], st1 as [l1 w1]. simpl in Hq, Hcur.
    apply IH; simpl.
    + rewrite (buffered_exec_other_traces c l w l1 w1 q Hexec Hcur); [done|].
      by exists tr.
    + destruct (buffered_exec_active c l w l1 w1 Hexec) as [->|[->| ->]];
        [done|done|].
      intros [= Heq]. rewrite <- Heq, fresh_trace_unallocated in Hq. done.
Qed.

(** The invariant [wf] together with the absence of repetitions in the
    buffer is kept by every call. *)
Lemma buffered_nodup_exec (c : B.Call) st st' :
  wf st /\ NoDup (B.traceBuffer st.1) ->
  B.exec E c st = Done st' ->
  wf st' /\ NoDup (B.traceBuffer st'.1).
Proof.
  intros [Hwf Hnd] Hexec. split; [exact (wf_exec E c st st' Hwf Hexec)|].
  destruct st as [l w], st' as [l' w']. simpl in *.
  destruct Hwf as (_ & _ & Hsep). simpl in Hsep.
  destruct (buffered_exec_shape E c l w l' w' Hexec)
    as [(tr & _ & _ & _ & Hb & _)
       |[(p & span & _ & Hb & _)
        |[(p & Hc & _ & Hb & _)
         |(_ & Hb & _)]]].
  - by rewrite Hb.
  - by rewrite Hb.
  - rewrite Hb. apply NoDup_app. split; [done|]. split.
    + intros x Hx Hx'. apply list_elem_of_singleton in Hx' as ->.
      exact (Hsep p Hc Hx).
    + apply NoDup_singleton.
  - destruct Hb as [ -> | -> ]; [done|apply NoDup_nil_2].
Qed.

(** X4.  In every state a program reaches, the buffer holds pairwise
    different traces, each of them allocated, and the active trace, if
    there is one, is allocated and not in the buffer: a payload never
    lists a trace twice and never lists the trace under construction. *)
Theorem X4_buffered_buffer_has_no_duplicates st :
  B.reachable E st ->
  NoDup (B.traceBuffer st.1) /\
  (forall p, p ∈ B.traceBuffer st.1 -> is_Some (B.traces st.2 !! p)) /\
  (forall p, B.currentTrace st.1 = Some p ->
     is_Some (B.traces st.2 !! p) /\ p ∉ B.traceBuffer st.1).
Proof.
  intros (l0 & w0 & calls & Hinit & Hrun).
  assert (wf st /\ NoDup (B.traceBuffer st.1)) as [(Hact & Hbuf & Hsep) Hnd].
  { assert (wf (l0, w0) /\ NoDup (B.traceBuffer (l0, w0).1)) as Hstart.
    { split; [by apply wf_initial|]. simpl. destruct Hinit as [-> _].
      apply NoDup_nil_2. }
    clear Hinit. revert Hrun Hstart. generalize (l0, w0). clear l0 w0.
    induction calls as [|c calls IH]; intros st0; simpl.
    - by intros [= <-].
    - destruct (B.exec E c st0) as [st1| |] eqn:Hexec; simpl; [|done..].
      intros Hrun Hst0. apply (IH st1 Hrun).
      exact (buffered_nodup_exec c st0 st1 Hst0 Hexec). }
  split; [done|]. split; [done|].
  intros p Hp. split; [|by apply Hsep].
  destruct (Hact p Hp) as (tr & Htr & _). by exists tr.
Qed.

(** X6.  In a run without Flush and Close, the buffer only grows at its
    end: the buffer before the run is a prefix of the buffer after it,
    so the traces stay in the order in which they were concluded. *)
Theorem X6_buffered_buffer_grows_at_its_end (calls : list B.Call) st st' :
  Forall (fun c => c <> B.CallFlush /\ c <> B.CallClose) calls ->
  B.run E calls st = Done st' ->
  B.traceBuffer st.1 `prefix_of` B.traceBuffer st'.1.
Proof.
  intros Hcalls. revert st.
  induction Hcalls as [|c calls [Hf Hc] _ IH]; intros st; simpl.
  - by intros [= <-].
  - destruct (B.exec E c st) as [st1| |] eqn:Hexec; simpl; [|done..].
    intros Hrun. transitivity (B.traceBuffer st1.1); [|by apply IH].
    clear IH Hrun. destruct st as [l w], st1 as [l1 w1].
    destruct c as [cfg id now|cfg id now|cfg id now|cfg| | |name|r m];
      simpl in Hexec; try done.
    + destruct (buffered_start_spec cfg id now l w) as (md & ms & _ & Hs).
      rewrite Hs in Hexec. by injection Hexec as <- <-.
    + unfold B.AddSpan in Hexec. destruct (B.currentTrace l);
        [destruct (B.newSpan _ _ _ _)|]; by injection Hexec as <- <-.
    + unfold B.AddLlmSpan in Hexec. destruct (B.currentTrace l);
        [destruct (B.newLlmSpan _ _ _ _)|]; by injection Hexec as <- <-.
    + unfold B.Conclude in Hexec. destruct (B.currentTrace l) as [p|];
        injection Hexec as <- <-; simpl; [by apply prefix_app_r|done].
    + destruct (B.StartSession E name l w) as [[[res l2] w2]| |] eqn:Hs;
        simpl in Hexec; [|done..].
      injection Hexec as <- <-. simpl.
      destruct (buffered_start_session_frame E _ _ _ _ _ _ Hs) as (_ & -> & _).
      done.
    + by injection Hexec as <- <-.
Qed.

End BufferedTraces.

Lemma samples_concluded_reachable :
  B.reachable (Demo.bufferedEnv Demo.unreachable) Demo.concluded.
Proof.
  exists Demo.bufferedLogger, Demo.bufferedWorld, Samples.scenario.
  split; [split; reflexivity|]. reflexivity.
Defined.

Lemma X4_buffered_buffer_has_no_duplicates_witness :
  B.reachable (Demo.bufferedEnv Demo.unreachable) Demo.concluded /\
  NoDup (B.traceBuffer Demo.concluded.1) /\
  B.traceBuffer Demo.concluded.1 = [1%positive].
Proof.
  split; [exact samples_concluded_reachable|].
  destruct (X4_buffered_buffer_has_no_duplicates
              (Demo.bufferedEnv Demo.unreachable) Demo.concluded
              samples_concluded_reachable) as (Hnd & _).
  split; [exact Hnd|reflexivity].
Defined.

Lemma X5_buffered_inactive_trace_is_frozen_witness :
  let E := Demo.bufferedEnv (Demo.answering 200 "ok") in
  let calls := Samples.secondTrace ++ [B.CallFlush] in
  B.traces Demo.concluded.2 !! 1%positive = Some Samples.concludedTrace /\
  B.currentTrace Demo.concluded.1 <> Some 1%positive /\
  match B.run E calls Demo.concluded with
  | Done st' =>
      B.traces st'.2 !! 1%positive = Some Samples.concludedTrace /\
      B.currentTrace st'.1 <> Some 1%positive /\
      B.traceBuffer st'.1 = []
  | _ => False
  end.
Proof.
  cbv zeta. split; [reflexivity|]. split; [discriminate|].
  destruct (B.run (Demo.bufferedEnv (Demo.answering 200 "ok"))
              (Samples.secondTrace ++ [B.CallFlush]) Demo.concluded)
    as [st'| |] eqn:Hrun; [|vm_compute in Hrun; discriminate..].
  destruct (X5_buffered_inactive_trace_is_frozen
              (Demo.bufferedEnv (Demo.answering 200 "ok"))
              (Samples.secondTrace ++ [B.CallFlush]) Demo.concluded st'
              1%positive Samples.concludedTrace eq_refl
              ltac:(discriminate) Hrun) as [Htr Hcur].
  split; [exact Htr|]. split; [exact Hcur|].
  vm_compute in Hrun. injection Hrun as <-. reflexivity.
Defined.

Lemma X6_buffered_buffer_grows_at_its_end_witness :
  let E := Demo.bufferedEnv Demo.unreachable in
  Forall (fun c => c <> B.CallFlush /\ c <> B.CallClose) Samples.secondTrace /\
  match B.run E Samples.secondTrace Demo.concluded with
  | Done st' =>
      B.traceBuffer Demo.concluded.1 `prefix_of` B.traceBuffer st'.1 /\
      B.traceBuffer st'.1 = [1%positive; 2%positive]
  | _ => False
  end.
Proof.
  cbv zeta.
  assert (Forall (fun c => c <> B.CallFlush /\ c <> B.CallClose) Samples.secondTrace)
    as Hcalls by (repeat constructor; discriminate).
  split; [exact Hcalls|].
  destruct (B.run (Demo.bufferedEnv Demo.unreachable) Samples.secondTrace
              Demo.concluded) as [st'| |] eqn:Hrun;
    [|vm_compute in Hrun; discriminate..].
  split.
  - exact (X6_buffered_buffer_grows_at_its_end
             (Demo.bufferedEnv Demo.unreachable) Samples.secondTrace
             Demo.concluded st' Hcalls Hrun).
  - vm_compute in Hrun. injection Hrun as <-. reflexivity.
Defined.

(** ** Metadata written by StartTrace and AddSpan (buffered logger) *)

Section BufferedMetadata.
Context {R : Type}.
Implicit Types (l : B.Logger) (w : B.World R) (p q : loc) (ms : MapHeap).

Lemma buffered_foldTags_entries (tags : list string) (md : option loc) ms :
  let '(md', ms') := B.foldTags tags md ms in
  entries ms' md' =
    match tags with
    | [] => entries ms md
    | _ :: _ => <["tags" := VStr (Join tags ",")]> (entries ms md)
    end /\
  (tags = [] -> md' = md /\ ms' = ms) /\
  (forall r, md = Some r -> md' = Some r).
Proof.
  unfold B.foldTags. destruct tags as [|t ts]; [done|].
  pose proof (ensureMap_entries ms md) as He.
  assert (forall r, md = Some r -> (ensureMap md ms).1 = r) as Hr by (by intros r ->).
  destruct (ensureMap md ms) as [r ms1]. simpl in *.
  rewrite mapContents_mapAssign, He. split; [done|]. split; [done|].
  intros r0 Hr0. by rewrite (Hr r0 Hr0).
Qed.

(** X7.  AddSpan against an active trace appends one span whose
    metadata shows the joined tags under [tags] when tags are given and
    the error description under [error] when one is given, beside the
    caller's entries under all other keys.  The span has status ERROR
    exactly when an error description is given, and the type [tool] when
    none is given.  Without tags and without an error description the
    span keeps the caller's map variable as it is, nil included, and no
    map is written. *)
Theorem X7_buffered_add_span_metadata
    (cfg : B.SpanConfig.t) (id : string) (now : Z) l w p (tr : B.GalileoTrace.t) :
  B.currentTrace l = Some p ->
  B.traces w !! p = Some tr ->
  let '(l', w') := B.AddSpan cfg id now l w in
  exists span,
    l' = l /\
    B.traces w' !! p =
      Some (B.GalileoTrace.set_Spans (B.GalileoTrace.Spans tr ++ [span]) tr) /\
    B.GalileoSpan.Status span =
      (if String.eqb (B.SpanConfig.Error cfg) "" then "SUCCESS" else "ERROR") /\
    B.GalileoSpan.Type_ span =
      (if String.eqb (B.SpanConfig.Type_ cfg) "" then "tool"
       else B.SpanConfig.Type_ cfg) /\
    let m := entries (B.maps w') (B.GalileoSpan.Metadata span) in
    let given := entries (B.maps w) (B.SpanConfig.Metadata cfg) in
    m !! "tags" =
      match B.SpanConfig.Tags cfg with
      | [] => given !! "tags"
      | _ :: _ => Some (VStr (Join (B.SpanConfig.Tags cfg) ","))
      end /\
    m !! "error" =
      (if String.eqb (B.SpanConfig.Error cfg) "" then given !! "error"
       else Some (VStr (B.SpanConfig.Error cfg))) /\
    (forall k : string, k <> "tags" -> k <> "error" -> m !! k = given !! k) /\
    (B.SpanConfig.Tags cfg = [] -> B.SpanConfig.Error cfg = "" ->
     B.GalileoSpan.Metadata span = B.SpanConfig.Metadata cfg /\
     B.maps w' = B.maps w).
Proof.
  intros Hcur Hp. unfold B.AddSpan. rewrite Hcur. unfold B.newSpan.
  pose proof (buffered_foldTags_entries (B.SpanConfig.Tags cfg)
                (B.SpanConfig.Metadata cfg) (B.maps w)) as Hfold.
  destruct (B.foldTags _ _ _) as [md1 ms1].
  destruct Hfold as (Hent & Hnone & _).
  destruct (String.eqb (B.SpanConfig.Error cfg) "") eqn:Herr.
  - eexists. split; [reflexivity|]. split.
    { simpl. by rewrite lookup_alter_eq, Hp. }
    split; [reflexivity|]. split; [reflexivity|].
    cbv zeta. simpl. rewrite Hent.
    split; [destruct (B.SpanConfig.Tags cfg); by simplify_map_eq|].
    split; [destruct (B.SpanConfig.Tags cfg); by simplify_map_eq|].
    split.
    + intros k Hk1 Hk2. destruct (B.SpanConfig.Tags cfg); [done|].
      by rewrite lookup_insert_ne.
    + intros Htags _. by apply Hnone.
  - pose proof (ensureMap_entries ms1 md1) as He.
    destruct (ensureMap md1 ms1) as [r ms2]. simpl in He.
    eexists. split; [reflexivity|]. split.
    { simpl. by rewrite lookup_alter_eq, Hp. }
    split; [reflexivity|]. split; [reflexivity|].
    cbv zeta. simpl. rewrite mapContents_mapAssign, He, Hent.
    split; [destruct (B.SpanConfig.Tags cfg); by simplify_map_eq|].
    split; [by simplify_map_eq|].
    split.
    + intros k Hk1 Hk2. rewrite lookup_insert_ne by done.
      destruct (B.SpanConfig.Tags cfg); [done|]. by rewrite lookup_insert_ne.
    + intros _ Hnoerr. apply String.eqb_neq in Herr. done.
Qed.

(** X8.  StartTrace puts the new trace at an address that held none,
    so no allocated trace is overwritten; it leaves the buffer, the log
    and the network alone.  The new trace has the identifier and the
    clock reading drawn by the call, the name and the input of the
    configuration, no span, no output and a zero end time; its metadata
    shows the caller's entries, with the joined tags under [tags] when
    tags are given. *)
Theorem X8_buffered_start_trace_allocates_fresh
    (cfg : B.TraceConfig.t) (id : string) (now : Z) l w :
  let '(l', w') := B.StartTraceWithContext cfg id now l w in
  exists p tr,
    l' = B.set_currentTrace (Some p) l /\
    B.traces w !! p = None /\
    B.traces w' !! p = Some tr /\
    (forall q, q <> p -> B.traces w' !! q = B.traces w !! q) /\
    B.GalileoTrace.ID tr = id /\
    B.GalileoTrace.Name tr = B.TraceConfig.Name cfg /\
    B.GalileoTrace.Input tr = B.TraceConfig.Input cfg /\
    B.GalileoTrace.Output tr = "" /\
    B.GalileoTrace.Spans tr = [] /\
    B.GalileoTrace.StartTime tr = now /\
    B.GalileoTrace.EndTime tr = 0 /\
    entries (B.maps w') (B.GalileoTrace.Metadata tr) =
      match B.TraceConfig.Tags cfg with
      | [] => entries (B.maps w) (B.TraceConfig.Metadata cfg)
      | _ :: _ =>
          <["tags" := VStr (Join (B.TraceConfig.Tags cfg) ",")]>
            (entries (B.maps w) (B.TraceConfig.Metadata cfg))
      end /\
    B.logged w' = B.logged w /\ B.printed w' = B.printed w /\
    B.sent w' = B.sent w /\ B.net w' = B.net w.
Proof.
  destruct (buffered_start_spec cfg id now l w) as (md & ms & Hfold & ->).
  pose proof (buffered_foldTags_entries (B.TraceConfig.Tags cfg)
                (B.TraceConfig.Metadata cfg) (B.maps w)) as Hent.
  rewrite Hfold in Hent. destruct Hent as (Hent & _).
  eexists _, _. split; [reflexivity|].
  split; [apply fresh_trace_unallocated|].
  split; [apply lookup_insert_eq|].
  split; [intros q Hq; simpl; by rewrite lookup_insert_ne|].
  simpl. by rewrite Hent.
Qed.

Lemma buffered_addLlm_given_map (c : B.LlmSpanConfig.t) (id : string) (now : Z)
    l w p (r : loc) :
  B.currentTrace l = Some p ->
  B.LlmSpanConfig.Metadata c = Some r ->
  exists s ms',
    B.AddLlmSpan c id now l w = (l, B.appendSpan p s (B.set_maps ms' w)) /\
    B.GalileoSpan.ID s = id /\
    B.GalileoSpan.Metadata s = Some r /\
    mapContents ms' r !! "model" = Some (VStr (B.LlmSpanConfig.Model c)) /\
    mapContents ms' r !! "llm.token_count.input"
      = Some (VInt (B.LlmSpanConfig.NumInputTokens c)) /\
    mapContents ms' r !! "llm.token_count.output"
      = Some (VInt (B.LlmSpanConfig.NumOutputTokens c)) /\
    mapContents ms' r !! "llm.token_count.total"
      = Some (VInt (B.LlmSpanConfig.TotalTokens c)).
Proof.
  intros Hcur Hr. unfold B.AddLlmSpan. rewrite Hcur.
  pose proof (buffered_newLlmSpan_metadata c id now (B.maps w)) as Hmd.
  pose proof (buffered_newLlmSpan_createdBy c id now (B.maps w)) as Hc.
  destruct (B.newLlmSpan c id now (B.maps w)) as [s ms'].
  destruct Hmd as (r' & Hmd & _ & Hgiven & Hm).
  rewrite (Hgiven r Hr) in Hmd, Hm. simpl in Hc. destruct Hc as (Hid & _).
  exists s, ms'. split; [done|]. split; [done|]. split; [done|].
  rewrite Hm. by simplify_map_eq.
Qed.

(** X9.  The span refers to the caller's map, it does not copy it: two
    AddLlmSpan calls that are given the same map leave two spans with
    that one map, which after the second call shows the model and the
    token counts of the second call, also when read through the first
    span. *)
Theorem X9_buffered_llm_spans_share_the_callers_map
    (c1 c2 : B.LlmSpanConfig.t) (id1 id2 : string) (now1 now2 : Z)
    l w p (tr : B.GalileoTrace.t) (r : loc) :
  B.currentTrace l = Some p ->
  B.traces w !! p = Some tr ->
  B.LlmSpanConfig.Metadata c1 = Some r ->
  B.LlmSpanConfig.Metadata c2 = Some r ->
  let st1 := B.AddLlmSpan c1 id1 now1 l w in
  let st2 := B.AddLlmSpan c2 id2 now2 st1.1 st1.2 in
  exists s1 s2,
    B.traces st2.2 !! p =
      Some (B.GalileoTrace.set_Spans (B.GalileoTrace.Spans tr ++ [s1; s2]) tr) /\
    B.GalileoSpan.ID s1 = id1 /\ B.GalileoSpan.ID s2 = id2 /\
    B.GalileoSpan.Metadata s1 = Some r /\ B.GalileoSpan.Metadata s2 = Some r /\
    let m := entries (B.maps st2.2) (B.GalileoSpan.Metadata s1) in
    m !! "model" = Some (VStr (B.LlmSpanConfig.Model c2)) /\
    m !! "llm.token_count.input" = Some (VInt (B.LlmSpanConfig.NumInputTokens c2)) /\
    m !! "llm.token_count.output" = Some (VInt (B.LlmSpanConfig.NumOutputTokens c2)) /\
    m !! "llm.token_count.total" = Some (VInt (B.LlmSpanConfig.TotalTokens c2)).
Proof.
  intros Hcur Hp Hr1 Hr2. cbv zeta.
  destruct (buffered_addLlm_given_map c1 id1 now1 l w p r Hcur Hr1)
    as (s1 & ms1 & -> & Hid1 & Hmd1 & _).
  cbn [fst snd].
  destruct (buffered_addLlm_given_map c2 id2 now2 l
              (B.appendSpan p s1 (B.set_maps ms1 w)) p r Hcur Hr2)
    as (s2 & ms2 & -> & Hid2 & Hmd2 & Hmodel & Hin & Hout & Htot).
  exists s1, s2. split.
  { cbn [snd]. unfold B.appendSpan, B.set_traces, B.set_maps. cbn [B.traces].
    rewrite !lookup_alter_eq, Hp. simpl. by rewrite <- app_assoc. }
  split; [done|]. split; [done|]. split; [done|]. split; [done|].
  cbv zeta. rewrite Hmd1. done.
Qed.

End BufferedMetadata.

Lemma X7_buffered_add_span_metadata_witness :
  B.currentTrace Demo.started.1 = Some 1%positive /\
  B.traces Demo.started.2 !! 1%positive = Some Demo.startedTrace /\
  (let '(l', w') :=
     B.AddSpan Samples.failedCall "id-2" 200 Demo.started.1 Demo.started.2 in
   exists span,
     B.traces w' !! 1%positive =
       Some (B.GalileoTrace.set_Spans [span] Demo.startedTrace) /\
     B.GalileoSpan.Status span = "ERROR" /\
     B.GalileoSpan.Type_ span = "tool" /\
     entries (B.maps w') (B.GalileoSpan.Metadata span) !! "tags"
       = Some (VStr "timeout") /\
     entries (B.maps w') (B.GalileoSpan.Metadata span) !! "error"
       = Some (VStr "Connection timeout")).
Proof.
  split; [reflexivity|]. split; [reflexivity|].
  pose proof (X7_buffered_add_span_metadata Samples.failedCall "id-2" 200
                Demo.started.1 Demo.started.2 1%positive Demo.startedTrace
                eq_refl eq_refl) as H.
  destruct (B.AddSpan Samples.failedCall "id-2" 200 Demo.started.1 Demo.started.2)
    as [l' w'].
  destruct H as (span & _ & Ht & Hst & Hty & Htags & Herr & _).
  exists span. split; [exact Ht|]. split; [exact Hst|]. split; [exact Hty|].
  split; [exact Htags|exact Herr].
Defined.

Lemma X9_buffered_llm_spans_share_the_callers_map_witness :
  B.currentTrace Demo.startedWithCallerMap.1 = Some 1%positive /\
  B.traces Demo.startedWithCallerMap.2 !! 1%positive = Some Demo.startedTrace /\
  B.LlmSpanConfig.Metadata Demo.llmWithCallerMap = Some 1%positive /\
  B.LlmSpanConfig.Metadata Samples.secondLlm = Some 1%positive /\
  (let st1 := B.AddLlmSpan Demo.llmWithCallerMap "id-2" 200
                Demo.startedWithCallerMap.1 Demo.startedWithCallerMap.2 in
   let st2 := B.AddLlmSpan Samples.secondLlm "id-3" 300 st1.1 st1.2 in
   exists s1 s2,
     B.traces st2.2 !! 1%positive =
       Some (B.GalileoTrace.set_Spans [s1; s2] Demo.startedTrace) /\
     B.GalileoSpan.ID s1 = "id-2" /\
     entries (B.maps st2.2) (B.GalileoSpan.Metadata s1) !! "model"
       = Some (VStr "m2")).
Proof.
  split; [reflexivity|]. split; [reflexivity|].
  split; [reflexivity|]. split; [reflexivity|].
  destruct (X9_buffered_llm_spans_share_the_callers_map
              Demo.llmWithCallerMap Samples.secondLlm "id-2" "id-3" 200 300
              Demo.startedWithCallerMap.1 Demo.startedWithCallerMap.2
              1%positive Demo.startedTrace 1%positive
              eq_refl eq_refl eq_refl eq_refl)
    as (s1 & s2 & Ht & Hid1 & _ & _ & _ & Hmodel & _).
  exists s1, s2. split; [exact Ht|]. split; [exact Hid1|exact Hmodel].
Defined.

(** ** Initialization and the session of the buffered logger *)

Section BufferedRemote.
Context {R : Type}.
Variable E : B.Env R.
Implicit Types (l : B.Logger) (w : B.World R).

Lemma buffered_Do_frame (req : Request) w :
  B.traces (B.Do E req w).2 = B.traces w /\
  B.maps (B.Do E req w).2 = B.maps w /\
  B.logged (B.Do E req w).2 = B.logged w /\
  B.printed (B.Do E req w).2 = B.printed w /\
  B.sent (B.Do E req w).2 = B.sent w ++ [req].
Proof.
  unfold B.Do. by destruct (B.roundTrip E req (B.net w)).
Qed.

Lemma buffered_getAccessToken_frame l w :
  let w' := (B.getAccessToken E l w).2 in
  B.traces w' = B.traces w /\ B.maps w' = B.maps w /\ B.logged w' = B.logged w /\
  exists req, B.sent w' = B.sent w ++ [req].
Proof.
  unfold B.getAccessToken.
  match goal with
  | |- context [B.Do E ?r w] =>
      pose proof (buffered_Do_frame r w) as (Ht & Hm & Hl & _ & Hs);
      destruct (B.Do E r w) as [res w1]
  end.
  simpl in *. destruct res as [resp|e]; [destruct (negb _)|]; simpl; eauto 10.
Qed.

Lemma buffered_createProject_frame l w :
  let w' := (B.createProject E l w).2 in
  B.traces w' = B.traces w /\ B.maps w' = B.maps w /\ B.logged w' = B.logged w /\
  B.sent w' = B.sent w ++
    [B.setAuthHeader l
       (HeaderSet "Content-Type" "application/json"
          (mkRequest "POST" (B.galileoAPIBaseURL +:+ "/projects") []
             (Some (JSONFields [("name", B.LoggerConfig.ProjectName (B.config l));
                                ("type", "gen_ai")]))))].
Proof.
  unfold B.createProject.
  match goal with
  | |- context [B.Do E ?r w] =>
      pose proof (buffered_Do_frame r w) as (Ht & Hm & Hl & _ & Hs);
      destruct (B.Do E r w) as [res w1]
  end.
  simpl in *. destruct res as [resp|e]; [destruct (negb _)|]; simpl; eauto 10.
Qed.


(** X13.  StartSession sends one POST to
    [/projects/<project id>/sessions], with the authentication header
    and the JSON content type, and touches neither the buffer, the
    active trace nor the heap.  What it returns follows the answer to
    that request.  On a transport error it returns the error, the
    logger is unchanged and nothing is printed.  On a status other than
    200 and 201 it returns an error that carries status and body, the
    logger is unchanged and nothing is printed.  On 200 or 201 it
    returns the identifier decoded from the body, the logger takes it
    as its session, and one line with the name and the identifier is
    printed.  When the request cannot be built the call does not return
    an error: it panics, having sent nothing. *)
Theorem X13_buffered_start_session (name : string) l w :
  let url := B.galileoAPIBaseURL +:+ "/projects/" +:+ B.projectID l +:+ "/sessions" in
  let req :=
    HeaderSet "Content-Type" "application/json"
      (B.setAuthHeader l
         (mkRequest "POST" url []
            (Some (JSONFields [("log_stream_id", B.logStreamID l);
                               ("name", name)])))) in
  match B.urlError E url with
  | Some _ => B.StartSession E name l w = Panic nilDereference
  | None =>
      exists res l' w',
        B.StartSession E name l w = Done (res, l', w') /\
        B.sent w' = B.sent w ++ [req] /\
        B.net w' = B.net (B.Do E req w).2 /\
        B.traces w' = B.traces w /\ B.maps w' = B.maps w /\
        B.logged w' = B.logged w /\
        B.traceBuffer l' = B.traceBuffer l /\
        B.currentTrace l' = B.currentTrace l /\
        match (B.Do E req w).1 with
        | Err e => res = Err e /\ l' = l /\ B.printed w' = B.printed w
        | Ok resp =>
            if (StatusCode resp =? StatusOK) || (StatusCode resp =? StatusCreated)
            then
              let sid := B.decodeSessionID E (RespBody resp) in
              res = Ok sid /\ l' = B.set_sessionID sid l /\
              B.printed w' =
                B.printed w ++ ["Started session '" +:+ name +:+ "' with ID: " +:+ sid]
            else
              res = Err (errStatus "session creation failed with status"
                                   (StatusCode resp) (RespBody resp)) /\
              l' = l /\ B.printed w' = B.printed w
        end
  end.
Proof.
  cbv zeta. unfold B.StartSession, B.NewRequestWithContext.
  destruct (B.urlError E _) as [e|]; [done|].
  cbv beta iota zeta.
  match goal with
  | |- context [B.Do E ?r w] =>
      pose proof (buffered_Do_frame r w) as (Ht & Hm & Hl & Hp & Hs);
      destruct (B.Do E r w) as [res0 w1]
  end.
  cbn [fst snd] in *.
  destruct res0 as [resp|e].
  - unfold B.statusAccepted.
    destruct ((StatusCode resp =? StatusOK) || (StatusCode resp =? StatusCreated));
      cbn [negb]; eexists _, _, _; (split; [reflexivity|]); simpl;
      rewrite ?Hp; by repeat split.
  - eexists _, _, _. split; [reflexivity|]. by repeat split.
Qed.

End BufferedRemote.

Section BufferedInit.
Context {R : Type}.
Variable E : B.Env R.
Implicit Types (l : B.Logger) (w : B.World R).

Lemma buffered_createLogStream_frame l w res w' :
  B.createLogStream E l w = Done (res, w') ->
  B.traces w' = B.traces w /\ B.maps w' = B.maps w /\ B.logged w' = B.logged w /\
  B.sent w' = B.sent w ++
    [B.setAuthHeader l
       (HeaderSet "Content-Type" "application/json"
          (mkRequest "POST"
             (B.galileoAPIBaseURL +:+ "/projects/" +:+ B.projectID l +:+ "/log_streams")
             []
             (Some (JSONFields [("name", B.LoggerConfig.LogStreamName (B.config l))]))))].
Proof.
  unfold B.createLogStream, B.NewRequestWithContext.
  destruct (B.urlError E _) as [e|]; [done|].
  match goal with
  | |- context [B.Do E ?r w] =>
      pose proof (buffered_Do_frame E r w) as (Ht & Hm & Hl & _ & Hs);
      destruct (B.Do E r w) as [res0 w1]
  end.
  simpl in *.
  destruct res0 as [resp|e]; [destruct (negb _)|]; intros [= <- <-]; done.
Qed.


Lemma buffered_getOrCreateProject_frame l (name : string) w :
  let w' := (B.getOrCreateProject E l name w).2 in
  B.traces w' = B.traces w /\ B.maps w' = B.maps w /\ B.logged w' = B.logged w /\
  exists reqs, B.sent w' = B.sent w ++ reqs /\ (1 <= length reqs <= 2)%nat.
Proof.
  cbv zeta. unfold B.getOrCreateProject.
  match goal with
  | |- context [B.Do E ?r w] =>
      pose proof (buffered_Do_frame E r w) as (Ht & Hm & Hl & _ & Hs);
      destruct (B.Do E r w) as [res0 w1]
  end.
  simpl in Ht, Hm, Hl, Hs.
  destruct res0 as [resp|e].
  - destruct (if StatusCode resp =? StatusOK then _ else None) as [p|].
    + simpl. repeat (split; [done|]). eexists. split; [exact Hs|simpl; lia].
    + pose proof (buffered_createProject_frame E l
                    (B.fmtPrint ("Project '" +:+ name +:+ "' not found, creating...") w1))
        as (Ht2 & Hm2 & Hl2 & Hs2).
      destruct (B.createProject E l _) as [res1 w2]. simpl in *.
      rewrite Ht2, Hm2, Hl2, Hs2, Hs, <- app_assoc.
      repeat (split; [done|]). eexists. split; [reflexivity|simpl; lia].
  - simpl. repeat (split; [done|]). eexists. split; [exact Hs|simpl; lia].
Qed.

Lemma buffered_getOrCreateLogStream_frame l (name : string) w res w' :
  B.getOrCreateLogStream E l name w = Done (res, w') ->
  B.traces w' = B.traces w /\ B.maps w' = B.maps w /\ B.logged w' = B.logged w /\
  exists reqs, B.sent w' = B.sent w ++ reqs /\ (1 <= length reqs <= 2)%nat.
Proof.
  unfold B.getOrCreateLogStream, B.NewRequestWithContext.
  destruct (B.urlError E _) as [e|]; [done|].
  match goal with
  | |- context [B.Do E ?r w] =>
      pose proof (buffered_Do_frame E r w) as (Ht & Hm & Hl & _ & Hs);
      destruct (B.Do E r w) as [res0 w1]
  end.
  simpl in Ht, Hm, Hl, Hs.
  destruct res0 as [resp|e].
  - destruct (if StatusCode resp =? StatusOK then _ else None) as [ls|].
    + intros [= <- <-]. simpl. repeat (split; [done|]).
      eexists. split; [exact Hs|simpl; lia].
    + intros Hcreate.
      destruct (buffered_createLogStream_frame _ _ _ _ Hcreate)
        as (Ht3 & Hm3 & Hl3 & Hs3).
      rewrite Ht3, Hm3, Hl3, Hs3. simpl. rewrite Hs, <- app_assoc.
      repeat (split; [done|]). eexists. split; [reflexivity|simpl; lia].
  - intros [= <- <-]. repeat (split; [done|]).
    eexists. split; [exact Hs|simpl; lia].
Qed.

(** What holds when NewLoggerWithConfig returns. *)
Lemma buffered_new_logger_facts (cfg : B.LoggerConfig.t) w l w' :
  B.NewLoggerWithConfig E cfg w = Done (l, w') ->
  let bearer := String.eqb (B.LoggerConfig.AuthMethod cfg) "bearer_token" in
  B.LoggerConfig.APIKey cfg <> "" /\
  B.config l = cfg /\
  B.traceBuffer l = [] /\ B.currentTrace l = None /\ B.sessionID l = "" /\
  (bearer = false -> B.accessToken l = "") /\
  B.traces w' = B.traces w /\ B.maps w' = B.maps w /\ B.logged w' = B.logged w /\
  exists reqs,
    B.sent w' = B.sent w ++ reqs /\
    ((if bearer then 3 else 2) <= length reqs <= (if bearer then 5 else 4))%nat.
Proof.
  unfold B.NewLoggerWithConfig, mbind, outcome_bind.
  destruct (String.eqb (B.LoggerConfig.APIKey cfg) "") eqn:Hkey; [done|].
  apply String.eqb_neq in Hkey.
  set (l0 := B.mkLogger cfg "" "" "" "" [] None).
  assert (forall (l1 : B.Logger) (w1 : B.World R) (n : nat),
            B.config l1 = cfg -> B.traceBuffer l1 = [] -> B.currentTrace l1 = None ->
            B.sessionID l1 = "" ->
            B.traces w1 = B.traces w -> B.maps w1 = B.maps w ->
            B.logged w1 = B.logged w ->
            (exists reqs, B.sent w1 = B.sent w ++ reqs /\ length reqs = n) ->
            obind
              match B.getOrCreateProject E l1 (B.LoggerConfig.ProjectName cfg) w1 with
              | (Ok pid, w2) => Done (B.set_projectID pid l1, w2)
              | (Err e, _) => Fatal "Failed to get or create project" (Some e)
              end
              (fun '(logger, w2) =>
                 obind (B.getOrCreateLogStream E logger
                          (B.LoggerConfig.LogStreamName cfg) w2)
                   (fun '(res, w3) =>
                      match res with
                      | Ok lsid => Done (B.set_logStreamID lsid logger, w3)
                      | Err e => Fatal "Failed to get or create log stream" (Some e)
                      end)) = Done (l, w') ->
            B.config l = cfg /\ B.traceBuffer l = [] /\ B.currentTrace l = None /\
            B.sessionID l = "" /\ B.accessToken l = B.accessToken l1 /\
            B.traces w' = B.traces w /\ B.maps w' = B.maps w /\
            B.logged w' = B.logged w /\
            exists reqs, B.sent w' = B.sent w ++ reqs /\
                         (n + 2 <= length reqs <= n + 4)%nat) as Hrest.
  { intros l1 w1 n Hcfg Hb Hc Hsid Ht Hm Hl (reqs0 & Hs & Hn).
    pose proof (buffered_getOrCreateProject_frame l1
                  (B.LoggerConfig.ProjectName cfg) w1) as (Ht2 & Hm2 & Hl2 & Hs2).
    destruct (B.getOrCreateProject E l1 _ w1) as [[pid|e] w2]; [|done].
    simpl in Ht2, Hm2, Hl2, Hs2. simpl obind.
    destruct (B.getOrCreateLogStream E (B.set_projectID pid l1) _ w2)
      as [[[lsid|e] w3]| |] eqn:Hls; simpl; [|done..].
    intros [= <- <-].
    destruct (buffered_getOrCreateLogStream_frame _ _ _ _ _ Hls)
      as (Ht3 & Hm3 & Hl3 & reqs3 & Hs3 & Hn3).
    destruct Hs2 as (reqs2 & Hs2 & Hn2).
    simpl. repeat (split; [congruence|]).
    exists (reqs0 ++ reqs2 ++ reqs3). split.
    - by rewrite Hs3, Hs2, Hs, <- !app_assoc.
    - rewrite !length_app. lia. }
  destruct (String.eqb (B.LoggerConfig.AuthMethod cfg) "bearer_token").
  - pose proof (buffered_getAccessToken_frame E l0 w) as (Ht & Hm & Hl & req & Hs).
    destruct (B.getAccessToken E l0 w) as [[tok|e] w1]; [|done].
    simpl in Ht, Hm, Hl, Hs. simpl obind at 1.
    intros Hrun. cbv zeta.
    apply (Hrest (B.set_accessToken tok l0) w1 1%nat) in Hrun; try done.
    + destruct Hrun as (? & ? & ? & ? & _ & ? & ? & ? & ?). by repeat split.
    + by exists [req].
  - simpl obind at 1. intros Hrun. cbv zeta.
    apply (Hrest l0 w 0%nat) in Hrun; try done.
    + destruct Hrun as (? & ? & ? & ? & Htok & ? & ? & ? & ?). by repeat split.
    + exists []. by rewrite app_nil_r.
Qed.

(** X10.  When NewLoggerWithConfig of the buffered logger returns, the
    API key is not empty and the logger holds the configuration, an
    empty buffer, no active trace and no session; without the bearer
    method it holds no access token.  The call wrote nothing to the heap
    or the log, and it sent between two and four requests, or between
    three and five with the bearer method. *)
Theorem X10_buffered_new_logger (cfg : B.LoggerConfig.t) w l w' :
  B.NewLoggerWithConfig E cfg w = Done (l, w') ->
  let bearer := String.eqb (B.LoggerConfig.AuthMethod cfg) "bearer_token" in
  B.LoggerConfig.APIKey cfg <> "" /\
  B.config l = cfg /\
  B.traceBuffer l = [] /\ B.currentTrace l = None /\ B.sessionID l = "" /\
  (bearer = false -> B.accessToken l = "") /\
  B.traces w' = B.traces w /\ B.maps w' = B.maps w /\ B.logged w' = B.logged w /\
  exists reqs,
    B.sent w' = B.sent w ++ reqs /\
    ((if bearer then 3 else 2) <= length reqs <= (if bearer then 5 else 4))%nat.
Proof. exact (buffered_new_logger_facts cfg w l w'). Qed.

End BufferedInit.

Lemma X10_buffered_new_logger_witness :
  let E := Demo.bufferedEnv (Demo.answering 200 "ok") in
  match B.NewLoggerWithConfig E Demo.bufferedConfig Demo.bufferedWorld with
  | Done (l, w') =>
      l = Demo.bufferedLogger /\
      B.traces w' = B.traces Demo.bufferedWorld /\
      exists reqs,
        B.sent w' = B.sent Demo.bufferedWorld ++ reqs /\
        (2 <= length reqs <= 4)%nat
  | _ => False
  end.
Proof.
  cbv zeta.
  destruct (B.NewLoggerWithConfig (Demo.bufferedEnv (Demo.answering 200 "ok"))
              Demo.bufferedConfig Demo.bufferedWorld)
    as [[l w']| |] eqn:Hnew; [|vm_compute in Hnew; discriminate..].
  destruct (X10_buffered_new_logger (Demo.bufferedEnv (Demo.answering 200 "ok"))
              Demo.bufferedConfig Demo.bufferedWorld l w' Hnew)
    as (_ & _ & _ & _ & _ & _ & Ht & _ & _ & Hreqs).
  split; [|split; [exact Ht|exact Hreqs]].
  vm_compute in Hnew. injection Hnew as <- _. reflexivity.
Defined.

(** Flush logs nothing and sends at most one request. *)
Lemma buffered_flush_log_and_sent {R : Type} (E : B.Env R)
    (l : B.Logger) (w : B.World R) :
  let w' := (B.FlushWithContext E l w).2 in
  B.logged w' = B.logged w /\
  (B.sent w' = B.sent w \/ exists req, B.sent w' = B.sent w ++ [req]).
Proof.
  cbv zeta. unfold B.FlushWithContext.
  destruct (B.traceBuffer l) as [|p buf]; [by split; [|left]|].
  destruct (B.marshalIngest E _ _ _) as [body|e]; [|by split; [|left]].
  destruct (B.NewRequestWithContext E _ _ _) as [req|e]; [|by split; [|left]].
  match goal with
  | |- context [B.Do E ?r w] =>
      pose proof (buffered_Do_heap E r w) as (_ & _ & Hlog & Hsent);
      destruct (B.Do E r w) as [res w1]
  end.
  simpl in Hlog, Hsent.
  destruct res as [resp|e]; [destruct (negb (B.statusAccepted resp))|];
    (split; [done|right; by eexists]).
Qed.

(** ** The examples and [main] of the buffered program *)

Section BufferedExamples.
Context {R : Type}.
Variable E : B.Env R.
Variable render : error -> string.
Implicit Types (l : B.Logger) (w : B.World R) (p : loc) (s : Supply)
         (st : B.Logger * B.World R).

Lemma mid_start (cfg : B.TraceConfig.t) (id : string) (now : Z) l w :
  midExample l w (fresh (dom (B.traces w))) id [] []
             (B.StartTraceWithContext cfg id now l w).
Proof.
  destruct (buffered_start_spec cfg id now l w) as (md & ms & _ & ->).
  unfold midExample. simpl. repeat (split; [done|]).
  eexists. split; [apply lookup_insert_eq|]. done.
Qed.

Lemma mid_add (c : B.AddCall) l0 (w0 : B.World R) p tid names ids l w :
  midExample l0 w0 p tid names ids (l, w) ->
  exists span,
    B.createdBy c span /\
    midExample l0 w0 p tid (names ++ [B.GalileoSpan.Name span])
               (ids ++ [B.GalileoSpan.ID span]) (B.applyAdd c (l, w)).
Proof.
  intros (Hcur & Hbuf & Hlog & Hsent & tr & Hp & Hid & Hnames & Hids).
  simpl in Hcur, Hbuf, Hlog, Hsent, Hp.
  assert (exists span ms,
            B.applyAdd c (l, w) = (l, B.appendSpan p span (B.set_maps ms w)) /\
            B.createdBy c span) as (span & ms & -> & Hc).
  { destruct c as [cfg id now|cfg id now]; simpl.
    - unfold B.AddSpan. rewrite Hcur.
      pose proof (buffered_newSpan_createdBy cfg id now (B.maps w)) as Hc.
      destruct (B.newSpan cfg id now (B.maps w)) as [span ms]. by exists span, ms.
    - unfold B.AddLlmSpan. rewrite Hcur.
      pose proof (buffered_newLlmSpan_createdBy cfg id now (B.maps w)) as Hc.
      destruct (B.newLlmSpan cfg id now (B.maps w)) as [span ms]. by exists span, ms. }
  exists span. split; [done|]. unfold midExample. simpl.
  repeat (split; [done|]).
  eexists. split; [by rewrite lookup_alter_eq, Hp|].
  simpl. rewrite !map_app, Hnames, Hids. done.
Qed.

Lemma mid_addSpan (cfg : B.SpanConfig.t) (id : string) (now : Z)
    l0 (w0 : B.World R) p tid names ids l w :
  midExample l0 w0 p tid names ids (l, w) ->
  midExample l0 w0 p tid (names ++ [B.SpanConfig.Name cfg]) (ids ++ [id])
             (B.AddSpan cfg id now l w).
Proof.
  intros Hmid.
  destruct (mid_add (B.AddGeneric cfg id now) _ _ _ _ _ _ _ _ Hmid)
    as (span & (Hid & Hname & _) & Hnext).
  by rewrite Hid, Hname in Hnext.
Qed.

Lemma mid_addLlmSpan (cfg : B.LlmSpanConfig.t) (id : string) (now : Z)
    l0 (w0 : B.World R) p tid names ids l w :
  midExample l0 w0 p tid names ids (l, w) ->
  midExample l0 w0 p tid (names ++ ["llm-span"]) (ids ++ [id])
             (B.AddLlmSpan cfg id now l w).
Proof.
  intros Hmid.
  destruct (mid_add (B.AddLlm cfg id now) _ _ _ _ _ _ _ _ Hmid)
    as (span & (Hid & Hname & _) & Hnext).
  by rewrite Hid, Hname in Hnext.
Qed.

Lemma mid_makeMap (m : gmap string Value) l0 (w0 : B.World R) p tid names ids l w :
  midExample l0 w0 p tid names ids (l, w) ->
  midExample l0 w0 p tid names ids (l, (BufferedProgram.makeMap m w).2).
Proof. done. Qed.

Lemma mid_processItems s (items : list string) :
  forall (k : nat) l0 (w0 : B.World R) p tid names ids l w,
    midExample l0 w0 p tid names ids (l, w) ->
    midExample l0 w0 p tid
      (names ++ map (fun _ => "process_item") items)
      (ids ++ map (uuid s) (seq k (length items)))
      (BufferedProgram.processItems s k items l w).
Proof.
  induction items as [|item items IH]; intros k l0 w0 p tid names ids l w Hmid; simpl.
  - by rewrite !app_nil_r.
  - apply (mid_addSpan
             (B.SpanConfig.mk "process_item" (VStr item) (VStr (item +:+ " processed"))
                              500000000 None [] "" "tool")
             (uuid s k) (clock s k)) in Hmid.
    destruct (B.AddSpan _ _ _ l w) as [l1 w1].
    apply (IH (S k)) in Hmid. simpl in Hmid.
    by rewrite <- !app_assoc in Hmid.
Qed.

(** The end of every example: Conclude, Flush, one line in the log. *)
Lemma mid_finish (cc : B.ConcludeConfig.t) (failure success : string)
    l0 (w0 : B.World R) p tid names ids l w :
  midExample l0 w0 p tid names ids (l, w) ->
  let res :=
    let '(l1, w1) := B.Conclude cc l w in
    let '(err, l2, w2) := B.FlushWithContext E l1 w1 in
    match err with
    | Some e => (l2, B.logPrintln (failure +:+ render e) w2)
    | None => (l2, B.logPrintln success w2)
    end in
  B.currentTrace res.1 = None /\
  (B.traceBuffer res.1 = [] \/ B.traceBuffer res.1 = B.traceBuffer l0 ++ [p]) /\
  (exists tr,
     B.traces res.2 !! p = Some tr /\
     B.GalileoTrace.ID tr = tid /\
     B.GalileoTrace.Output tr = B.ConcludeConfig.Output cc /\
     map B.GalileoSpan.Name (B.GalileoTrace.Spans tr) = names /\
     map B.GalileoSpan.ID (B.GalileoTrace.Spans tr) = ids) /\
  (exists line, B.logged res.2 = B.logged w0 ++ [line]) /\
  (B.sent res.2 = B.sent w0 \/ exists req, B.sent res.2 = B.sent w0 ++ [req]).
Proof.
  intros (Hcur & Hbuf & Hlog & Hsent & tr & Hp & Hid & Hnames & Hids).
  simpl in Hcur, Hbuf, Hlog, Hsent, Hp. cbv zeta.
  rewrite (buffered_conclude_active cc l w p tr Hcur Hp).
  set (l1 := B.set_currentTrace None _). set (w1 := B.set_traces _ _).
  pose proof (buffered_flush_cases E l1 w1) as (Hl & Ht & _).
  pose proof (buffered_flush_log_and_sent E l1 w1) as (Hlog2 & Hreq).
  pose proof (buffered_concludeTrace_fields cc tr (B.maps w)) as (Ho & _ & _ & Hsp & Hi & _).
  cbv zeta in Ho, Hsp, Hi.
  assert (B.traces w1 !! p = Some (B.concludeTrace cc tr (B.maps w)).1) as Hp1
    by apply lookup_insert_eq.
  destruct (B.FlushWithContext E l1 w1) as [[err l2] w2].
  simpl in Hl, Ht, Hlog2, Hreq.
  assert (B.sent w2 = B.sent w0 \/ exists req, B.sent w2 = B.sent w0 ++ [req]) as Hs2.
  { destruct Hreq as [Hs|(req & Hs)].
    - left. by rewrite Hs.
    - right. exists req. rewrite Hs. simpl. by rewrite Hsent. }
  assert (exists tr',
            B.traces w2 !! p = Some tr' /\ B.GalileoTrace.ID tr' = tid /\
            B.GalileoTrace.Output tr' = B.ConcludeConfig.Output cc /\
            map B.GalileoSpan.Name (B.GalileoTrace.Spans tr') = names /\
            map B.GalileoSpan.ID (B.GalileoTrace.Spans tr') = ids) as Htr.
  { eexists. rewrite Ht. split; [exact Hp1|]. by rewrite Ho, Hsp, Hi. }
  destruct err as [e|]; simpl.
  - subst l2. split; [done|]. split; [right; simpl; by rewrite Hbuf|].
    split; [done|]. split; [|done]. eexists. by rewrite Hlog2, <- Hlog.
  - destruct Hl as [Hb Hc]. split; [by rewrite Hc|]. split; [by left|].
    split; [done|]. split; [|done]. eexists. by rewrite Hlog2, <- Hlog.
Qed.

End BufferedExamples.

Ltac example_step H :=
  match goal with
  | |- context [B.StartTraceWithContext ?c ?i ?n ?l ?w] =>
      pose proof (mid_start c i n l w) as H;
      destruct (B.StartTraceWithContext c i n l w) as [? ?]
  | |- context [BufferedProgram.makeMap ?m ?w] =>
      apply (mid_makeMap m) in H;
      destruct (BufferedProgram.makeMap m w) as [? ?]; cbn [snd] in H
  | |- context [B.AddSpan ?c ?i ?n ?l ?w] =>
      apply (mid_addSpan c i n) in H; destruct (B.AddSpan c i n l w) as [? ?]
  | |- context [B.AddLlmSpan ?c ?i ?n ?l ?w] =>
      apply (mid_addLlmSpan c i n) in H; destruct (B.AddLlmSpan c i n l w) as [? ?]
  | |- context [BufferedProgram.processItems ?s ?k ?items ?l ?w] =>
      apply (mid_processItems s items k) in H;
      destruct (BufferedProgram.processItems s k items l w) as [? ?]
  end.

(** The outcome of each of the six examples. *)
Lemma buffered_examples_outcome {R : Type} (E : B.Env R) (render : error -> string)
    (s : Supply) (l : B.Logger) (w : B.World R) :
  let outcome (names : list string) (output : string)
              (res : B.Logger * B.World R) : Prop :=
    B.currentTrace res.1 = None /\
    (B.traceBuffer res.1 = [] \/
     B.traceBuffer res.1 = B.traceBuffer l ++ [fresh (dom (B.traces w))]) /\
    (exists tr,
       B.traces res.2 !! fresh (dom (B.traces w)) = Some tr /\
       B.GalileoTrace.ID tr = uuid s 0 /\
       B.GalileoTrace.Output tr = output /\
       map B.GalileoSpan.Name (B.GalileoTrace.Spans tr) = names /\
       map B.GalileoSpan.ID (B.GalileoTrace.Spans tr)
         = map (uuid s) (seq 1 (length names))) /\
    (exists line, B.logged res.2 = B.logged w ++ [line]) /\
    (B.sent res.2 = B.sent w \/ exists req, B.sent res.2 = B.sent w ++ [req]) in
  outcome ["llm-span"] "The capital of France is Paris."
          (BufferedProgram.basicTraceExample E render s l w) /\
  outcome ["data_preprocessing"; "llm-span"]
          ("{" +:+ dq +:+ "sentiment" +:+ dq +:+ ": " +:+ dq +:+ "positive" +:+ dq +:+ "}")
          (BufferedProgram.advancedTraceExample E render s l w) /\
  outcome ["document_retrieval"; "llm-span"] "Quantum computing is advancing."
          (BufferedProgram.ragWorkflowExample E render s l w) /\
  outcome ["weather_tool"; "llm-span"] "It's 45°F in New York."
          (BufferedProgram.toolUsageExample E render s l w) /\
  outcome ["api_call"; "fallback_processing"] "Processed with fallback data."
          (BufferedProgram.errorHandlingExample E render s l w) /\
  outcome ["process_item"; "process_item"; "process_item"] "Batch processed."
          (BufferedProgram.batchProcessingExample E render s l w).
Proof.
  cbv zeta.
  split; [|split; [|split; [|split; [|split]]]].
  - unfold BufferedProgram.basicTraceExample.
    do 3 example_step H.
    exact (mid_finish E render _ _ _ _ _ _ _ _ _ _ _ H).
  - unfold BufferedProgram.advancedTraceExample.
    do 3 example_step H.
    exact (mid_finish E render _ _ _ _ _ _ _ _ _ _ _ H).
  - unfold BufferedProgram.ragWorkflowExample.
    do 3 example_step H.
    exact (mid_finish E render _ _ _ _ _ _ _ _ _ _ _ H).
  - unfold BufferedProgram.toolUsageExample.
    do 3 example_step H.
    exact (mid_finish E render _ _ _ _ _ _ _ _ _ _ _ H).
  - unfold BufferedProgram.errorHandlingExample.
    do 3 example_step H.
    exact (mid_finish E render _ _ _ _ _ _ _ _ _ _ _ H).
  - unfold BufferedProgram.batchProcessingExample. cbv zeta.
    do 2 example_step H.
    exact (mid_finish E render _ _ _ _ _ _ _ _ _ _ _ H).
Qed.

(** X14.  Each of the six examples of the buffered program, run from
    any state with any supply of identifiers and any service, ends
    without an active trace.  Its trace, at an address that was free,
    has the output of its Conclude and its spans in the order of the add
    calls.  Afterwards the buffer is either empty or the buffer from
    before the example followed by this trace.  The example writes
    exactly one line to the log and sends at most one request. *)
Theorem X14_buffered_examples {R : Type} (E : B.Env R) (render : error -> string)
    (s : Supply) (l : B.Logger) (w : B.World R) :
  let outcome (names : list string) (output : string)
              (res : B.Logger * B.World R) : Prop :=
    B.currentTrace res.1 = None /\
    (B.traceBuffer res.1 = [] \/
     B.traceBuffer res.1 = B.traceBuffer l ++ [fresh (dom (B.traces w))]) /\
    (exists tr,
       B.traces res.2 !! fresh (dom (B.traces w)) = Some tr /\
       B.GalileoTrace.ID tr = uuid s 0 /\
       B.GalileoTrace.Output tr = output /\
       map B.GalileoSpan.Name (B.GalileoTrace.Spans tr) = names /\
       map B.GalileoSpan.ID (B.GalileoTrace.Spans tr)
         = map (uuid s) (seq 1 (length names))) /\
    (exists line, B.logged res.2 = B.logged w ++ [line]) /\
    (B.sent res.2 = B.sent w \/ exists req, B.sent res.2 = B.sent w ++ [req]) in
  outcome ["llm-span"] "The capital of France is Paris."
          (BufferedProgram.basicTraceExample E render s l w) /\
  outcome ["data_preprocessing"; "llm-span"]
          ("{" +:+ dq +:+ "sentiment" +:+ dq +:+ ": " +:+ dq +:+ "positive" +:+ dq +:+ "}")
          (BufferedProgram.advancedTraceExample E render s l w) /\
  outcome ["document_retrieval"; "llm-span"] "Quantum computing is advancing."
          (BufferedProgram.ragWorkflowExample E render s l w) /\
  outcome ["weather_tool"; "llm-span"] "It's 45°F in New York."
          (BufferedProgram.toolUsageExample E render s l w) /\
  outcome ["api_call"; "fallback_processing"] "Processed with fallback data."
          (BufferedProgram.errorHandlingExample E render s l w) /\
  outcome ["process_item"; "process_item"; "process_item"] "Batch processed."
          (BufferedProgram.batchProcessingExample E render s l w).
Proof. exact (buffered_examples_outcome E render s l w). Qed.

Section BufferedMain.
Context {R : Type}.
Variable E : B.Env R.
Variable render : error -> string.
Implicit Types (l : B.Logger) (w : B.World R) (s : Supply).

Lemma buffered_start_session_counts (name : string) l w res l' w' :
  B.StartSession E name l w = Done (res, l', w') ->
  B.logged w' = B.logged w /\ length (B.sent w') = S (length (B.sent w)).
Proof.
  unfold B.StartSession.
  destruct (B.NewRequestWithContext E _ _ _) as [req|e]; [|done].
  match goal with
  | |- context [B.Do E ?r w] =>
      pose proof (buffered_Do_heap E r w) as (_ & _ & Hl & Hs);
      destruct (B.Do E r w) as [res0 w1]
  end.
  simpl in Hl, Hs.
  assert (length (B.sent w1) = S (length (B.sent w))) as Hn
    by (rewrite Hs, length_app; simpl; lia).
  destruct res0 as [resp|e]; [destruct (negb (B.statusAccepted resp))|];
    intros [= <- <- <-]; done.
Qed.

(** What every example does to the counts that [main] adds up. *)
Lemma buffered_example_counts s l w :
  let counts (res : B.Logger * B.World R) : Prop :=
    B.currentTrace res.1 = None /\
    (length (B.traceBuffer res.1) <= S (length (B.traceBuffer l)))%nat /\
    length (B.logged res.2) = S (length (B.logged w)) /\
    (length (B.sent w) <= length (B.sent res.2) <= S (length (B.sent w)))%nat in
  counts (BufferedProgram.basicTraceExample E render s l w) /\
  counts (BufferedProgram.advancedTraceExample E render s l w) /\
  counts (BufferedProgram.ragWorkflowExample E render s l w) /\
  counts (BufferedProgram.toolUsageExample E render s l w) /\
  counts (BufferedProgram.errorHandlingExample E render s l w) /\
  counts (BufferedProgram.batchProcessingExample E render s l w).
Proof.
  pose proof (buffered_examples_outcome E render s l w) as H. cbv zeta in H |- *.
  assert (forall (names : list string) (output : string) (res : B.Logger * B.World R),
            B.currentTrace res.1 = None /\
            (B.traceBuffer res.1 = [] \/
             B.traceBuffer res.1 = B.traceBuffer l ++ [fresh (dom (B.traces w))]) /\
            (exists tr,
               B.traces res.2 !! fresh (dom (B.traces w)) = Some tr /\
               B.GalileoTrace.ID tr = uuid s 0 /\
               B.GalileoTrace.Output tr = output /\
               map B.GalileoSpan.Name (B.GalileoTrace.Spans tr) = names /\
               map B.GalileoSpan.ID (B.GalileoTrace.Spans tr)
                 = map (uuid s) (seq 1 (length names))) /\
            (exists line, B.logged res.2 = B.logged w ++ [line]) /\
            (B.sent res.2 = B.sent w \/ exists req, B.sent res.2 = B.sent w ++ [req]) ->
            B.currentTrace res.1 = None /\
            (length (B.traceBuffer res.1) <= S (length (B.traceBuffer l)))%nat /\
            length (B.logged res.2) = S (length (B.logged w)) /\
            (length (B.sent w) <= length (B.sent res.2) <= S (length (B.sent w)))%nat)
    as Hsum.
  { intros names output res (Hc & Hb & _ & (line & Hl) & Hs).
    split; [done|]. split.
    { destruct Hb as [-> | ->]; [simpl; lia|rewrite length_app; simpl; lia]. }
    split; [rewrite Hl, length_app; simpl; lia|].
    destruct Hs as [-> |(req & ->)]; [lia|rewrite length_app; simpl; lia]. }
  destruct H as (H1 & H2 & H3 & H4 & H5 & H6).
  repeat split; eapply Hsum; eassumption.
Qed.

Lemma buffered_close_counts l w :
  let res := B.Close E l w in
  B.currentTrace res.1 = B.currentTrace l /\
  (length (B.traceBuffer res.1) <= length (B.traceBuffer l))%nat /\
  B.logged res.2 = B.logged w /\
  (length (B.sent w) <= length (B.sent res.2) <= S (length (B.sent w)))%nat.
Proof.
  cbv zeta. unfold B.Close.
  pose proof (buffered_flush_cases E l w) as (Hl & _).
  pose proof (buffered_flush_log_and_sent E l w) as (Hlog & Hs).
  destruct (B.FlushWithContext E l w) as [[err l'] w']. simpl in *.
  assert (length (B.sent w) <= length (B.sent w') <= S (length (B.sent w)))%nat as Hn.
  { destruct Hs as [-> |(req & ->)]; [lia|rewrite length_app; simpl; lia]. }
  destruct err as [e|].
  - by subst l'.
  - destruct Hl as [Hb Hc]. rewrite Hb.
    split; [done|]. split; [simpl; lia|]. by split.
Qed.

(** X15.  [main] of the buffered program.  With the API key unset, or
    set to the empty string, it ends in log.Fatal before anything else
    happens.  When it returns, it has run the six examples: the log has
    thirteen more lines (fourteen when no .env file was found), between
    three and thirteen requests were sent, no trace is active, and at
    most the six traces of the examples are still in the buffer; the
    errors of the flushes do not stop it. *)
Theorem X15_buffered_main (environ : gmap string string) (dotenv : bool) s w :
  (BufferedProgram.getEnv environ "GALILEO_API_KEY" "" = "" ->
   BufferedProgram.main E render environ dotenv s w
   = Fatal "GALILEO_API_KEY must be provided" None) /\
  (forall l w',
     BufferedProgram.main E render environ dotenv s w = Done (l, w') ->
     BufferedProgram.getEnv environ "GALILEO_API_KEY" "" <> "" /\
     B.currentTrace l = None /\
     (length (B.traceBuffer l) <= 6)%nat /\
     length (B.logged w') =
       (length (B.logged w) + (if dotenv then 13 else 14))%nat /\
     (length (B.sent w) + 3 <= length (B.sent w') <= length (B.sent w) + 13)%nat).
Proof.
  split.
  - intros Hkey. unfold BufferedProgram.main, B.NewLoggerWithConfig.
    simpl B.LoggerConfig.APIKey. by rewrite Hkey.
  - intros l w'. unfold BufferedProgram.main.
    set (w0 := if dotenv then w else B.logPrintln "Warning: .env file not found" w).
    assert (length (B.logged w0) = (length (B.logged w) + (if dotenv then 0 else 1))%nat
            /\ B.sent w0 = B.sent w) as [Hlog0 Hsent0].
    { unfold w0. destruct dotenv; simpl; [split; [lia|done]|].
      rewrite length_app. simpl. split; [lia|done]. }
    set (cfg := B.LoggerConfig.mk _ _ _ _).
    unfold mbind, outcome_bind.
    destruct (B.NewLoggerWithConfig E cfg w0) as [[l1 w1]| |] eqn:Hnew; [|done..].
    pose proof (buffered_new_logger_facts E cfg w0 l1 w1 Hnew)
      as (Hkey & _ & Hb1 & Hc1 & _ & _ & _ & _ & Hl1 & reqs & Hs1 & Hn1).
    simpl obind at 1.
    destruct (B.StartSession E "Go Demo Session" l1 w1) as [[[res l2] w2]| |] eqn:Hsess;
      [|done..].
    destruct (buffered_start_session_frame E _ _ _ _ _ _ Hsess) as (Hc2 & Hb2 & _).
    destruct (buffered_start_session_counts _ _ _ _ _ _ Hsess) as (Hl2 & Hs2).
    simpl obind. destruct res as [sid|e]; [|done].
    assert (length (B.sent w) + 3 <= length (B.sent w2) <= length (B.sent w) + 6)%nat
      as Hsent2.
    { rewrite Hs2, Hs1, length_app, Hsent0.
      destruct (String.eqb (B.LoggerConfig.AuthMethod cfg) "bearer_token"); lia. }
    assert (length (B.logged w2) = (length (B.logged w) + (if dotenv then 0 else 1))%nat)
      as Hlogged2 by (by rewrite Hl2, Hl1).
    assert (length (B.traceBuffer l2) = 0%nat) as Hbuf2 by (by rewrite Hb2, Hb1).
    clear Hnew Hsess Hs1 Hn1 Hs2 Hl2 Hl1 Hb2 Hb1 Hc2 Hc1 Hlog0 Hsent0.
    set (h1 := B.logPrintln "=== Example 1: Basic Trace with LLM Span ===" w2).
    pose proof (buffered_example_counts s l2 h1) as (H1 & _).
    destruct (BufferedProgram.basicTraceExample E render s l2 h1) as [l3 w3].
    set (h2 := B.logPrintln _ w3).
    pose proof (buffered_example_counts (shift 2 s) l3 h2) as (_ & H2 & _).
    destruct (BufferedProgram.advancedTraceExample E render (shift 2 s) l3 h2)
      as [l4 w4].
    set (h3 := B.logPrintln _ w4).
    pose proof (buffered_example_counts (shift 5 s) l4 h3) as (_ & _ & H3 & _).
    destruct (BufferedProgram.ragWorkflowExample E render (shift 5 s) l4 h3)
      as [l5 w5].
    set (h4 := B.logPrintln _ w5).
    pose proof (buffered_example_counts (shift 8 s) l5 h4) as (_ & _ & _ & H4 & _).
    destruct (BufferedProgram.toolUsageExample E render (shift 8 s) l5 h4)
      as [l6 w6].
    set (h5 := B.logPrintln _ w6).
    pose proof (buffered_example_counts (shift 11 s) l6 h5)
      as (_ & _ & _ & _ & H5 & _).
    destruct (BufferedProgram.errorHandlingExample E render (shift 11 s) l6 h5)
      as [l7 w7].
    set (h6 := B.logPrintln _ w7).
    pose proof (buffered_example_counts (shift 14 s) l7 h6)
      as (_ & _ & _ & _ & _ & H6).
    destruct (BufferedProgram.batchProcessingExample E render (shift 14 s) l7 h6)
      as [l8 w8].
    set (h7 := B.logPrintln _ w8).
    pose proof (buffered_close_counts l8 h7) as H7.
    intros [= Hclose]. rewrite Hclose in H7.
    cbv zeta in H1, H2, H3, H4, H5, H6, H7.
    unfold h1, h2, h3, h4, h5, h6, h7 in *. simpl in *.
    rewrite ?length_app in *. simpl in *.
    destruct H1 as (? & ? & ? & ?), H2 as (? & ? & ? & ?), H3 as (? & ? & ? & ?),
             H4 as (? & ? & ? & ?), H5 as (? & ? & ? & ?), H6 as (? & ? & ? & ?),
             H7 as (Hcur & ? & Hlogged & ?).
    apply (f_equal length) in Hlogged. rewrite length_app in Hlogged.
    simpl in Hlogged.
    split; [done|]. split; [congruence|].
    split; [lia|]. split; [destruct dotenv; lia|lia].
Qed.

End BufferedMain.

Lemma X15_buffered_main_witness :
  let E := Demo.bufferedEnv (Demo.answering 200 "ok") in
  BufferedProgram.getEnv ∅ "GALILEO_API_KEY" "" = "" /\
  BufferedProgram.main E Samples.render ∅ true Samples.supply Demo.bufferedWorld
  = Fatal "GALILEO_API_KEY must be provided" None /\
  match BufferedProgram.main E Samples.render {["GALILEO_API_KEY" := "key"]} true
                             Samples.supply Demo.bufferedWorld with
  | Done (l, w') =>
      B.currentTrace l = None /\
      (length (B.traceBuffer l) <= 6)%nat /\
      length (B.logged w') = 13%nat
  | _ => False
  end.
Proof.
  cbv zeta. split; [reflexivity|].
  destruct (X15_buffered_main (Demo.bufferedEnv (Demo.answering 200 "ok"))
              Samples.render ∅ true Samples.supply Demo.bufferedWorld)
    as [Hfatal _].
  split; [exact (Hfatal eq_refl)|].
  destruct (X15_buffered_main (Demo.bufferedEnv (Demo.answering 200 "ok"))
              Samples.render {["GALILEO_API_KEY" := "key"]} true Samples.supply
              Demo.bufferedWorld) as [_ Hdone].
  destruct (BufferedProgram.main (Demo.bufferedEnv (Demo.answering 200 "ok"))
              Samples.render {["GALILEO_API_KEY" := "key"]} true Samples.supply
              Demo.bufferedWorld) as [[l w']| |] eqn:Hmain;
    [|vm_compute in Hmain; discriminate Hmain..].
  destruct (Hdone l w' eq_refl) as (_ & Hc & Hb & Hl & _).
  split; [exact Hc|]. split; [exact Hb|exact Hl].
Defined.

(** ** The single-trace logger: runs, dry-run mode and Flush *)

Section SingleRuns.
Context {R : Type}.
Variable E : S.Env R.
Implicit Types (l : S.Logger) (w : S.World R).

(** No call changes the configuration; only Flush reaches the network,
    with at most one request, and with none in dry-run mode. *)
Lemma single_exec_frame (c : SingleProgram.Call) l w :
  let st' := SingleProgram.exec E c (l, w) in
  S.config st'.1 = S.config l /\
  (c <> SingleProgram.CallFlush -> S.sent st'.2 = S.sent w /\ S.net st'.2 = S.net w) /\
  (S.sent st'.2 = S.sent w \/ exists req, S.sent st'.2 = S.sent w ++ [req]) /\
  (S.LoggerConfig.DryRun (S.config l) = true ->
   S.sent st'.2 = S.sent w /\ S.net st'.2 = S.net w).
Proof.
  destruct c as [cfg|cfg|cfg|cfg| |r m]; simpl.
  - auto.
  - unfold S.AddSpan. destruct (S.currentTrace l); auto.
  - unfold S.AddLlmSpan. destruct (S.currentTrace l); [|auto].
    destruct (S.newLlmSpan cfg (S.maps w)); auto.
  - unfold S.Conclude. destruct (S.currentTrace l); [|auto].
    destruct (appendSlice _ _ _ _); auto.
  - pose proof (single_flush_cases E l w) as (Hl & _).
    unfold S.FlushWithContext in *.
    destruct (S.currentTrace l) as [tr|]; [|auto].
    destruct (S.marshalEvents E tr (S.maps w) (S.arrays w)) as [data|e]; [|auto].
    simpl S.config in *.
    destruct (S.LoggerConfig.DryRun (S.config l)) eqn:Hdry; [auto|].
    destruct (S.NewRequestWithContext E _ _ _) as [req|e]; [|auto].
    match goal with
    | |- context [S.Do E ?r w] =>
        pose proof (single_Do_frame E r w) as (_ & _ & Hs);
        destruct (S.Do E r w) as [res w1]
    end.
    simpl in Hs.
    destruct res as [resp|e]; [destruct (negb _)|]; simpl in *;
      (split; [by (destruct Hl; subst)|]); (split; [done|]);
      (split; [right; by eexists|done]).
  - auto.
Qed.

(** X16.  A logger of the single-trace program in dry-run mode stays in
    that mode and never reaches the network: after any run of
    StartTrace, AddSpan, AddLlmSpan, Conclude and Flush calls, no
    request has been sent and the service is untouched. *)
Theorem X16_single_dry_run_never_sends (calls : list SingleProgram.Call) l w :
  S.LoggerConfig.DryRun (S.config l) = true ->
  let st' := SingleProgram.run E calls (l, w) in
  S.LoggerConfig.DryRun (S.config st'.1) = true /\
  S.sent st'.2 = S.sent w /\ S.net st'.2 = S.net w.
Proof.
  revert l w. induction calls as [|c calls IH]; intros l w Hdry; [done|].
  cbv zeta.
  change (SingleProgram.run E (c :: calls) (l, w))
    with (SingleProgram.run E calls (SingleProgram.exec E c (l, w))).
  pose proof (single_exec_frame c l w) as (Hcfg & _ & _ & Hnet).
  cbv zeta in Hcfg, Hnet.
  destruct (Hnet Hdry) as (Hs & Hn).
  destruct (SingleProgram.exec E c (l, w)) as [l1 w1].
  cbn [fst snd] in Hcfg, Hs, Hn.
  rewrite <- Hs, <- Hn. apply IH. by rewrite Hcfg.
Qed.

(** X17.  NewLoggerWithConfig of the single-trace program keeps the
    identifiers and the key, replaces an empty base URL by the default
    one, and returns a logger without a trace.  The logger is in dry-run
    mode exactly when the flag was given or the key, the project
    identifier or the log-stream identifier is empty.  At most one line
    is logged: the missing key, else (only when the flag was not given)
    the missing project identifier, else the missing log-stream
    identifier.  Nothing is sent. *)
Theorem X17_single_new_logger (cfg : S.LoggerConfig.t) w :
  let '(l, w') := S.NewLoggerWithConfig cfg w in
  S.currentTrace l = None /\
  S.LoggerConfig.ProjectID (S.config l) = S.LoggerConfig.ProjectID cfg /\
  S.LoggerConfig.LogStreamID (S.config l) = S.LoggerConfig.LogStreamID cfg /\
  S.LoggerConfig.APIKey (S.config l) = S.LoggerConfig.APIKey cfg /\
  S.LoggerConfig.BaseURL (S.config l) =
    (if String.eqb (S.LoggerConfig.BaseURL cfg) "" then "https://api.galileo.ai/v2"
     else S.LoggerConfig.BaseURL cfg) /\
  S.LoggerConfig.DryRun (S.config l) =
    (S.LoggerConfig.DryRun cfg
     || String.eqb (S.LoggerConfig.APIKey cfg) ""
     || String.eqb (S.LoggerConfig.ProjectID cfg) ""
     || String.eqb (S.LoggerConfig.LogStreamID cfg) "") /\
  S.logged w' = S.logged w ++
    (if String.eqb (S.LoggerConfig.APIKey cfg) ""
     then ["GALILEO_API_KEY not set. Running in dry run mode."]
     else if S.LoggerConfig.DryRun cfg then []
     else if String.eqb (S.LoggerConfig.ProjectID cfg) ""
     then ["GALILEO_PROJECT_ID is not set, but API key is present. Running in dry run mode."]
     else if String.eqb (S.LoggerConfig.LogStreamID cfg) ""
     then ["GALILEO_LOG_STREAM_ID could not be resolved. Running in dry run mode."]
     else []) /\
  S.maps w' = S.maps w /\ S.sent w' = S.sent w /\ S.net w' = S.net w.
Proof.
  unfold S.NewLoggerWithConfig.
  destruct cfg as [pid lsid key base dry]. simpl.
  destruct (String.eqb base ""); simpl;
    destruct (String.eqb key ""); simpl;
    destruct dry; simpl;
    destruct (String.eqb pid ""); simpl;
    destruct (String.eqb lsid ""); simpl;
    by rewrite ?app_nil_r.
Qed.

(** X18.  Flush of the single-trace logger sends at most one request.
    It sends none, and leaves the service alone, without a current
    trace, for a trace that does not serialize, in dry-run mode, and
    when the request cannot be built.  Only when there is a trace that
    serializes, the logger is not in dry-run mode and the request can
    be built does it send one POST to
    [<base URL>/projects/<project id>/log_streams/<log stream id>/events]
    whose body is the serialized trace, with the JSON content type and
    the key as bearer token.  It then returns nil and drops the trace
    exactly when the service answers 200 or 201; on a transport error
    or another status it returns an error and the logger is as before. *)
Theorem X18_single_flush_sends_at_most_one_request l w :
  let url := S.LoggerConfig.BaseURL (S.config l) +:+ "/projects/"
             +:+ S.LoggerConfig.ProjectID (S.config l) +:+ "/log_streams/"
             +:+ S.LoggerConfig.LogStreamID (S.config l) +:+ "/events" in
  let '(err, l', w') := S.FlushWithContext E l w in
  (S.sent w' = S.sent w /\ S.net w' = S.net w /\
   (S.currentTrace l = None \/
    (exists tr e, S.currentTrace l = Some tr /\
                  S.marshalEvents E tr (S.maps w) (S.arrays w) = Err e) \/
    S.LoggerConfig.DryRun (S.config l) = true \/
    (exists e, S.urlError E url = Some e))) \/
  (exists tr data,
     let req :=
       mkRequest "POST" url
         [("Content-Type", "application/json");
          ("Authorization", "Bearer " +:+ S.LoggerConfig.APIKey (S.config l))]
         (Some (JSONBytes data)) in
     S.currentTrace l = Some tr /\
     S.marshalEvents E tr (S.maps w) (S.arrays w) = Ok data /\
     S.LoggerConfig.DryRun (S.config l) = false /\
     S.urlError E url = None /\
     S.logged w' = S.logged w /\
     S.sent w' = S.sent w ++ [req] /\
     match (S.Do E req w).1 with
     | Err _ => err <> None /\ l' = l
     | Ok resp =>
         if (StatusCode resp =? StatusOK) || (StatusCode resp =? StatusCreated)
         then err = None /\ l' = S.set_currentTrace None l
         else err <> None /\ l' = l
     end).
Proof.
  cbv zeta. unfold S.FlushWithContext.
  destruct (S.currentTrace l) as [tr|] eqn:Hcur; [|left; auto].
  pose proof (single_restore l tr Hcur) as Hback.
  destruct (S.marshalEvents E tr (S.maps w) (S.arrays w)) as [data|e] eqn:Hdata.
  2:{ left. split; [done|]. split; [done|]. right; left. by exists tr, e. }
  simpl S.config.
  destruct (S.LoggerConfig.DryRun (S.config l)) eqn:Hdry.
  { left. split; [done|]. split; [done|]. right; right; left. done. }
  unfold S.NewRequestWithContext.
  destruct (S.urlError E _) as [e|] eqn:Hurl.
  { left. split; [done|]. split; [done|]. do 3 right. by exists e. }
  cbv beta iota zeta.
  match goal with
  | |- context [S.Do E ?r w] =>
      change r with
        (mkRequest "POST"
           (S.LoggerConfig.BaseURL (S.config l) +:+ "/projects/"
            +:+ S.LoggerConfig.ProjectID (S.config l) +:+ "/log_streams/"
            +:+ S.LoggerConfig.LogStreamID (S.config l) +:+ "/events")
           [("Content-Type", "application/json");
            ("Authorization", "Bearer " +:+ S.LoggerConfig.APIKey (S.config l))]
           (Some (JSONBytes data)))
  end.
  match goal with
  | |- context [S.Do E ?r w] =>
      pose proof (single_Do_frame E r w) as (_ & Hl & Hs);
      destruct (S.Do E r w) as [res w1] eqn:HDo
  end.
  cbn [fst snd] in Hl, Hs.
  destruct res as [resp|e].
  - unfold S.statusAccepted.
    destruct ((StatusCode resp =? StatusOK) || (StatusCode resp =? StatusCreated))
      eqn:Hstatus;
      cbn [negb]; right; exists tr, data; cbv zeta; rewrite HDo; cbn [fst];
      rewrite Hstatus, ?Hback; by repeat split.
  - right. exists tr, data. cbv zeta. rewrite HDo. cbn [fst]. rewrite ?Hback.
    by repeat split.
Qed.

(** X19.  After a Flush of the single-trace logger that returned nil,
    the logger has no trace, and a second Flush returns the error "no
    trace to flush" and changes nothing, in dry-run mode as well. *)
Theorem X19_single_flush_after_success_fails (E' : S.Env R) l w l' w' :
  S.FlushWithContext E l w = (None, l', w') ->
  S.currentTrace l' = None /\
  S.FlushWithContext E' l' w' = (Some (errNew "no trace to flush"), l', w').
Proof.
  intros Hflush.
  pose proof (single_flush_cases E l w) as (Hl & _).
  rewrite Hflush in Hl. destruct Hl as [Hcur _].
  split; [done|]. unfold S.FlushWithContext. by rewrite Hcur.
Qed.

(** X20.  Conclude of the single-trace logger does not close the trace.
    A second Conclude overwrites output and duration and appends its
    tags after those of the first: the trace then shows the tags it had,
    those of the first call, and those that the slice of the second
    call shows once the first call is done, which the first call may
    have written.  Both leave the spans as they are.  An AddSpan after
    Conclude still adds its span at the end of the trace, which keeps
    the output and the tags it was concluded with. *)
Theorem X20_single_conclude_leaves_trace_open
    (c1 c2 : S.ConcludeConfig.t) (sc : S.SpanConfig.t) l w (tr : S.Trace.t) :
  S.currentTrace l = Some tr ->
  wfSlice (S.arrays w) (S.Trace.Tags tr) ->
  wfSlice (S.arrays w) (S.ConcludeConfig.Tags c1) ->
  wfSlice (S.arrays w) (S.ConcludeConfig.Tags c2) ->
  let st1 := S.Conclude c1 l w in
  let st2 := S.Conclude c2 st1.1 st1.2 in
  exists tr1 tr2,
    S.currentTrace st1.1 = Some tr1 /\
    S.currentTrace st2.1 = Some tr2 /\
    S.Trace.Input tr2 = S.Trace.Input tr /\
    S.Trace.Output tr2 = S.ConcludeConfig.Output c2 /\
    S.Trace.DurationNs tr2 = S.ConcludeConfig.DurationNs c2 /\
    S.Trace.Spans tr2 = S.Trace.Spans tr /\
    S.Trace.Metadata tr2 = S.Trace.Metadata tr /\
    sliceElems (S.arrays st2.2) (S.Trace.Tags tr2) =
      sliceElems (S.arrays w) (S.Trace.Tags tr)
      ++ sliceElems (S.arrays w) (S.ConcludeConfig.Tags c1)
      ++ sliceElems (S.arrays st1.2) (S.ConcludeConfig.Tags c2) /\
    S.AddSpan sc st1.1 st1.2 =
      (Some (S.Span.mk (S.SpanConfig.Name sc) (S.SpanConfig.Input sc)
                       (S.SpanConfig.Output sc) (S.SpanConfig.DurationNs sc)
                       (S.SpanConfig.Metadata sc) (S.SpanConfig.Tags sc)),
       S.set_currentTrace
         (Some (S.Trace.mk (S.Trace.Input tr) (S.ConcludeConfig.Output c1)
                  (S.ConcludeConfig.DurationNs c1)
                  (S.Trace.Spans tr ++
                     [S.Span.mk (S.SpanConfig.Name sc) (S.SpanConfig.Input sc)
                                (S.SpanConfig.Output sc) (S.SpanConfig.DurationNs sc)
                                (S.SpanConfig.Metadata sc) (S.SpanConfig.Tags sc)])
                  (S.Trace.Tags tr1) (S.Trace.Metadata tr)))
         st1.1,
       st1.2).
Proof.
  intros Hcur Htr Hc1 Hc2. cbv zeta.
  pose proof (appendSlice_elems (S.growslice w) _ _ _ Htr Hc1) as He1.
  pose proof (appendSlice_result_wf (S.growslice w) _ _ _ Htr Hc1) as Hw1.
  pose proof (appendSlice_wf (S.growslice w) (S.Trace.Tags tr)
                (S.ConcludeConfig.Tags c1) _ _ Hc2) as Hw2.
  rewrite (single_conclude_active c1 l w tr Hcur). cbv zeta.
  destruct (appendSlice (S.growslice w) (S.Trace.Tags tr)
              (S.ConcludeConfig.Tags c1) (S.arrays w)) as [tags1 arrs1].
  cbn [fst snd] in *.
  pose proof (appendSlice_elems (S.growslice w) _ _ _ Hw1 Hw2) as He2.
  erewrite single_conclude_active by reflexivity. cbv zeta.
  cbn [S.arrays S.set_arrays S.growslice S.Trace.Tags S.Trace.Input
       S.Trace.Spans S.Trace.Metadata].
  destruct (appendSlice (S.growslice w) tags1 (S.ConcludeConfig.Tags c2) arrs1)
    as [tags2 arrs2].
  cbn [fst snd] in *.
  eexists _, _. split; [reflexivity|]. split; [reflexivity|].
  cbn. repeat (split; [reflexivity|]).
  split; [|reflexivity]. by rewrite He2, He1, <- app_assoc.
Qed.

End SingleRuns.

Lemma X16_single_dry_run_never_sends_witness :
  let st' := SingleProgram.run (Demo.singleEnv (Demo.answering 200 "ok") [])
                               Samples.dryCalls (Samples.dryLogger, Demo.singleWorld) in
  S.LoggerConfig.DryRun (S.config st'.1) = true /\
  S.sent st'.2 = [] /\ S.net st'.2 = 0%nat.
Proof.
  exact (X16_single_dry_run_never_sends
           (Demo.singleEnv (Demo.answering 200 "ok") [])
           Samples.dryCalls Samples.dryLogger Demo.singleWorld eq_refl).
Defined.

Lemma X19_single_flush_after_success_fails_witness :
  match S.FlushWithContext (Demo.singleEnv (Demo.answering 200 "ok") [])
                           Demo.singleActive Demo.singleWorld with
  | (None, l', w') =>
      S.currentTrace l' = None /\
      S.FlushWithContext (Demo.singleEnv Demo.unreachable []) l' w'
      = (Some (errNew "no trace to flush"), l', w')
  | _ => False
  end.
Proof.
  destruct (S.FlushWithContext (Demo.singleEnv (Demo.answering 200 "ok") [])
                               Demo.singleActive Demo.singleWorld)
    as [[[e|] l'] w'] eqn:Hflush; [vm_compute in Hflush; discriminate Hflush|].
  exact (X19_single_flush_after_success_fails
           (Demo.singleEnv (Demo.answering 200 "ok") [])
           (Demo.singleEnv Demo.unreachable [])
           Demo.singleActive Demo.singleWorld l' w' Hflush).
Defined.

Lemma X20_single_conclude_leaves_trace_open_witness :
  let st1 := S.Conclude Demo.sharedDone Demo.singleShared Demo.singleWorld in
  let st2 := S.Conclude Demo.sharedLate st1.1 st1.2 in
  sliceElems (S.arrays Demo.singleWorld) (MkSlice 2%positive 1 1 1) = ["x"] /\
  exists tr1 tr2,
    S.currentTrace st1.1 = Some tr1 /\
    S.currentTrace st2.1 = Some tr2 /\
    S.Trace.Output tr2 = "late" /\
    S.Trace.DurationNs tr2 = 5 /\
    S.Trace.Spans tr2 =
      [S.Span.mk "step" (VStr "in") (VStr "out") 5 None Demo.arrTwo] /\
    sliceElems (S.arrays st2.2) (S.Trace.Tags tr2) = ["t"; "done"; "done"] /\
    S.currentTrace (S.AddSpan Demo.singleToolSpan st1.1 st1.2).1.2 =
      Some (S.Trace.mk "ping" "pong" 1000000
              [S.Span.mk "step" (VStr "in") (VStr "out") 5 None Demo.arrTwo;
               S.Span.mk "get_weather" (VStr "London") (VStr "15C") 500000000
                         None (MkSlice 1%positive 0 1 1)]
              (S.Trace.Tags tr1) None).
Proof.
  cbv zeta. split; [reflexivity|].
  destruct (X20_single_conclude_leaves_trace_open (R := nat)
              Demo.sharedDone Demo.sharedLate Demo.singleToolSpan
              Demo.singleShared Demo.singleWorld
              (S.Trace.mk "ping" "" 0
                 [S.Span.mk "step" (VStr "in") (VStr "out") 5 None Demo.arrTwo]
                 Demo.arrOne None) eq_refl)
    as (tr1 & tr2 & H1 & H2 & _ & Hout & Hdur & Hspans & _ & Htags & Hadd).
  1-3: split; [simpl; lia|]; eexists; (split; [reflexivity|]); simpl; lia.
  exists tr1, tr2. split; [exact H1|]. split; [exact H2|].
  split; [exact Hout|]. split; [exact Hdur|]. split; [exact Hspans|].
  split; [exact Htags|]. by rewrite Hadd.
Defined.

(** ** The single-trace program: project and log stream resolution *)

Section SingleResolve.
Context {R : Type}.
Variable E : S.Env R.
Implicit Types (w : S.World R).

(** makeAPIRequest sends nothing when the request cannot be built, and
    else performs the request with the bearer token and the JSON content
    type. *)
Lemma single_makeAPIRequest_cases (method url apiKey : string)
    (body : option Payload) w :
  S.makeAPIRequest E method url apiKey body w =
  match S.urlError E url with
  | Some e => (Err (errWrap "failed to create request" e), w)
  | None =>
      S.Do E (mkRequest method url
                [("Authorization", "Bearer " +:+ apiKey);
                 ("Content-Type", "application/json")] body) w
  end.
Proof.
  unfold S.makeAPIRequest, S.NewRequestWithContext.
  by destruct (S.urlError E url).
Qed.

Lemma single_createProject_sent (apiKey projectName : string) w :
  let creation :=
    mkRequest "POST" "https://api.galileo.ai/v2/projects"
      [("Authorization", "Bearer " +:+ apiKey); ("Content-Type", "application/json")]
      (Some (JSONFields [("name", projectName)])) in
  let '(res, w') := S.createProject E apiKey projectName w in
  match S.urlError E "https://api.galileo.ai/v2/projects" with
  | Some _ => (exists e, res = Err e) /\ S.sent w' = S.sent w
  | None => S.sent w' = S.sent w ++ [creation]
  end.
Proof.
  cbv zeta. unfold S.createProject. rewrite single_makeAPIRequest_cases.
  destruct (S.urlError E _) as [e|]; [by eauto|].
  match goal with
  | |- context [S.Do E ?r w] =>
      pose proof (single_Do_frame E r w) as (_ & _ & Hs);
      destruct (S.Do E r w) as [res w1]
  end.
  simpl in Hs.
  destruct res as [resp|e]; [destruct (negb _); [done|]|done].
  by destruct (S.decodeCreateProject E _).
Qed.

Lemma single_createLogStream_sent (apiKey projectID logStreamName : string) w :
  let url := "https://api.galileo.ai/v2/projects/" +:+ projectID +:+ "/log_streams" in
  let creation :=
    mkRequest "POST" url
      [("Authorization", "Bearer " +:+ apiKey); ("Content-Type", "application/json")]
      (Some (JSONFields [("name", logStreamName)])) in
  let '(res, w') := S.createLogStream E apiKey projectID logStreamName w in
  match S.urlError E url with
  | Some _ => (exists e, res = Err e) /\ S.sent w' = S.sent w
  | None => S.sent w' = S.sent w ++ [creation]
  end.
Proof.
  cbv zeta. unfold S.createLogStream. rewrite single_makeAPIRequest_cases.
  destruct (S.urlError E _) as [e|]; [by eauto|].
  match goal with
  | |- context [S.Do E ?r w] =>
      pose proof (single_Do_frame E r w) as (_ & _ & Hs);
      destruct (S.Do E r w) as [res w1]
  end.
  simpl in Hs.
  destruct res as [resp|e]; [destruct (negb _); [done|]|done].
  by destruct (S.decodeLogStream E _).
Qed.

(** X21.  getOrCreateProjectID of the single-trace program.  With an
    empty key or an empty name it returns an error and does nothing.
    Else it lists the projects of that name (the name escaped).  When
    the listing cannot be sent, fails, is answered with another status
    than 200 or does not decode, the result is an error and no project
    is created.  Otherwise the first listed project of exactly that
    name decides.  When it has a nonempty identifier, that identifier is
    returned and the listing is the only request.  When no listed
    project has that name, or when the first that has it carries the
    empty identifier, whatever follows it in the listing, a POST to
    [/projects] with the name as its body comes next, unless that
    request cannot be built. *)
Theorem X21_single_get_or_create_project_id (apiKey projectName : string) w :
  let headers := [("Authorization", "Bearer " +:+ apiKey);
                  ("Content-Type", "application/json")] in
  let listing :=
    mkRequest "GET" ("https://api.galileo.ai/v2/projects?name="
                     +:+ S.QueryEscape E projectName) headers None in
  let creation :=
    mkRequest "POST" "https://api.galileo.ai/v2/projects" headers
              (Some (JSONFields [("name", projectName)])) in
  let '(res, w') := S.getOrCreateProjectID E apiKey projectName w in
  let failed := (exists e, res = Err e) /\ S.sent w' = S.sent w ++ [listing] in
  let created :=
    match S.urlError E (URL creation) with
    | Some _ => failed
    | None => S.sent w' = S.sent w ++ [listing; creation]
    end in
  if String.eqb apiKey "" || String.eqb projectName ""
  then w' = w /\ exists msg, res = Err (errNew msg)
  else
    match S.urlError E (URL listing) with
    | Some _ => w' = w /\ exists e, res = Err e
    | None =>
        match (S.Do E listing w).1 with
        | Err _ => failed
        | Ok resp =>
            if StatusCode resp =? StatusOK
            then
              match S.decodeSearchProjects E (RespBody resp) with
              | Err _ => failed
              | Ok data =>
                  (forall before p after,
                     data = before ++ p :: after ->
                     Forall (fun q => S.ProjectName_ q <> projectName) before ->
                     S.ProjectName_ p = projectName ->
                     if String.eqb (S.ProjectID_ p) ""
                     then created
                     else res = Ok (S.ProjectID_ p) /\
                          S.sent w' = S.sent w ++ [listing]) /\
                  (Forall (fun q => S.ProjectName_ q <> projectName) data ->
                   created)
              end
            else failed
        end
    end.
Proof.
  cbv zeta. unfold S.getOrCreateProjectID.
  destruct (String.eqb apiKey ""); [simpl; by eauto|].
  destruct (String.eqb projectName ""); [simpl; by eauto|].
  cbn [orb URL]. unfold S.getProjectIDByName.
  rewrite single_makeAPIRequest_cases.
  destruct (S.urlError E _) as [e|]; [by eauto|].
  match goal with
  | |- context [S.Do E ?r w] =>
      pose proof (single_Do_frame E r w) as (_ & _ & Hs);
      destruct (S.Do E r w) as [res0 w1]
  end.
  cbn [fst snd] in *.
  destruct res0 as [resp|e]; [|by eauto].
  destruct (StatusCode resp =? StatusOK); cbn [negb]; [|by eauto].
  destruct (S.decodeSearchProjects E (RespBody resp)) as [data|e]; [|by eauto].
  set (id := S.findProjectID projectName data).
  assert (Hcase :
    forall res w',
      (if negb (String.eqb id "")
       then (Ok id,
             S.logPrintln ("Found existing project '" +:+ projectName
                           +:+ "' with ID: " +:+ id) w1)
       else
         let w2 := S.logPrintln ("Project '" +:+ projectName
                                 +:+ "' not found, creating a new one...") w1 in
         let '(res', w3) := S.createProject E apiKey projectName w2 in
         match res' with
         | Err e => (Err (errWrap "error creating project" e), w3)
         | Ok newProjectID =>
             (Ok newProjectID,
              S.logPrintln ("Successfully created new project '" +:+ projectName
                            +:+ "' with ID: " +:+ newProjectID) w3)
         end) = (res, w') ->
      let listing :=
        mkRequest "GET" ("https://api.galileo.ai/v2/projects?name="
                         +:+ S.QueryEscape E projectName)
          [("Authorization", "Bearer " +:+ apiKey);
           ("Content-Type", "application/json")] None in
      let creation :=
        mkRequest "POST" "https://api.galileo.ai/v2/projects"
          [("Authorization", "Bearer " +:+ apiKey);
           ("Content-Type", "application/json")]
          (Some (JSONFields [("name", projectName)])) in
      if String.eqb id ""
      then match S.urlError E "https://api.galileo.ai/v2/projects" with
           | Some _ => (exists e, res = Err e) /\ S.sent w' = S.sent w ++ [listing]
           | None => S.sent w' = S.sent w ++ [listing; creation]
           end
      else res = Ok id /\ S.sent w' = S.sent w ++ [listing]).
  { intros res w' Hrun. cbv zeta.
    destruct (String.eqb id ""); cbn [negb] in Hrun.
    - pose proof (single_createProject_sent apiKey projectName
          (S.logPrintln ("Project '" +:+ projectName
                         +:+ "' not found, creating a new one...") w1)) as Hc.
      cbv zeta in Hc, Hrun.
      destruct (S.createProject E apiKey projectName _) as [res1 w3].
      destruct (S.urlError E "https://api.galileo.ai/v2/projects") as [e|].
      + destruct Hc as ((e' & ->) & Hc). injection Hrun as <- <-.
        simpl in Hc. split; [by eauto|]. by rewrite Hc, Hs.
      + destruct res1; injection Hrun as <- <-; simpl in *;
          by rewrite Hc, Hs, <- app_assoc.
    - injection Hrun as <- <-. split; [done|]. simpl. by rewrite Hs. }
  match goal with
  | |- (let '(res, w') := ?run in _) =>
      destruct run as [res w']
  end.
  specialize (Hcase res w' eq_refl). cbv zeta in Hcase.
  split.
  - intros before p after Hdata Hbefore Hname.
    assert (id = S.ProjectID_ p) as <-; [|exact Hcase].
    unfold id. subst data. clear -Hbefore Hname.
    induction Hbefore as [|q before Hq _ IH]; simpl.
    + apply String.eqb_eq in Hname. by rewrite Hname.
    + apply String.eqb_neq in Hq. by rewrite Hq.
  - intros Hnone.
    assert (id = "") as Hid; [|by rewrite Hid in Hcase].
    unfold id. clear -Hnone.
    induction Hnone as [|q data Hq _ IH]; simpl; [done|].
    apply String.eqb_neq in Hq. by rewrite Hq.
Qed.

(** X22.  getOrCreateLogStreamID of the single-trace program.  With an
    empty project identifier or an empty name it returns an error and
    does nothing.  Else it lists the log streams of the project, the
    name put into the query as it is.  A failed listing gives an error
    and creates nothing.  A listing whose first entry has a nonempty
    identifier gives that identifier, whatever the name of the entry,
    and is the only request.  Only an empty listing, or one whose first
    identifier is empty, is followed by a POST to
    [/projects/<project id>/log_streams] with the name as its body. *)
Theorem X22_single_get_or_create_log_stream_id
    (apiKey projectID logStreamName : string) w :
  let headers := [("Authorization", "Bearer " +:+ apiKey);
                  ("Content-Type", "application/json")] in
  let listing :=
    mkRequest "GET" ("https://api.galileo.ai/v2/projects/" +:+ projectID
                     +:+ "/log_streams?name=" +:+ logStreamName) headers None in
  let creation :=
    mkRequest "POST" ("https://api.galileo.ai/v2/projects/" +:+ projectID
                      +:+ "/log_streams") headers
              (Some (JSONFields [("name", logStreamName)])) in
  let found :=
    match (S.Do E listing w).1 with
    | Ok resp =>
        if StatusCode resp =? StatusOK
        then match S.decodeGetLogStreams E (RespBody resp) with
             | Ok (first :: _) => Some (S.StreamID_ first)
             | Ok [] => Some ""
             | Err _ => None
             end
        else None
    | Err _ => None
    end in
  let '(res, w') := S.getOrCreateLogStreamID E apiKey projectID logStreamName w in
  if String.eqb projectID "" || String.eqb logStreamName ""
  then w' = w /\ exists msg, res = Err (errNew msg)
  else
    match S.urlError E (URL listing) with
    | Some _ => w' = w /\ exists e, res = Err e
    | None =>
        match found with
        | None => (exists e, res = Err e) /\ S.sent w' = S.sent w ++ [listing]
        | Some id =>
            if String.eqb id ""
            then match S.urlError E (URL creation) with
                 | Some _ => (exists e, res = Err e) /\
                             S.sent w' = S.sent w ++ [listing]
                 | None => S.sent w' = S.sent w ++ [listing; creation]
                 end
            else res = Ok id /\ S.sent w' = S.sent w ++ [listing]
        end
    end.
Proof.
  cbv zeta. unfold S.getOrCreateLogStreamID.
  destruct (String.eqb projectID ""); [simpl; by eauto|].
  destruct (String.eqb logStreamName ""); [simpl; by eauto|].
  cbn [orb URL]. unfold S.getLogStreamIDByName.
  rewrite single_makeAPIRequest_cases.
  destruct (S.urlError E _) as [e|]; [by eauto|].
  match goal with
  | |- context [S.Do E ?r w] =>
      pose proof (single_Do_frame E r w) as (_ & _ & Hs);
      destruct (S.Do E r w) as [res0 w1]
  end.
  cbn [fst snd] in *.
  destruct res0 as [resp|e]; [|by eauto].
  destruct (StatusCode resp =? StatusOK); cbn [negb]; [|by eauto].
  destruct (S.decodeGetLogStreams E (RespBody resp)) as [data|e]; [|by eauto].
  assert (Hcreation :
    forall w2, S.sent w2 = S.sent w1 ->
      let '(res, w') :=
        let '(res', w3) :=
          S.createLogStream E apiKey projectID logStreamName w2 in
        match res' with
        | Err e => (Err (errWrap "error creating log stream" e), w3)
        | Ok newLogStreamID =>
            (Ok newLogStreamID,
             S.logPrintln ("Successfully created new log stream '" +:+ logStreamName
                           +:+ "' with ID: " +:+ newLogStreamID) w3)
        end in
      match S.urlError E ("https://api.galileo.ai/v2/projects/" +:+ projectID
                          +:+ "/log_streams") with
      | Some _ =>
          (exists e, res = Err e) /\
          S.sent w' = S.sent w ++
            [mkRequest "GET" ("https://api.galileo.ai/v2/projects/" +:+ projectID
                              +:+ "/log_streams?name=" +:+ logStreamName)
               [("Authorization", "Bearer " +:+ apiKey);
                ("Content-Type", "application/json")] None]
      | None =>
          S.sent w' = S.sent w ++
            [mkRequest "GET" ("https://api.galileo.ai/v2/projects/" +:+ projectID
                              +:+ "/log_streams?name=" +:+ logStreamName)
               [("Authorization", "Bearer " +:+ apiKey);
                ("Content-Type", "application/json")] None;
             mkRequest "POST" ("https://api.galileo.ai/v2/projects/" +:+ projectID
                               +:+ "/log_streams")
               [("Authorization", "Bearer " +:+ apiKey);
                ("Content-Type", "application/json")]
               (Some (JSONFields [("name", logStreamName)]))]
      end).
  { intros w2 Hw2.
    pose proof (single_createLogStream_sent apiKey projectID logStreamName w2) as Hc.
    cbv zeta in Hc.
    destruct (S.createLogStream E apiKey projectID logStreamName w2) as [res1 w3].
    destruct (S.urlError E _) as [e|].
    - destruct Hc as ((e' & ->) & Hc). split; [by eauto|].
      by rewrite Hc, Hw2, Hs.
    - destruct res1; simpl; by rewrite Hc, Hw2, Hs, <- app_assoc. }
  destruct data as [|first rest].
  - change (String.eqb "" "") with true. cbn [negb].
    exact (Hcreation (S.logPrintln _ w1) eq_refl).
  - destruct (String.eqb (S.StreamID_ first) ""); cbn [negb].
    + exact (Hcreation (S.logPrintln _ w1) eq_refl).
    + simpl. by rewrite Hs.
Qed.

End SingleResolve.

Lemma X21_single_get_or_create_project_id_witness :
  let '(res, w') :=
    S.getOrCreateProjectID Samples.shadowedEnv "key" "demo" Demo.singleWorld in
  S.sent w' =
    [mkRequest "GET" "https://api.galileo.ai/v2/projects?name=demo"
       [("Authorization", "Bearer key"); ("Content-Type", "application/json")] None;
     mkRequest "POST" "https://api.galileo.ai/v2/projects"
       [("Authorization", "Bearer key"); ("Content-Type", "application/json")]
       (Some (JSONFields [("name", "demo")]))].
Proof.
  pose proof (X21_single_get_or_create_project_id Samples.shadowedEnv
                "key" "demo" Demo.singleWorld) as Hcases.
  cbv zeta in Hcases.
  destruct (S.getOrCreateProjectID Samples.shadowedEnv "key" "demo" Demo.singleWorld)
    as [res w'].
  vm_compute in Hcases. destruct Hcases as [Hfirst _].
  exact (Hfirst [] (S.mkProjectV2 "" "demo") [S.mkProjectV2 "p-7" "demo"]
           eq_refl (Forall_nil_2 _) eq_refl).
Defined.

(** ** The programs' entry points *)

(** X23.  The two getEnv functions differ on a variable that is set to
    the empty string: the buffered program returns the empty string, the
    single-trace program the default.  They agree on every other
    environment, and the single-trace one returns the empty string only
    when the default is empty. *)
Theorem X23_getEnv_variants (environ : gmap string string) (key d : string) :
  (environ !! key <> Some "" ->
   BufferedProgram.getEnv environ key d = SingleProgram.getEnv environ key d) /\
  (environ !! key = Some "" ->
   BufferedProgram.getEnv environ key d = "" /\
   SingleProgram.getEnv environ key d = d) /\
  (SingleProgram.getEnv environ key d = "" -> d = "").
Proof.
  unfold BufferedProgram.getEnv, SingleProgram.getEnv.
  destruct (environ !! key) as [v|]; simpl.
  - destruct (String.eqb_spec v "") as [->|Hv]; simpl.
    + split; [done|]. split; [done|]. done.
    + split; [done|]. split; [congruence|]. done.
  - done.
Qed.

Lemma X23_getEnv_variants_witness :
  BufferedProgram.getEnv {["GALILEO_PROJECT" := ""]} "GALILEO_PROJECT" "go-demo" = "" /\
  SingleProgram.getEnv {["GALILEO_PROJECT" := ""]} "GALILEO_PROJECT" "go-demo" = "go-demo" /\
  BufferedProgram.getEnv Samples.keyOnly "GALILEO_API_KEY" "" =
  SingleProgram.getEnv Samples.keyOnly "GALILEO_API_KEY" "".
Proof.
  destruct (X23_getEnv_variants {["GALILEO_PROJECT" := ""]} "GALILEO_PROJECT" "go-demo")
    as (_ & Hempty & _).
  destruct (Hempty eq_refl) as [Hb Hs].
  destruct (X23_getEnv_variants Samples.keyOnly "GALILEO_API_KEY" "") as (Hsame & _).
  split; [exact Hb|]. split; [exact Hs|].
  apply Hsame. vm_compute. discriminate.
Defined.

Section SingleMain.
Context {R : Type}.
Variable E : S.Env R.
Variable render : error -> string.
Implicit Types (l : S.Logger) (w : S.World R).

(** The example keeps the configuration, sends at most one request, and
    none in dry-run mode. *)
Lemma single_example_frame l w :
  let st' := SingleProgram.llmAndToolExample E render l w in
  S.config st'.1 = S.config l /\
  (S.sent st'.2 = S.sent w \/ exists req, S.sent st'.2 = S.sent w ++ [req]) /\
  (S.LoggerConfig.DryRun (S.config l) = true ->
   S.sent st'.2 = S.sent w /\ S.net st'.2 = S.net w).
Proof.
  cbv zeta. unfold SingleProgram.llmAndToolExample.
  unfold S.StartTraceWithContext, SingleProgram.makeMap, SingleProgram.makeSlice.
  cbv beta iota zeta.
  match goal with
  | |- context [S.AddLlmSpan ?cfg ?l0 ?w0] =>
      pose proof (single_exec_frame E (SingleProgram.CallAddLlmSpan cfg) l0 w0)
        as (Hc1 & Hn1 & _);
      cbv zeta in Hc1, Hn1; cbn [SingleProgram.exec] in Hc1, Hn1;
      specialize (Hn1 ltac:(discriminate));
      destruct (S.AddLlmSpan cfg l0 w0) as [l1 w1]
  end.
  cbn [fst snd] in Hc1, Hn1.
  match goal with
  | |- context [S.AddSpan ?cfg ?l0 ?w0] =>
      pose proof (single_exec_frame E (SingleProgram.CallAddSpan cfg) l0 w0)
        as (Hc2 & Hn2 & _);
      cbv zeta in Hc2, Hn2; cbn [SingleProgram.exec] in Hc2, Hn2;
      specialize (Hn2 ltac:(discriminate));
      destruct (S.AddSpan cfg l0 w0) as [[sp l2] w2]
  end.
  cbn [fst snd] in Hc2, Hn2.
  match goal with
  | |- context [S.Conclude ?cfg ?l0 ?w0] =>
      pose proof (single_exec_frame E (SingleProgram.CallConclude cfg) l0 w0)
        as (Hc3 & Hn3 & _);
      cbv zeta in Hc3, Hn3; cbn [SingleProgram.exec] in Hc3, Hn3;
      specialize (Hn3 ltac:(discriminate));
      destruct (S.Conclude cfg l0 w0) as [l3 w3]
  end.
  cbn [fst snd] in Hc3, Hn3.
  pose proof (single_exec_frame E SingleProgram.CallFlush l3 w3)
    as (Hc4 & _ & Hs4 & Hd4).
  cbv zeta in Hc4, Hs4, Hd4. cbn [SingleProgram.exec] in Hc4, Hs4, Hd4.
  destruct (S.FlushWithContext E l3 w3) as [[err l4] w4].
  cbn [fst snd] in Hc4, Hs4, Hd4.
  simpl in Hc1, Hn1.
  cbn [S.sent S.net S.set_arrays] in Hn2, Hn3.
  destruct Hn1 as [Hs1 Hn1], Hn2 as [Hs2 Hn2], Hn3 as [Hs3 Hn3].
  assert (Hcfg : S.config l4 = S.config l) by congruence.
  assert (Hsent : S.sent w3 = S.sent w) by congruence.
  assert (Hnet : S.net w3 = S.net w) by congruence.
  rewrite Hsent in Hs4, Hd4. rewrite Hnet in Hd4.
  assert (Hdry : S.LoggerConfig.DryRun (S.config l) = true ->
                 S.sent w4 = S.sent w /\ S.net w4 = S.net w).
  { intros Hdry. apply Hd4. by rewrite Hc3, Hc2, Hc1. }
  by destruct err.
Qed.

Lemma single_new_logger_config (cfg : S.LoggerConfig.t) w :
  let l := (S.NewLoggerWithConfig cfg w).1 in
  S.LoggerConfig.ProjectID (S.config l) = S.LoggerConfig.ProjectID cfg /\
  S.LoggerConfig.LogStreamID (S.config l) = S.LoggerConfig.LogStreamID cfg /\
  S.LoggerConfig.APIKey (S.config l) = S.LoggerConfig.APIKey cfg.
Proof.
  unfold S.NewLoggerWithConfig.
  destruct cfg as [pid lsid key base dry]. simpl.
  destruct (String.eqb base ""); simpl;
    destruct (String.eqb key ""); simpl;
    destruct dry; simpl;
    destruct (String.eqb pid ""); simpl;
    destruct (String.eqb lsid ""); simpl; done.
Qed.

(** What main does once project and log stream are settled. *)
Lemma single_main_tail (cfg : S.LoggerConfig.t) w :
  let '(l0, w0) := S.NewLoggerWithConfig cfg w in
  let '(l, w1) := SingleProgram.llmAndToolExample E render l0 w0 in
  let w' := S.logPrintln (nl +:+ "=== Example completed successfully ===") w1 in
  S.LoggerConfig.ProjectID (S.config l) = S.LoggerConfig.ProjectID cfg /\
  S.LoggerConfig.LogStreamID (S.config l) = S.LoggerConfig.LogStreamID cfg /\
  S.LoggerConfig.APIKey (S.config l) = S.LoggerConfig.APIKey cfg /\
  (S.sent w' = S.sent w \/ exists req, S.sent w' = S.sent w ++ [req]) /\
  (S.LoggerConfig.APIKey cfg = "" ->
   S.LoggerConfig.DryRun (S.config l) = true /\
   S.sent w' = S.sent w /\ S.net w' = S.net w).
Proof.
  pose proof (single_new_logger cfg w) as Hnew.
  pose proof (single_new_logger_config cfg w) as (Hp & Hl & Hk). cbv zeta in Hp, Hl, Hk.
  destruct (S.NewLoggerWithConfig cfg w) as [l0 w0].
  destruct Hnew as (_ & Hdry & _ & Hnet & Hsent). cbn [fst] in Hp, Hl, Hk.
  pose proof (single_example_frame l0 w0) as (Hcfg & Hs & Hd).
  cbv zeta in Hcfg, Hs, Hd.
  destruct (SingleProgram.llmAndToolExample E render l0 w0) as [l w1].
  cbn [fst snd] in Hcfg, Hs, Hd. cbv zeta.
  rewrite Hcfg. repeat (split; [done|]).
  change (S.sent (S.logPrintln _ w1)) with (S.sent w1).
  change (S.net (S.logPrintln _ w1)) with (S.net w1).
  rewrite <- Hsent, <- Hnet. split; [done|].
  intros Hkey. rewrite Hdry, Hkey. 
  change (String.eqb "" "") with true. rewrite orb_true_r. simpl.
  split; [done|]. apply Hd. rewrite Hdry, Hkey.
  change (String.eqb "" "") with true. by rewrite orb_true_r.
Qed.

(** X24.  Without an API key in the environment (unset or empty), main
    of the single-trace program ends normally whatever else is set: it
    resolves neither project nor log stream, its logger is in dry-run
    mode, and no request is sent. *)
Theorem X24_single_main_without_key (environ : gmap string string)
    (dotenv : bool) w :
  SingleProgram.getEnv environ "GALILEO_API_KEY" "" = "" ->
  exists l w',
    SingleProgram.main E render environ dotenv w = Done (l, w') /\
    S.LoggerConfig.DryRun (S.config l) = true /\
    S.sent w' = S.sent w /\ S.net w' = S.net w.
Proof.
  intros Hkey. unfold SingleProgram.main. rewrite Hkey.
  change (negb (String.eqb "" "")) with false.
  rewrite !andb_false_r. cbn [andb].
  unfold mbind, outcome_bind. cbn [obind].
  match goal with
  | |- context [S.NewLoggerWithConfig ?cfg ?w0] =>
      pose proof (single_main_tail cfg w0) as Htail;
      assert (Hw0 : S.sent w0 = S.sent w /\ S.net w0 = S.net w)
        by (by destruct dotenv);
      destruct (S.NewLoggerWithConfig cfg w0) as [l0 w1]
  end.
  destruct (SingleProgram.llmAndToolExample E render l0 w1) as [l w2].
  cbv zeta in Htail. destruct Htail as (_ & _ & _ & _ & Hdry).
  destruct (Hdry eq_refl) as (Hd & Hs & Hn). destruct Hw0 as [Hs0 Hn0].
  eexists _, _. split; [reflexivity|]. split; [done|]. split; congruence.
Qed.

(** X25.  main of the single-trace program never panics.  It ends
    fatally only with a key in the environment, when the project was
    not named by its identifier and its resolution failed, or when the
    log stream was not named by its identifier and its resolution
    failed.  When it returns, the logger carries the key of the
    environment; and when the environment names both the project and
    the log stream by identifier, the logger carries these identifiers
    and the whole run sends at most one request. *)
Theorem X25_single_main_outcomes (environ : gmap string string)
    (dotenv : bool) w :
  let key := SingleProgram.getEnv environ "GALILEO_API_KEY" "" in
  let pid := SingleProgram.getEnv environ "GALILEO_PROJECT_ID" "" in
  let lsid := SingleProgram.getEnv environ "GALILEO_LOG_STREAM_ID" "" in
  match SingleProgram.main E render environ dotenv w with
  | Panic _ => False
  | Fatal msg err =>
      key <> "" /\ (exists e, err = Some e) /\
      ((msg = "Failed to get or create project" /\ pid = "") \/
       (msg = "Failed to get or create log stream" /\ lsid = ""))
  | Done (l, w') =>
      S.LoggerConfig.APIKey (S.config l) = key /\
      (pid <> "" -> lsid <> "" ->
       S.LoggerConfig.ProjectID (S.config l) = pid /\
       S.LoggerConfig.LogStreamID (S.config l) = lsid /\
       (S.sent w' = S.sent w \/ exists req, S.sent w' = S.sent w ++ [req]))
  end.
Proof.
  cbv zeta. unfold SingleProgram.main.
  set (key := SingleProgram.getEnv environ "GALILEO_API_KEY" "").
  set (pid := SingleProgram.getEnv environ "GALILEO_PROJECT_ID" "").
  set (lsid := SingleProgram.getEnv environ "GALILEO_LOG_STREAM_ID" "").
  set (w0 := if dotenv then w else _).
  assert (Hw0 : S.sent w0 = S.sent w) by (by destruct dotenv).
  unfold mbind, outcome_bind.
  assert (Htail : forall p s w1,
    (pid <> "" -> lsid <> "" -> p = pid /\ s = lsid /\ w1 = w0) ->
    match
      (let '(galileoLogger, w2) :=
         S.NewLoggerWithConfig (S.LoggerConfig.mk p s key "" false) w1 in
       let '(l, w3) := SingleProgram.llmAndToolExample E render galileoLogger w2 in
       Done (l, S.logPrintln (nl +:+ "=== Example completed successfully ===") w3))
    with
    | Panic _ => False
    | Fatal msg err =>
        key <> "" /\ (exists e, err = Some e) /\
        ((msg = "Failed to get or create project" /\ pid = "") \/
         (msg = "Failed to get or create log stream" /\ lsid = ""))
    | Done (l, w') =>
        S.LoggerConfig.APIKey (S.config l) = key /\
        (pid <> "" -> lsid <> "" ->
         S.LoggerConfig.ProjectID (S.config l) = pid /\
         S.LoggerConfig.LogStreamID (S.config l) = lsid /\
         (S.sent w' = S.sent w \/ exists req, S.sent w' = S.sent w ++ [req]))
    end).
  { intros p s w1 Hgiven.
    pose proof (single_main_tail (S.LoggerConfig.mk p s key "" false) w1) as Ht.
    destruct (S.NewLoggerWithConfig _ w1) as [l0 w2].
    destruct (SingleProgram.llmAndToolExample E render l0 w2) as [l w3].
    cbv zeta in Ht. destruct Ht as (Hp & Hl & Hk & Hs & _).
    split; [done|]. intros Hpid Hlsid.
    destruct (Hgiven Hpid Hlsid) as (-> & -> & ->).
    rewrite Hw0 in Hs. done. }
  assert (Hstreams : forall p w1,
    (pid <> "" -> p = pid /\ w1 = w0) ->
    match
      obind
        (if String.eqb lsid "" && negb (String.eqb key "") && negb (String.eqb p "")
         then
           match S.getOrCreateLogStreamID E key p
                   (SingleProgram.getEnv environ "GALILEO_LOG_STREAM" "production")
                   w1 with
           | (Err e, _) => Fatal "Failed to get or create log stream" (Some e)
           | (Ok id, w2) => Done (id, w2)
           end
         else Done (lsid, w1))
        (fun '(logStreamID, w2) =>
           let '(galileoLogger, w3) :=
             S.NewLoggerWithConfig (S.LoggerConfig.mk p logStreamID key "" false) w2 in
           let '(l, w4) := SingleProgram.llmAndToolExample E render galileoLogger w3 in
           Done (l, S.logPrintln (nl +:+ "=== Example completed successfully ===") w4))
    with
    | Panic _ => False
    | Fatal msg err =>
        key <> "" /\ (exists e, err = Some e) /\
        ((msg = "Failed to get or create project" /\ pid = "") \/
         (msg = "Failed to get or create log stream" /\ lsid = ""))
    | Done (l, w') =>
        S.LoggerConfig.APIKey (S.config l) = key /\
        (pid <> "" -> lsid <> "" ->
         S.LoggerConfig.ProjectID (S.config l) = pid /\
         S.LoggerConfig.LogStreamID (S.config l) = lsid /\
         (S.sent w' = S.sent w \/ exists req, S.sent w' = S.sent w ++ [req]))
    end).
  { intros p w1 Hgiven.
    destruct (String.eqb_spec lsid "") as [Hlsid|Hlsid];
      [destruct (String.eqb_spec key "") as [Hkey|Hkey];
       [|destruct (String.eqb p "")]|]; cbn [andb negb obind].
    3:{ destruct (S.getOrCreateLogStreamID E key p
                      (SingleProgram.getEnv environ "GALILEO_LOG_STREAM" "production")
                      w1) as [[id|e] w2];
          cbn [obind].
        - apply Htail. intros _ Hne. by destruct Hne.
        - split; [done|]. split; [by eexists|]. by right. }
    all: apply Htail; intros Hp Hl; try (by destruct Hl);
      destruct (Hgiven Hp) as [-> ->]; done. }
  destruct (String.eqb_spec pid "") as [Hpid|Hpid];
    [destruct (String.eqb_spec key "") as [Hkey|Hkey]|]; cbn [andb negb obind].
  2:{ destruct (S.getOrCreateProjectID E key
                  (SingleProgram.getEnv environ "GALILEO_PROJECT_NAME" "my-go-v2-project")
                  w0) as [[id|e] w1]; cbn [obind].
      - apply Hstreams. intros Hne. by destruct Hne.
      - split; [done|]. split; [by eexists|]. by left. }
  all: apply Hstreams; done.
Qed.

End SingleMain.

Lemma X24_single_main_without_key_witness :
  exists l w',
    SingleProgram.main (Demo.singleEnv Demo.unreachable []) Samples.render
                       {["GALILEO_PROJECT_ID" := "p-1"]} false Demo.singleWorld
    = Done (l, w') /\
    S.LoggerConfig.DryRun (S.config l) = true /\
    S.sent w' = [] /\ S.net w' = 0%nat.
Proof.
  exact (X24_single_main_without_key
           (Demo.singleEnv Demo.unreachable []) Samples.render
           {["GALILEO_PROJECT_ID" := "p-1"]} false Demo.singleWorld eq_refl).
Defined.

Lemma X25_single_main_outcomes_witness :
  match SingleProgram.main (Demo.singleEnv (Demo.answering 200 "ok") [])
                           Samples.render Samples.allSet true Demo.singleWorld with
  | Done (l, w') =>
      S.LoggerConfig.ProjectID (S.config l) = "p-1" /\
      S.LoggerConfig.LogStreamID (S.config l) = "ls-1" /\
      (S.sent w' = [] \/ exists req, S.sent w' = [] ++ [req])
  | _ => False
  end.
Proof.
  pose proof (X25_single_main_outcomes
                (Demo.singleEnv (Demo.answering 200 "ok") [])
                Samples.render Samples.allSet true Demo.singleWorld) as Hmain.
  cbv zeta in Hmain.
  destruct (SingleProgram.main (Demo.singleEnv (Demo.answering 200 "ok") [])
                               Samples.render Samples.allSet true Demo.singleWorld)
    as [[l w']| |] eqn:Hrun; [|vm_compute in Hrun; discriminate Hrun..].
  destruct Hmain as [_ Hgiven].
  refine (Hgiven _ _); vm_compute; discriminate.
Defined.
